(** * Travel planner: the demand-to-match pipeline

    A shallow embedding of the backend of the hotel recommendation service
    ([app/services/chatgpt_service.py], [app/services/booking_service.py],
    [app/crud/hotel.py], [app/api/v1/recommendations.py]) and the properties
    its specification states about it.

    Modelling conventions.
    - Python [float] and [int] values are exact numbers: [Q] for prices,
      ratings, scores and coordinates, [Z] for counts.  Rounding of binary
      floating point is not modelled.
    - Python [str] is [string]; the text is taken to be ASCII (the euro sign
      is the three bytes of its UTF-8 encoding), so [lower], [title] and the
      character classes of the regular expressions act on ASCII only.
    - A hotel is a [dict]; its keys are the fields of a record and a field
      that is [None] is a key that is missing.  Every field has the type the
      data model gives it, and a key whose value is null is not modelled.
    - [Optional[...]] is [option]; Python truthiness is written out
      ([truthy_Q], [truthy_str], ...).
    - Calls that leave the process (the inference service, the inventory
      provider, the database engine) and the helpers of the Python runtime
      ([hashlib.md5], [hash], [str] of a float, [repr] of a list, [json])
      are parameters, bundled in records.  The digest is also given as
      RFC 1321 defines it ([MD5]), and the statements about the fingerprint
      are about the runtimes whose [hashlib.md5] is that function; [hash]
      of a string differs from one process to the next.
    - The database session keeps the committed rows and its failures.  A
      commit that raises is not followed by a rollback, so that every later
      call on the session raises. *)

From Stdlib Require Import QArith Ascii Sorted.
From stdpp Require Import gmap strings list pretty.

Open Scope string_scope.

(** ** Python strings *)

Module PyStr.

Definition is_upper (c : ascii) : bool :=
  let n := nat_of_ascii c in (65 <=? n)%nat && (n <=? 90)%nat.

Definition is_lower (c : ascii) : bool :=
  let n := nat_of_ascii c in (97 <=? n)%nat && (n <=? 122)%nat.

Definition lower_char (c : ascii) : ascii :=
  if is_upper c then ascii_of_nat (nat_of_ascii c + 32) else c.

Definition upper_char (c : ascii) : ascii :=
  if is_lower c then ascii_of_nat (nat_of_ascii c - 32) else c.

(** [s.lower()] *)
Fixpoint lower (s : string) : string :=
  match s with
  | EmptyString => EmptyString
  | String c s' => String (lower_char c) (lower s')
  end.

(** [s.title()]: a letter that follows a letter is lower-cased, any other
    letter is upper-cased. *)
Fixpoint title_from (after_letter : bool) (s : string) : string :=
  match s with
  | EmptyString => EmptyString
  | String c s' =>
      let cased := is_upper c || is_lower c in
      String (if after_letter then lower_char c else upper_char c)
             (title_from cased s')
  end.

Definition title (s : string) : string := title_from false s.

(** [sub in s] *)
Fixpoint contains (sub s : string) : bool :=
  String.prefix sub s ||
  match s with
  | EmptyString => false
  | String _ s' => contains sub s'
  end.

(** [sep.join(l)] *)
Fixpoint join (sep : string) (l : list string) : string :=
  match l with
  | [] => ""
  | [x] => x
  | x :: l' => x ++ sep ++ join sep l'
  end.

(** Whitespace as [str.isspace] and the class [\s] see it on ASCII. *)
Definition is_space (c : ascii) : bool :=
  let n := nat_of_ascii c in
  (n =? 32)%nat || (9 <=? n)%nat && (n <=? 13)%nat
  || (28 <=? n)%nat && (n <=? 31)%nat.

Definition is_digit (c : ascii) : bool :=
  let n := nat_of_ascii c in (48 <=? n)%nat && (n <=? 57)%nat.

Fixpoint lstrip (s : string) : string :=
  match s with
  | EmptyString => EmptyString
  | String c s' => if is_space c then lstrip s' else s
  end.

(** Right strip: a character is kept when it is not a space or when
    something is kept after it. *)
Fixpoint rstrip (s : string) : string :=
  match s with
  | EmptyString => EmptyString
  | String c s' =>
      match rstrip s' with
      | EmptyString => if is_space c then EmptyString else String c EmptyString
      | r => String c r
      end
  end.

(** [s.strip()] *)
Definition strip (s : string) : string := rstrip (lstrip s).

(** [s.find(sub, start)] for [0 <= start]: the index of the first
    occurrence at or after [start], or [-1]. *)
Fixpoint find_at (sub s : string) (pos : nat) : Z :=
  if String.prefix sub s then Z.of_nat pos
  else match s with
       | EmptyString => (-1)%Z
       | String _ s' => find_at sub s' (S pos)
       end.

Fixpoint drop (n : nat) (s : string) : string :=
  match n, s with
  | O, _ => s
  | S n', String _ s' => drop n' s'
  | S _, EmptyString => EmptyString
  end.

Fixpoint take (n : nat) (s : string) : string :=
  match n, s with
  | S n', String c s' => String c (take n' s')
  | _, _ => EmptyString
  end.

Definition find (sub s : string) (start : nat) : Z :=
  if (String.length s <? start)%nat then (-1)%Z
  else find_at sub (drop start s) start.

(** Slice index as Python resolves it: a negative index counts from the
    end, and the result is clamped to [0, len]. *)
Definition clamp_index (len : nat) (i : Z) : nat :=
  let i' := if (i <? 0)%Z then (i + Z.of_nat len)%Z else i in
  Nat.min len (Z.to_nat i').

(** [s[i:j]] *)
Definition slice (s : string) (i j : Z) : string :=
  let len := String.length s in
  let a := clamp_index len i in
  let b := clamp_index len j in
  take (b - a) (drop a s).

(** The value of a run of decimal digits, as [int(...)] reads it. *)
Fixpoint digits_value (acc : Z) (s : string) : Z :=
  match s with
  | EmptyString => acc
  | String c s' =>
      digits_value (10 * acc + (Z.of_nat (nat_of_ascii c) - 48))%Z s'
  end.

Definition int_of_digits (s : string) : Z := digits_value 0 s.

(** [float(...)] of a run of decimal digits. *)
Definition float_of_digits (s : string) : Q := inject_Z (int_of_digits s).

End PyStr.

(** ** The regular expressions of the fallback strategies

    Every pattern of the source is a sequence of literals, [\s+], [\s*]
    and one capturing [(\d+)].  Quantifiers are greedy and backtrack, and
    [search] returns the leftmost match, as [re.search] does. *)

Module Re.

Inductive atom : Type :=
| Lit (s : string)   (** literal text *)
| Spaces1            (** [\s+] *)
| Spaces0            (** [\s*] *)
| Digits1.           (** [(\d+)], the capture group *)

Definition regex : Type := list atom.

Fixpoint strip_prefix (p s : string) : option string :=
  match p, s with
  | EmptyString, _ => Some s
  | String a p', String b s' =>
      if Ascii.eqb a b then strip_prefix p' s' else None
  | String _ _, EmptyString => None
  end.

(** Greedy repetition of a character class: take the longest run first
    and give characters back while the continuation [k] fails.  [acc] is
    the text consumed so far. *)
Fixpoint greedy {R : Type} (cls : ascii → bool)
    (k : string → string → option R) (acc s : string) : option R :=
  match s with
  | String c s' =>
      if cls c then
        match greedy cls k (acc ++ String c EmptyString) s' with
        | Some r => Some r
        | None => k acc s
        end
      else k acc s
  | EmptyString => k acc s
  end.

(** A match object: [None] when the pattern has no group, otherwise the
    text of group 1. *)
Definition groups : Type := option string.

Fixpoint match_here (p : regex) (cap : groups) (s : string) : option groups :=
  match p with
  | [] => Some cap
  | Lit l :: p' =>
      match strip_prefix l s with
      | Some s' => match_here p' cap s'
      | None => None
      end
  | Spaces0 :: p' =>
      greedy PyStr.is_space (fun _ rest => match_here p' cap rest) "" s
  | Spaces1 :: p' =>
      greedy PyStr.is_space
        (fun acc rest =>
           match acc with
           | EmptyString => None
           | _ => match_here p' cap rest
           end) "" s
  | Digits1 :: p' =>
      greedy PyStr.is_digit
        (fun acc rest =>
           match acc with
           | EmptyString => None
           | _ => match_here p' (Some acc) rest
           end) "" s
  end.

(** [re.search(p, s)] *)
Fixpoint search (p : regex) (s : string) : option groups :=
  match match_here p None s with
  | Some g => Some g
  | None =>
      match s with
      | EmptyString => None
      | String _ s' => search p s'
      end
  end.

End Re.

(** ** Python truthiness and [dict.get] *)

(** [o or d] / [d.get(key, default)] on a key that may be missing. *)
Definition get_or {A : Type} (o : option A) (d : A) : A :=
  match o with
  | Some a => a
  | None => d
  end.

Definition nonzero (q : Q) : bool := negb (Qeq_bool q 0%Q).

(** Truth value of an optional number: [None] and zero are false. *)
Definition truthy_Q (o : option Q) : bool :=
  match o with
  | Some q => nonzero q
  | None => false
  end.

(** Truth value of an optional string: [None] and the empty string are false. *)
Definition truthy_str (o : option string) : bool :=
  match o with
  | Some EmptyString => false
  | Some _ => true
  | None => false
  end.

Definition nonempty_str (s : string) : bool :=
  match s with
  | EmptyString => false
  | _ => true
  end.

Definition truthy_list {A : Type} (o : option (list A)) : bool :=
  match o with
  | Some (_ :: _) => true
  | _ => false
  end.

(** [x in l] for a list of strings. *)
Definition mem (x : string) (l : list string) : bool :=
  existsb (String.eqb x) l.

(** ** [list.sort(key=..., reverse=True)]

    Python's sort is stable, also with [reverse=True]: elements with equal
    keys keep their order.  Any stable sort returns the same list, so it is
    written as an insertion sort. *)

Module PySort.
Section Sort.
Context {A : Type} (key : A → Q).

Fixpoint insert_desc (x : A) (l : list A) : list A :=
  match l with
  | [] => [x]
  | y :: l' =>
      if Qle_bool (key y) (key x) then x :: y :: l'
      else y :: insert_desc x l'
  end.

Fixpoint sort_desc (l : list A) : list A :=
  match l with
  | [] => []
  | x :: l' => insert_desc x (sort_desc l')
  end.
End Sort.
End PySort.

(** ** Schemas ([app/schemas/recommendation.py]) and the hotel payload *)

(** A hotel as the providers return it: [Dict[str, Any]] with these keys. *)
Module Hotel.
Record t : Type := mk {
  hotel_id : option string;
  name : option string;
  address : option string;
  city : option string;
  country : option string;
  latitude : option Q;
  longitude : option Q;
  price : option Q;
  currency : option string;
  rating : option Q;
  review_score : option Q;
  review_count : option Z;
  amenities : option (list string);
  description : option string;
  images : option (list string);
  url : option string
}.

(** The empty dict. *)
Definition empty : t :=
  mk None None None None None None None None None None None None None None
     None None.

Definition is_some {A : Type} (o : option A) : bool :=
  match o with Some _ => true | None => false end.

(** Truth value of the dict: it has at least one key. *)
Definition truthy (h : t) : bool :=
  is_some (hotel_id h) || is_some (name h) || is_some (address h)
  || is_some (city h) || is_some (country h) || is_some (latitude h)
  || is_some (longitude h) || is_some (price h) || is_some (currency h)
  || is_some (rating h) || is_some (review_score h)
  || is_some (review_count h) || is_some (amenities h)
  || is_some (description h) || is_some (images h) || is_some (url h).

(** [str(hotel.get("hotel_id", ""))] *)
Definition id_str (h : t) : string := get_or (hotel_id h) "".
End Hotel.

Module SearchParameters.
Record t : Type := mk {
  location : option string;
  check_in : option string;
  check_out : option string;
  budget_min : option Q;
  budget_max : option Q;
  adults : option Z;
  children : option Z;
  rooms : option Z;
  preferences : option (list string)
}.
End SearchParameters.

Module ChatGPTParameterExtractionResponse.
Record t : Type := mk {
  location : option string;
  check_in : option string;
  check_out : option string;
  budget_min : option Q;
  budget_max : option Q;
  adults : option Z;
  children : option Z;
  rooms : option Z;
  preferences : option (list string)
}.
End ChatGPTParameterExtractionResponse.

Module HotelInfo.
Record t : Type := mk {
  hotel_id : option string;
  name : option string;
  address : option string;
  city : option string;
  country : option string;
  latitude : option Q;
  longitude : option Q;
  price : option Q;
  currency : option string;
  rating : option Q;
  review_score : option Q;
  review_count : option Z;
  amenities : option (list string);
  description : option string;
  images : option (list string);
  url : option string;
  raw_data : option Hotel.t
}.
End HotelInfo.

Module RecommendationResponse.
Record t : Type := mk {
  user_demand : string;
  extracted_parameters : SearchParameters.t;
  matched_hotels : list HotelInfo.t;
  total_results : Z;
  message : option string
}.
End RecommendationResponse.

(** ** Exceptions *)

Inductive exn_class : Type :=
| AttributeError
| RateLimitError      (** [openai.RateLimitError], a subclass of [APIError] *)
| APIError            (** any other [openai.APIError] *)
| JSONDecodeError     (** a subclass of [ValueError] *)
| ValidationError     (** pydantic's, a subclass of [ValueError] *)
| ValueError
| HTTPError           (** [httpx.HTTPError] *)
| OtherException.

(** An exception: its class and [str(e)]. *)
Inductive exn : Type := Exn (cls : exn_class) (msg : string).

Definition exn_cls (e : exn) : exn_class := let 'Exn c _ := e in c.
Definition exn_str (e : exn) : string := let 'Exn _ m := e in m.

Inductive result (A : Type) : Type :=
| Ok (a : A)
| Raise (e : exn).
Arguments Ok {A} a.
Arguments Raise {A} e.

(** [isinstance(e, RateLimitError)] *)
Definition is_RateLimitError (e : exn) : bool :=
  match exn_cls e with RateLimitError => true | _ => false end.

(** [isinstance(e, (RateLimitError, APIError))] *)
Definition is_APIError (e : exn) : bool :=
  match exn_cls e with RateLimitError | APIError => true | _ => false end.

(** [isinstance(e, ValueError)] *)
Definition is_ValueError (e : exn) : bool :=
  match exn_cls e with
  | JSONDecodeError | ValidationError | ValueError => true
  | _ => false
  end.

(** [isinstance(e, httpx.HTTPError)] *)
Definition is_HTTPError (e : exn) : bool :=
  match exn_cls e with HTTPError => true | _ => false end.

(** ** The inference service ([app/services/chatgpt_service.py]) *)

Module chatgpt_service.

(** The minimal data of a hotel sent to the service. *)
Record hotel_summary : Type := mk_summary {
  s_id : string;
  s_name : string;
  s_city : string;
  s_price : option Q;
  s_rating : option Q;
  s_amenities : string
}.

(** The two prompts are fixed templates, around the demand and around the
    demand and the serialized summaries. *)
Inductive prompt : Type :=
| ExtractionPrompt (user_demand : string)
| FilterPrompt (user_demand : string) (hotels_summary : list hotel_summary).

(** [OpenAI(api_key=...)]: the reply of [chat.completions.create] to the
    system message and the prompt is [response.choices[0].message.content]
    or an exception. *)
Record OpenAI : Type := {
  create : string → string → prompt → result string
}.

(** [json.loads] and what the service does with its value. *)
Record Json : Type := {
  (** the response built from the keys of [json.loads(content)] *)
  loads_parameters : string → result ChatGPTParameterExtractionResponse.t;
  (** [json.loads(content).get("matched_ids", [])] *)
  loads_matched_ids : string → result (list string)
}.

Record ChatGPTService : Type := {
  api_key : string;
  model : string;
  client : option OpenAI
}.

(** [ChatGPTService.__init__] *)
Definition __init__ (openai_api_key openai_model : string)
    (connect : string → OpenAI) : ChatGPTService :=
  {| api_key := openai_api_key;
     model := openai_model;
     client := if nonempty_str openai_api_key
               then Some (connect openai_api_key) else None |}.

(** The text between the fences of a [```json] block:
    [content[json_start:json_end].strip()]. *)
Definition strip_fence (content : string) : string :=
  let json_start := (PyStr.find "```json" content 0 + 7)%Z in
  let json_end := PyStr.find "```" content (Z.to_nat json_start) in
  PyStr.strip (PyStr.slice content json_start json_end).

(** The test of both [except (RateLimitError, APIError)] handlers. *)
Definition is_quota_error (e : exn) : bool :=
  let error_str := exn_str e in
  PyStr.contains "insufficient_quota" (PyStr.lower error_str)
  || PyStr.contains "429" error_str
  || PyStr.contains "rate_limit" (PyStr.lower error_str)
  || is_RateLimitError e.

Fixpoint first_match (patterns : list Re.regex) (s : string)
    : option Re.groups :=
  match patterns with
  | [] => None
  | p :: ps =>
      match Re.search p s with
      | Some g => Some g
      | None => first_match ps s
      end
  end.

(** The tags of [keywords] with a keyword in [user_lower], in the order
    of the dict. *)
Definition detect (keywords : list (string * list string))
    (user_lower : string) : list string :=
  map fst
    (List.filter
       (fun '(_, kws) => existsb (fun kw => PyStr.contains kw user_lower) kws)
       keywords).

Definition locations : list string :=
  ["italy"; "france"; "spain"; "paris"; "rome"; "london"; "berlin";
   "amsterdam"; "vienna"; "prague"; "barcelona"; "madrid"; "milan";
   "venice"; "florence"; "lake como"; "tuscany"; "santorini"; "mykonos";
   "bali"; "thailand"].

Definition extract_budget_patterns : list Re.regex :=
  [ [Re.Lit "under"; Re.Spaces1; Re.Digits1];
    [Re.Lit "below"; Re.Spaces1; Re.Digits1];
    [Re.Lit "less"; Re.Spaces1; Re.Lit "than"; Re.Spaces1; Re.Digits1];
    [Re.Lit "up"; Re.Spaces1; Re.Lit "to"; Re.Spaces1; Re.Digits1];
    [Re.Lit "max"; Re.Spaces1; Re.Digits1];
    [Re.Lit "maximum"; Re.Spaces1; Re.Digits1];
    [Re.Digits1; Re.Spaces0; Re.Lit "€"];
    [Re.Digits1; Re.Spaces0; Re.Lit "eur"];
    [Re.Digits1; Re.Spaces0; Re.Lit "euro"] ].

Definition pref_keywords : list (string * list string) :=
  [ ("romantic", ["romantic"; "romance"; "couple"; "honeymoon"]);
    ("family", ["family"; "family-friendly"; "kids"; "children"]);
    ("luxury", ["luxury"; "luxurious"; "5-star"; "five star"]);
    ("beach", ["beach"; "seaside"; "coastal"; "ocean"]);
    ("mountain", ["mountain"; "alpine"; "ski"]);
    ("city", ["city"; "urban"; "downtown"]) ].

(** [_fallback_extract_parameters]: rule-based extraction. *)
Definition _fallback_extract_parameters (user_demand : string)
    : ChatGPTParameterExtractionResponse.t :=
  let user_lower := PyStr.lower user_demand in
  let location :=
    match List.find (fun loc => PyStr.contains loc user_lower) locations with
    | Some loc => Some (PyStr.title loc)
    | None => None
    end in
  let budget_min : option Q := None in
  let budget_max :=
    match first_match extract_budget_patterns user_lower with
    | Some g => Some (PyStr.float_of_digits (get_or g ""))
    | None => None
    end in
  let preferences := detect pref_keywords user_lower in
  let children := 0%Z in
  let adults :=
    match Re.search [Re.Digits1; Re.Spaces1; Re.Lit "adult"] user_lower with
    | Some g => PyStr.int_of_digits (get_or g "")
    | None => 1%Z
    end in
  {| ChatGPTParameterExtractionResponse.location := location;
     ChatGPTParameterExtractionResponse.check_in := None;
     ChatGPTParameterExtractionResponse.check_out := None;
     ChatGPTParameterExtractionResponse.budget_min := budget_min;
     ChatGPTParameterExtractionResponse.budget_max := budget_max;
     ChatGPTParameterExtractionResponse.adults := Some adults;
     ChatGPTParameterExtractionResponse.children := Some children;
     ChatGPTParameterExtractionResponse.rooms := Some 1%Z;
     ChatGPTParameterExtractionResponse.preferences :=
       match preferences with [] => None | _ => Some preferences end |}.

(** The handlers of the outer [try] of [extract_search_parameters]. *)
Definition extract_handlers (user_demand : string) (e : exn)
    : result ChatGPTParameterExtractionResponse.t :=
  if is_APIError e then
    if is_quota_error e
    then Ok (_fallback_extract_parameters user_demand)
    else Raise e
  else Raise e.

(** [extract_search_parameters].  With no client, [self.client.chat] is an
    attribute access on [None] inside the [try]. *)
Definition extract_search_parameters (self : ChatGPTService) (json : Json)
    (user_demand : string) : result ChatGPTParameterExtractionResponse.t :=
  let body : result ChatGPTParameterExtractionResponse.t :=
    match client self with
    | None =>
        Raise (Exn AttributeError
                 "'NoneType' object has no attribute 'chat'")
    | Some c =>
        match create c (model self)
                "Extract hotel search parameters. Return JSON only."
                (ExtractionPrompt user_demand) with
        | Raise e => Raise e
        | Ok content =>
            match loads_parameters json content with
            | Ok r => Ok r
            | Raise e =>
                match exn_cls e with
                | JSONDecodeError =>
                    if PyStr.contains "```json" content
                    then loads_parameters json (strip_fence content)
                    else Raise e
                | _ => Raise e
                end
            end
        end
    end in
  match body with
  | Ok r => Ok r
  | Raise e => extract_handlers user_demand e
  end.

Definition filter_budget_patterns : list Re.regex :=
  [ [Re.Lit "under"; Re.Spaces1; Re.Digits1];
    [Re.Lit "below"; Re.Spaces1; Re.Digits1];
    [Re.Lit "less"; Re.Spaces1; Re.Lit "than"; Re.Spaces1; Re.Digits1];
    [Re.Lit "up"; Re.Spaces1; Re.Lit "to"; Re.Spaces1; Re.Digits1];
    [Re.Digits1; Re.Spaces0; Re.Lit "€"];
    [Re.Digits1; Re.Spaces0; Re.Lit "eur"];
    [Re.Lit "budget"];
    [Re.Lit "cheap"];
    [Re.Lit "affordable"] ].

Definition preference_keywords : list (string * list string) :=
  [ ("luxury", ["luxury"; "premium"; "5-star"; "five star"]);
    ("budget", ["budget"; "cheap"; "affordable"; "economy"]);
    ("romantic", ["romantic"; "honeymoon"; "couple"]);
    ("family", ["family"; "kids"; "children"; "family-friendly"]);
    ("business", ["business"; "corporate"; "conference"]);
    ("beach", ["beach"; "seaside"; "ocean"; "coast"]);
    ("pool", ["pool"; "swimming"]);
    ("spa", ["spa"; "wellness"; "massage"]) ].

(** The budget ceiling the ranking fallback reads in the demand: the
    group of the first pattern that matches, or 100 for a pattern
    without group. *)
Definition filter_budget_max (user_lower : string) : option Q :=
  match first_match filter_budget_patterns user_lower with
  | Some (Some digits) => Some (PyStr.float_of_digits digits)
  | Some None => Some 100%Q
  | None => None
  end.

(** [hotel.get("rating") or hotel.get("review_score", 0)] *)
Definition rating_or_review (hotel : Hotel.t) : Q :=
  if truthy_Q (Hotel.rating hotel)
  then get_or (Hotel.rating hotel) 0%Q
  else get_or (Hotel.review_score hotel) 0%Q.

(** The body of the scoring loop of [_fallback_filter_hotels] for one
    hotel. *)
Definition fallback_score (budget_max : option Q)
    (detected_preferences : list string) (hotel : Hotel.t) : Q :=
  let score := 0%Q in
  let price := Hotel.price hotel in
  let name := PyStr.lower (get_or (Hotel.name hotel) "") in
  let amenities := map PyStr.lower (get_or (Hotel.amenities hotel) []) in
  let amenities_str := PyStr.join " " amenities in
  let description := PyStr.lower (get_or (Hotel.description hotel) "") in
  let score :=
    if truthy_Q budget_max && truthy_Q price then
      if Qle_bool (get_or price 0%Q) (get_or budget_max 0%Q)
      then (score + 10)%Q else (score - 5)%Q
    else score in
  let score :=
    if mem "luxury" detected_preferences then
      let rating := rating_or_review hotel in
      let score :=
        if nonzero rating && Qle_bool 4.5%Q rating then (score + 5)%Q else score in
      if PyStr.contains "luxury" name || PyStr.contains "resort" name
         || PyStr.contains "grand" name
      then (score + 3)%Q else score
    else score in
  let score :=
    if mem "budget" detected_preferences then
      let score :=
        if truthy_Q price && Qle_bool (get_or price 0%Q) 100%Q
        then (score + 5)%Q else score in
      if PyStr.contains "budget" name || PyStr.contains "inn" name
         || PyStr.contains "hostel" name
      then (score + 3)%Q else score
    else score in
  let score :=
    if mem "romantic" detected_preferences
       && existsb (fun kw => PyStr.contains kw amenities_str
                             || PyStr.contains kw description)
            ["spa"; "romantic"; "boutique"]
    then (score + 5)%Q else score in
  let score :=
    if mem "family" detected_preferences
       && existsb (fun kw => PyStr.contains kw amenities_str
                             || PyStr.contains kw description)
            ["pool"; "kids"; "family"; "playground"]
    then (score + 5)%Q else score in
  let score :=
    if mem "beach" detected_preferences
       && existsb (fun kw => PyStr.contains kw amenities_str
                             || PyStr.contains kw description
                             || PyStr.contains kw name)
            ["beach"; "ocean"; "seaside"; "coast"]
    then (score + 5)%Q else score in
  let score :=
    if mem "pool" detected_preferences && PyStr.contains "pool" amenities_str
    then (score + 5)%Q else score in
  let score :=
    if mem "spa" detected_preferences && PyStr.contains "spa" amenities_str
    then (score + 5)%Q else score in
  let rating := rating_or_review hotel in
  let score := if nonzero rating then (score + rating * 1.5)%Q else score in
  (score + 1)%Q.

(** The scoring loop: hotels without identifier are skipped, the others
    are appended with their score, in input order. *)
Fixpoint score_hotels (budget_max : option Q)
    (detected_preferences : list string) (hotels : list Hotel.t)
    : list (Q * string) :=
  match hotels with
  | [] => []
  | hotel :: rest =>
      let hotel_id := Hotel.id_str hotel in
      if nonempty_str hotel_id
      then (fallback_score budget_max detected_preferences hotel, hotel_id)
           :: score_hotels budget_max detected_preferences rest
      else score_hotels budget_max detected_preferences rest
  end.

(** [_fallback_filter_hotels]: rule-based ranking. *)
Definition _fallback_filter_hotels (user_demand : string)
    (hotels : list Hotel.t) : list string :=
  let user_lower := PyStr.lower user_demand in
  let budget_max := filter_budget_max user_lower in
  let detected_preferences := detect preference_keywords user_lower in
  let scored_hotels := score_hotels budget_max detected_preferences hotels in
  let scored_hotels := PySort.sort_desc fst scored_hotels in
  map snd scored_hotels.

(** The summary loop of [filter_hotels_by_demand]. *)
Fixpoint summarize (hotels : list Hotel.t) : list hotel_summary :=
  match hotels with
  | [] => []
  | hotel :: rest =>
      let hotel_id := Hotel.id_str hotel in
      if nonempty_str hotel_id then
        let amenities := get_or (Hotel.amenities hotel) [] in
        let amenities_str := PyStr.join ", " (take 5 amenities) in
        {| s_id := hotel_id;
           s_name := PyStr.take 50 (get_or (Hotel.name hotel) "Unknown");
           s_city := get_or (Hotel.city hotel) "";
           s_price := Hotel.price hotel;
           s_rating := if truthy_Q (Hotel.rating hotel)
                       then Hotel.rating hotel
                       else Hotel.review_score hotel;
           s_amenities := PyStr.take 100 amenities_str |}
        :: summarize rest
      else summarize rest
  end.

(** [filter_hotels_by_demand]: every exception of the request and of the
    parsing is answered by the fallback. *)
Definition filter_hotels_by_demand (self : ChatGPTService) (json : Json)
    (user_demand : string) (hotels : list Hotel.t) : list string :=
  match hotels with
  | [] => []
  | _ =>
      let hotels_summary := summarize hotels in
      match client self with
      | None => _fallback_filter_hotels user_demand hotels
      | Some c =>
          match create c (model self)
                  "Filter hotels. Return JSON with matched_ids array only."
                  (FilterPrompt user_demand hotels_summary) with
          | Raise _ => _fallback_filter_hotels user_demand hotels
          | Ok content =>
              let content :=
                if PyStr.contains "```json" content
                then strip_fence content else content in
              match loads_matched_ids json content with
              | Ok matched_ids => matched_ids
              | Raise _ => _fallback_filter_hotels user_demand hotels
              end
          end
      end
  end.

End chatgpt_service.

(** ** The inventory provider ([app/services/booking_service.py]) *)

(** * The digest of [hashlib.md5]

    MD5 as RFC 1321 defines it, on the bytes of an ASCII text: 32-bit
    words are integers with the wrap-around written out. *)
Module MD5.

Local Open Scope Z_scope.

Definition mask32 (x : Z) : Z := Z.land x 0xffffffff.

Definition rotl (x c : Z) : Z :=
  mask32 (Z.lor (Z.shiftl x c) (Z.shiftr x (32 - c))).

Definition shift_amounts : list Z :=
  [
    7; 12; 17; 22; 7; 12; 17; 22; 7; 12; 17; 22; 7; 12; 17; 22;
    5; 9; 14; 20; 5; 9; 14; 20; 5; 9; 14; 20; 5; 9; 14; 20;
    4; 11; 16; 23; 4; 11; 16; 23; 4; 11; 16; 23; 4; 11; 16; 23;
    6; 10; 15; 21; 6; 10; 15; 21; 6; 10; 15; 21; 6; 10; 15; 21 ].

(** [K[i] = floor(2^32 * abs(sin(i + 1)))] *)
Definition K : list Z :=
  [
    0xd76aa478; 0xe8c7b756; 0x242070db; 0xc1bdceee;
    0xf57c0faf; 0x4787c62a; 0xa8304613; 0xfd469501;
    0x698098d8; 0x8b44f7af; 0xffff5bb1; 0x895cd7be;
    0x6b901122; 0xfd987193; 0xa679438e; 0x49b40821;
    0xf61e2562; 0xc040b340; 0x265e5a51; 0xe9b6c7aa;
    0xd62f105d; 0x02441453; 0xd8a1e681; 0xe7d3fbc8;
    0x21e1cde6; 0xc33707d6; 0xf4d50d87; 0x455a14ed;
    0xa9e3e905; 0xfcefa3f8; 0x676f02d9; 0x8d2a4c8a;
    0xfffa3942; 0x8771f681; 0x6d9d6122; 0xfde5380c;
    0xa4beea44; 0x4bdecfa9; 0xf6bb4b60; 0xbebfbc70;
    0x289b7ec6; 0xeaa127fa; 0xd4ef3085; 0x04881d05;
    0xd9d4d039; 0xe6db99e5; 0x1fa27cf8; 0xc4ac5665;
    0xf4292244; 0x432aff97; 0xab9423a7; 0xfc93a039;
    0x655b59c3; 0x8f0ccc92; 0xffeff47d; 0x85845dd1;
    0x6fa87e4f; 0xfe2ce6e0; 0xa3014314; 0x4e0811a1;
    0xf7537e82; 0xbd3af235; 0x2ad7d2bb; 0xeb86d391 ].

(** [s.encode()] of an ASCII text *)
Fixpoint encode (text : string) : list Z :=
  match text with
  | EmptyString => []
  | String c text' => Z.of_nat (nat_of_ascii c) :: encode text'
  end.

(** The [n] low bytes of [x], least significant first. *)
Fixpoint le_bytes (n : nat) (x : Z) : list Z :=
  match n with
  | O => []
  | S n' => Z.land x 0xff :: le_bytes n' (Z.shiftr x 8)
  end.

(** The padding of a message of [len] bytes: a one bit, zeros up to 56
    modulo 64, and the length in bits on 64 bits. *)
Definition padding (len : nat) : list Z :=
  (0x80 :: repeat 0 ((119 - len mod 64) mod 64)
   ++ le_bytes 8 (8 * Z.of_nat len))%list.

Fixpoint words (bytes : list Z) : list Z :=
  match bytes with
  | b0 :: b1 :: b2 :: b3 :: rest =>
      (b0 + 0x100 * b1 + 0x10000 * b2 + 0x1000000 * b3) :: words rest
  | _ => []
  end.

Definition state : Type := Z * Z * Z * Z.

Definition step (M : list Z) (st : state) (i : nat) : state :=
  let '(A, B, C, D) := st in
  let not32 x := Z.lxor x 0xffffffff in
  let '(F, g) :=
    match (i / 16)%nat with
    | 0%nat => (Z.lor (Z.land B C) (Z.land (not32 B) D), i)
    | 1%nat => (Z.lor (Z.land D B) (Z.land (not32 D) C),
                ((5 * i + 1) mod 16)%nat)
    | 2%nat => (Z.lxor (Z.lxor B C) D, ((3 * i + 5) mod 16)%nat)
    | _ => (Z.lxor C (Z.lor B (not32 D)), ((7 * i) mod 16)%nat)
    end in
  let F := mask32 (F + A + nth i K 0 + nth g M 0) in
  (D, mask32 (B + rotl F (nth i shift_amounts 0)), B, C).

Definition block (st : state) (M : list Z) : state :=
  let '(a0, b0, c0, d0) := st in
  let '(A, B, C, D) := fold_left (step M) (seq 0 64) st in
  (mask32 (a0 + A), mask32 (b0 + B), mask32 (c0 + C), mask32 (d0 + D)).

Fixpoint blocks (n : nat) (ws : list Z) (st : state) : state :=
  match n with
  | O => st
  | S n' => blocks n' (skipn 16 ws) (block st (firstn 16 ws))
  end.

Definition digest (bytes : list Z) : list Z :=
  let padded := (bytes ++ padding (length bytes))%list in
  let '(a, b, c, d) :=
    blocks (length padded / 64) (words padded)
      (0x67452301, 0xefcdab89, 0x98badcfe, 0x10325476) in
  (le_bytes 4 a ++ le_bytes 4 b ++ le_bytes 4 c ++ le_bytes 4 d)%list.

Definition hex_digit (n : Z) : ascii :=
  match String.get (Z.to_nat n) "0123456789abcdef" with
  | Some c => c
  | None => "0"%char
  end.

Fixpoint hex (bytes : list Z) : string :=
  match bytes with
  | [] => EmptyString
  | b :: rest =>
      String (hex_digit (Z.shiftr b 4)) (String (hex_digit (Z.land b 15))
        (hex rest))
  end.

(** [hashlib.md5(text.encode()).hexdigest()] *)
Definition hexdigest (text : string) : string := hex (digest (encode text)).

End MD5.

(** Helpers of the Python runtime the synthetic provider calls. *)
Record Builtins : Type := {
  (** [hashlib.md5(s.encode()).hexdigest()] *)
  md5_hexdigest : string → string;
  (** [hash(s)] of a string *)
  hash : string → Z;
  (** [str(x)] of a float *)
  str_float : Q → string;
  (** [repr(l)] of a list of strings *)
  repr_list : list string → string
}.

Module booking_service.

(** A value of the query sent to the provider. *)
Inductive query_value : Type :=
| QStr (s : string)
| QInt (n : Z)
| QFloat (x : Q).

Definition query : Type := list (string * query_value).

(** [httpx.Client.get] followed by [raise_for_status] and
    [response.json().get("result", [])]. *)
Record Httpx : Type := {
  get_result : string → string → query → result (list Hotel.t)
}.

Record BookingService : Type := {
  api_key : string;
  base_url : string;
  timeout : Q
}.

Definition __init__ (booking_api_key booking_api_url : string)
    : BookingService :=
  {| api_key := booking_api_key;
     base_url := booking_api_url;
     timeout := 30%Q |}.

Definition truthy_Z (o : option Z) : bool :=
  match o with
  | Some n => negb (n =? 0)%Z
  | None => false
  end.

Definition add_if {A : Type} (present : bool) (key : string)
    (value : option A) (wrap : A → query_value) (params : query) : query :=
  match value with
  | Some v => if present then (params ++ [(key, wrap v)])%list else params
  | None => params
  end.

(** [_prepare_search_params] *)
Definition _prepare_search_params (parameters : SearchParameters.t)
    : query :=
  let params : query := [] in
  let params :=
    add_if (truthy_str (SearchParameters.location parameters)) "location"
      (SearchParameters.location parameters) QStr params in
  let params :=
    add_if (truthy_str (SearchParameters.check_in parameters)) "checkin_date"
      (SearchParameters.check_in parameters) QStr params in
  let params :=
    add_if (truthy_str (SearchParameters.check_out parameters))
      "checkout_date" (SearchParameters.check_out parameters) QStr params in
  let params :=
    add_if (truthy_Z (SearchParameters.adults parameters)) "adults"
      (SearchParameters.adults parameters) QInt params in
  let params :=
    add_if (truthy_Z (SearchParameters.children parameters)) "children"
      (SearchParameters.children parameters) QInt params in
  let params :=
    add_if (truthy_Z (SearchParameters.rooms parameters)) "rooms"
      (SearchParameters.rooms parameters) QInt params in
  let params :=
    add_if (truthy_Q (SearchParameters.budget_min parameters)) "price_min"
      (SearchParameters.budget_min parameters) QFloat params in
  add_if (truthy_Q (SearchParameters.budget_max parameters)) "price_max"
    (SearchParameters.budget_max parameters) QFloat params.

Definition location_map : list (string * (Q * Q)) :=
  [ ("paris", (48.8566, 2.3522)%Q);
    ("rome", (41.9028, 12.4964)%Q);
    ("london", (51.5074, -0.1278)%Q);
    ("barcelona", (41.3851, 2.1734)%Q);
    ("amsterdam", (52.3676, 4.9041)%Q);
    ("berlin", (52.5200, 13.4050)%Q);
    ("vienna", (48.2082, 16.3738)%Q);
    ("prague", (50.0755, 14.4378)%Q);
    ("madrid", (40.4168, -3.7038)%Q);
    ("milan", (45.4642, 9.1900)%Q);
    ("venice", (45.4408, 12.3155)%Q);
    ("florence", (43.7696, 11.2558)%Q);
    ("italy", (41.8719, 12.5674)%Q);
    ("france", (46.2276, 2.2137)%Q);
    ("spain", (40.4637, -3.7492)%Q) ].

(** [_get_location_coordinates]: latitude and longitude of the first key
    contained in [location], Paris otherwise. *)
Definition _get_location_coordinates (location : string) : Q * Q :=
  match List.find (fun '(key, _) => PyStr.contains key location)
          location_map with
  | Some (_, coords) => coords
  | None => (48.8566, 2.3522)%Q
  end.

Definition any_in (keys : list string) (s : string) : bool :=
  existsb (fun c => PyStr.contains c s) keys.

(** [_get_country_from_location] *)
Definition _get_country_from_location (location : string) : string :=
  let location_lower := PyStr.lower location in
  if any_in ["paris"; "lyon"; "nice"; "marseille"; "france"] location_lower
  then "France"
  else if any_in ["rome"; "milan"; "venice"; "florence"; "italy"; "naples"]
            location_lower
  then "Italy"
  else if any_in ["london"; "manchester"; "edinburgh"; "uk"; "england"]
            location_lower
  then "United Kingdom"
  else if any_in ["barcelona"; "madrid"; "seville"; "spain"] location_lower
  then "Spain"
  else if any_in ["berlin"; "munich"; "frankfurt"; "germany"] location_lower
  then "Germany"
  else if any_in ["amsterdam"; "netherlands"; "holland"] location_lower
  then "Netherlands"
  else if any_in ["vienna"; "austria"] location_lower
  then "Austria"
  else if any_in ["prague"; "czech"] location_lower
  then "Czech Republic"
  else "France".

(** [get_coord_offset], the closure of [_generate_mock_hotel_database]
    over [location_hash]. *)
Definition get_coord_offset (location_hash : Z) (index : Z)
    (coord_type : string) : Q :=
  let multiplier := if String.eqb coord_type "lat" then 100%Z else 200%Z in
  (inject_Z ((location_hash + index * multiplier) mod 200 - 100)
   / 10000)%Q.

(** [_generate_mock_hotel_database]: the catalog of ten hotels. *)
Definition _generate_mock_hotel_database (bi : Builtins) (location : string)
    (coords : Q * Q) (query_hash : string) : list Hotel.t :=
  let base_lat := fst coords in
  let base_lng := snd coords in
  let location_hash := (hash bi location mod 10000)%Z in
  [
    {| Hotel.hotel_id := Some (query_hash ++ "_luxury_1");
       Hotel.name := Some ("Grand Palace Hotel " ++ location);
       Hotel.address := Some ("1 Champs-Élysées, " ++ location);
       Hotel.city := Some location;
       Hotel.country := Some (_get_country_from_location location);
       Hotel.latitude := Some (base_lat + get_coord_offset location_hash 0 "lat")%Q;
       Hotel.longitude := Some (base_lng + get_coord_offset location_hash 0 "lng")%Q;
       Hotel.price := Some 350.0%Q;
       Hotel.currency := Some "EUR";
       Hotel.rating := Some 4.9%Q;
       Hotel.review_score := Some 9.5%Q;
       Hotel.review_count := Some 2340%Z;
       Hotel.amenities := Some ["WiFi"; "Pool"; "Spa"; "Fitness Center";
         "Restaurant"; "Bar"; "Room Service"; "Concierge"; "Valet Parking";
         "Business Center"];
       Hotel.description := Some ("Luxurious 5-star hotel in the heart of " ++ location ++ ". Features elegant rooms, world-class spa, fine dining, and exceptional service. Perfect for business travelers and romantic getaways.");
       Hotel.images := Some ["https://images.unsplash.com/photo-1566073771259-6a8506099945?w=800&h=600&fit=crop"; "https://images.unsplash.com/photo-1551882547-ff40c63fe5fa?w=800&h=600&fit=crop"; "https://images.unsplash.com/photo-1571896349842-33c89424de2d?w=800&h=600&fit=crop"];
       Hotel.url := Some ("https://booking.com/hotel/" ++ query_hash ++
         "_luxury_1") |};
    {| Hotel.hotel_id := Some (query_hash ++ "_resort_1");
       Hotel.name := Some ("Seaside Luxury Resort " ++ location);
       Hotel.address := Some ("Beach Boulevard, " ++ location);
       Hotel.city := Some location;
       Hotel.country := Some (_get_country_from_location location);
       Hotel.latitude := Some (base_lat + get_coord_offset location_hash 1 "lat")%Q;
       Hotel.longitude := Some (base_lng + get_coord_offset location_hash 1 "lng")%Q;
       Hotel.price := Some 280.0%Q;
       Hotel.currency := Some "EUR";
       Hotel.rating := Some 4.7%Q;
       Hotel.review_score := Some 9.1%Q;
       Hotel.review_count := Some 1890%Z;
       Hotel.amenities := Some ["WiFi"; "Pool"; "Spa"; "Beach Access";
         "Restaurant"; "Bar"; "Water Sports"; "Kids Club"; "Beach Bar";
         "Tennis Court"];
       Hotel.description := Some ("Stunning beachfront resort in " ++
         location ++ " with direct beach access. Features infinity pool, spa, multiple restaurants, and water sports. Ideal for families and couples seeking relaxation.");
       Hotel.images := Some ["https://images.unsplash.com/photo-1571003123894-1f0594d2b5d9?w=800&h=600&fit=crop"; "https://images.unsplash.com/photo-1582719478250-c89cae4dc85b?w=800&h=600&fit=crop"; "https://images.unsplash.com/photo-1551882547-ff40c63fe5fa?w=800&h=600&fit=crop"];
       Hotel.url := Some ("https://booking.com/hotel/" ++ query_hash ++
         "_resort_1") |};
    {| Hotel.hotel_id := Some (query_hash ++ "_boutique_1");
       Hotel.name := Some ("Romantic Boutique Hotel " ++ location);
       Hotel.address := Some ("Rue de la Romance, " ++ location);
       Hotel.city := Some location;
       Hotel.country := Some (_get_country_from_location location);
       Hotel.latitude := Some (base_lat + get_coord_offset location_hash 2 "lat")%Q;
       Hotel.longitude := Some (base_lng + get_coord_offset location_hash 2 "lng")%Q;
       Hotel.price := Some 180.0%Q;
       Hotel.currency := Some "EUR";
       Hotel.rating := Some 4.6%Q;
       Hotel.review_score := Some 8.9%Q;
       Hotel.review_count := Some 1450%Z;
       Hotel.amenities := Some ["WiFi"; "Spa"; "Restaurant"; "Bar";
         "Romantic Packages"; "Couples Massage"; "Rooftop Terrace";
         "Wine Bar"];
       Hotel.description := Some ("Charming boutique hotel in " ++
         location ++ " perfect for romantic getaways. Intimate atmosphere, beautifully designed rooms, spa services, and fine dining. Highly rated by couples.");
       Hotel.images := Some ["https://images.unsplash.com/photo-1590490360182-c33d57733427?w=800&h=600&fit=crop"; "https://images.unsplash.com/photo-1564501049412-61c2a3083791?w=800&h=600&fit=crop"; "https://images.unsplash.com/photo-1571896349842-33c89424de2d?w=800&h=600&fit=crop"];
       Hotel.url := Some ("https://booking.com/hotel/" ++ query_hash ++
         "_boutique_1") |};
    {| Hotel.hotel_id := Some (query_hash ++ "_business_1");
       Hotel.name := Some ("Business Center Hotel " ++ location);
       Hotel.address := Some ("Financial District, " ++ location);
       Hotel.city := Some location;
       Hotel.country := Some (_get_country_from_location location);
       Hotel.latitude := Some (base_lat + get_coord_offset location_hash 3 "lat")%Q;
       Hotel.longitude := Some (base_lng + get_coord_offset location_hash 3 "lng")%Q;
       Hotel.price := Some 220.0%Q;
       Hotel.currency := Some "EUR";
       Hotel.rating := Some 4.4%Q;
       Hotel.review_score := Some 8.6%Q;
       Hotel.review_count := Some 2100%Z;
       Hotel.amenities := Some ["WiFi"; "Business Center"; "Meeting Rooms";
         "Fitness Center"; "Restaurant"; "Bar"; "Airport Shuttle";
         "Concierge"; "Laundry Service"];
       Hotel.description := Some ("Modern business hotel in " ++
         location ++ "'s financial district. Well-equipped meeting facilities, high-speed WiFi, fitness center, and convenient location for corporate travelers.");
       Hotel.images := Some ["https://images.unsplash.com/photo-1566073771259-6a8506099945?w=800&h=600&fit=crop"; "https://images.unsplash.com/photo-1590490360182-c33d57733427?w=800&h=600&fit=crop"];
       Hotel.url := Some ("https://booking.com/hotel/" ++ query_hash ++
         "_business_1") |};
    {| Hotel.hotel_id := Some (query_hash ++ "_family_1");
       Hotel.name := Some ("Family Resort " ++ location);
       Hotel.address := Some ("Family Street, " ++ location);
       Hotel.city := Some location;
       Hotel.country := Some (_get_country_from_location location);
       Hotel.latitude := Some (base_lat + get_coord_offset location_hash 4 "lat")%Q;
       Hotel.longitude := Some (base_lng + get_coord_offset location_hash 4 "lng")%Q;
       Hotel.price := Some 160.0%Q;
       Hotel.currency := Some "EUR";
       Hotel.rating := Some 4.5%Q;
       Hotel.review_score := Some 8.7%Q;
       Hotel.review_count := Some 3200%Z;
       Hotel.amenities := Some ["WiFi"; "Pool"; "Kids Club"; "Playground";
         "Family Rooms"; "Restaurant"; "Bar"; "Entertainment"; "Game Room";
         "Babysitting"];
       Hotel.description := Some ("Family-friendly resort in " ++
         location ++ " with extensive facilities for children. Large pool, kids club, playground, family rooms, and entertainment. Perfect for families with children.");
       Hotel.images := Some ["https://images.unsplash.com/photo-1571003123894-1f0594d2b5d9?w=800&h=600&fit=crop"; "https://images.unsplash.com/photo-1564501049412-61c2a3083791?w=800&h=600&fit=crop"];
       Hotel.url := Some ("https://booking.com/hotel/" ++ query_hash ++
         "_family_1") |};
    {| Hotel.hotel_id := Some (query_hash ++ "_mid_1");
       Hotel.name := Some ("Comfort Inn " ++ location);
       Hotel.address := Some ("Main Avenue, " ++ location);
       Hotel.city := Some location;
       Hotel.country := Some (_get_country_from_location location);
       Hotel.latitude := Some (base_lat + get_coord_offset location_hash 3 "lat")%Q;
       Hotel.longitude := Some (base_lng + get_coord_offset location_hash 3 "lng")%Q;
       Hotel.price := Some 120.0%Q;
       Hotel.currency := Some "EUR";
       Hotel.rating := Some 4.2%Q;
       Hotel.review_score := Some 8.3%Q;
       Hotel.review_count := Some 1850%Z;
       Hotel.amenities := Some ["WiFi"; "Pool"; "Restaurant"; "Bar";
         "Parking"; "Fitness Center"];
       Hotel.description := Some ("Comfortable mid-range hotel in " ++
         location ++ " with good value. Clean rooms, pool, restaurant, and convenient location. Great for travelers seeking comfort without luxury prices.");
       Hotel.images := Some ["https://images.unsplash.com/photo-1590490360182-c33d57733427?w=800&h=600&fit=crop"; "https://images.unsplash.com/photo-1566073771259-6a8506099945?w=800&h=600&fit=crop"];
       Hotel.url := Some ("https://booking.com/hotel/" ++ query_hash ++
         "_mid_1") |};
    {| Hotel.hotel_id := Some (query_hash ++ "_spa_1");
       Hotel.name := Some ("Wellness Spa Hotel " ++ location);
       Hotel.address := Some ("Relaxation Road, " ++ location);
       Hotel.city := Some location;
       Hotel.country := Some (_get_country_from_location location);
       Hotel.latitude := Some (base_lat + get_coord_offset location_hash 2 "lat")%Q;
       Hotel.longitude := Some (base_lng + get_coord_offset location_hash 2 "lng")%Q;
       Hotel.price := Some 200.0%Q;
       Hotel.currency := Some "EUR";
       Hotel.rating := Some 4.6%Q;
       Hotel.review_score := Some 8.8%Q;
       Hotel.review_count := Some 1650%Z;
       Hotel.amenities := Some ["WiFi"; "Spa"; "Wellness Center";
         "Massage"; "Sauna"; "Steam Room"; "Yoga Classes"; "Restaurant";
         "Bar"; "Pool"];
       Hotel.description := Some ("Dedicated wellness and spa hotel in " ++
         location ++ ". Extensive spa facilities, massage services, sauna, steam room, yoga classes, and healthy dining options. Perfect for relaxation and rejuvenation.");
       Hotel.images := Some ["https://images.unsplash.com/photo-1571896349842-33c89424de2d?w=800&h=600&fit=crop"; "https://images.unsplash.com/photo-1582719478250-c89cae4dc85b?w=800&h=600&fit=crop"];
       Hotel.url := Some ("https://booking.com/hotel/" ++ query_hash ++
         "_spa_1") |};
    {| Hotel.hotel_id := Some (query_hash ++ "_budget_1");
       Hotel.name := Some ("Budget Inn " ++ location);
       Hotel.address := Some ("Economy Street, " ++ location);
       Hotel.city := Some location;
       Hotel.country := Some (_get_country_from_location location);
       Hotel.latitude := Some (base_lat + get_coord_offset location_hash 7 "lat")%Q;
       Hotel.longitude := Some (base_lng + get_coord_offset location_hash 7 "lng")%Q;
       Hotel.price := Some 65.0%Q;
       Hotel.currency := Some "EUR";
       Hotel.rating := Some 3.8%Q;
       Hotel.review_score := Some 7.6%Q;
       Hotel.review_count := Some 2800%Z;
       Hotel.amenities := Some ["WiFi"; "Parking"; "24-Hour Reception"];
       Hotel.description := Some ("Affordable budget accommodation in " ++
         location ++ ". Basic but clean rooms, free WiFi, parking available. Great value for money-conscious travelers.");
       Hotel.images := Some ["https://images.unsplash.com/photo-1590490360182-c33d57733427?w=800&h=600&fit=crop"; "https://images.unsplash.com/photo-1564501049412-61c2a3083791?w=800&h=600&fit=crop"];
       Hotel.url := Some ("https://booking.com/hotel/" ++ query_hash ++
         "_budget_1") |};
    {| Hotel.hotel_id := Some (query_hash ++ "_historic_1");
       Hotel.name := Some ("Historic Grand Hotel " ++ location);
       Hotel.address := Some ("Historic Square, " ++ location);
       Hotel.city := Some location;
       Hotel.country := Some (_get_country_from_location location);
       Hotel.latitude := Some (base_lat + get_coord_offset location_hash 3 "lat")%Q;
       Hotel.longitude := Some (base_lng + get_coord_offset location_hash 3 "lng")%Q;
       Hotel.price := Some 240.0%Q;
       Hotel.currency := Some "EUR";
       Hotel.rating := Some 4.7%Q;
       Hotel.review_score := Some 9.0%Q;
       Hotel.review_count := Some 1950%Z;
       Hotel.amenities := Some ["WiFi"; "Historic Building"; "Restaurant";
         "Bar"; "Concierge"; "Room Service"; "Fitness Center"];
       Hotel.description := Some ("Beautifully restored historic hotel in the center of " ++ location ++ ". Combines classic architecture with modern amenities. Elegant rooms, fine dining, and rich history.");
       Hotel.images := Some ["https://images.unsplash.com/photo-1566073771259-6a8506099945?w=800&h=600&fit=crop"; "https://images.unsplash.com/photo-1551882547-ff40c63fe5fa?w=800&h=600&fit=crop"];
       Hotel.url := Some ("https://booking.com/hotel/" ++ query_hash ++
         "_historic_1") |};
    {| Hotel.hotel_id := Some (query_hash ++ "_eco_1");
       Hotel.name := Some ("Eco-Friendly Hotel " ++ location);
       Hotel.address := Some ("Green Boulevard, " ++ location);
       Hotel.city := Some location;
       Hotel.country := Some (_get_country_from_location location);
       Hotel.latitude := Some (base_lat + get_coord_offset location_hash 2 "lat")%Q;
       Hotel.longitude := Some (base_lng + get_coord_offset location_hash 2 "lng")%Q;
       Hotel.price := Some 140.0%Q;
       Hotel.currency := Some "EUR";
       Hotel.rating := Some 4.4%Q;
       Hotel.review_score := Some 8.5%Q;
       Hotel.review_count := Some 1200%Z;
       Hotel.amenities := Some ["WiFi"; "Eco-Friendly";
         "Organic Restaurant"; "Bike Rental"; "Solar Power"; "Recycling";
         "Garden"];
       Hotel.description := Some ("Environmentally conscious hotel in " ++
         location ++ ". Sustainable practices, organic restaurant, bike rental, solar power. Perfect for eco-conscious travelers.");
       Hotel.images := Some ["https://images.unsplash.com/photo-1564501049412-61c2a3083791?w=800&h=600&fit=crop"; "https://images.unsplash.com/photo-1590490360182-c33d57733427?w=800&h=600&fit=crop"];
       Hotel.url := Some ("https://booking.com/hotel/" ++ query_hash ++
         "_eco_1") |}
  ].

(** The budget filter of [_filter_mock_hotels]; a bound that is [None]
    or zero is not applied. *)
Definition budget_filter (parameters : SearchParameters.t)
    (hotels : list Hotel.t) : list Hotel.t :=
  let filtered := hotels in
  let filtered :=
    if truthy_Q (SearchParameters.budget_max parameters)
    then List.filter
           (fun h => Qle_bool (get_or (Hotel.price h) 0%Q)
                       (get_or (SearchParameters.budget_max parameters) 0%Q))
           filtered
    else filtered in
  if truthy_Q (SearchParameters.budget_min parameters)
  then List.filter
         (fun h => Qle_bool
                     (get_or (SearchParameters.budget_min parameters) 0%Q)
                     (get_or (Hotel.price h) 0%Q))
         filtered
  else filtered.

(** [any(k in p for p in pref_lower)] for one of the keywords [keys]. *)
Definition pref_has (keys : list string) (pref_lower : list string) : bool :=
  existsb (fun p => existsb (fun k => PyStr.contains k p) keys) pref_lower.

(** The scoring of one hotel in [_filter_mock_hotels]. *)
Definition preference_score (pref_lower : list string) (hotel : Hotel.t)
    : Q :=
  let score := 0%Q in
  let amenities_str :=
    PyStr.join " " (map PyStr.lower (get_or (Hotel.amenities hotel) [])) in
  let name_desc :=
    PyStr.lower (get_or (Hotel.name hotel) "" ++ " "
                 ++ get_or (Hotel.description hotel) "") in
  let score :=
    if pref_has ["luxury"; "premium"] pref_lower
       && (Qle_bool 4.5%Q (get_or (Hotel.rating hotel) 0%Q)
           || PyStr.contains "luxury" name_desc)
    then (score + 10)%Q else score in
  let score :=
    if pref_has ["budget"; "cheap"; "affordable"] pref_lower
       && Qle_bool (get_or (Hotel.price hotel) 0%Q) 100%Q
    then (score + 10)%Q else score in
  let score :=
    if pref_has ["romantic"; "couple"] pref_lower
       && (PyStr.contains "romantic" name_desc
           || PyStr.contains "boutique" name_desc
           || PyStr.contains "spa" amenities_str)
    then (score + 10)%Q else score in
  let score :=
    if pref_has ["family"; "kids"] pref_lower
       && (PyStr.contains "family" name_desc
           || PyStr.contains "kids" amenities_str)
    then (score + 10)%Q else score in
  let score :=
    if pref_has ["business"; "corporate"] pref_lower
       && (PyStr.contains "business" name_desc
           || PyStr.contains "business" amenities_str)
    then (score + 10)%Q else score in
  let score :=
    if pref_has ["beach"; "seaside"] pref_lower
       && (PyStr.contains "beach" name_desc
           || PyStr.contains "beach" amenities_str)
    then (score + 10)%Q else score in
  let score :=
    if pref_has ["pool"] pref_lower
       && PyStr.contains "pool" amenities_str
    then (score + 10)%Q else score in
  let score :=
    if pref_has ["spa"; "wellness"] pref_lower
       && (PyStr.contains "spa" amenities_str
           || PyStr.contains "wellness" amenities_str)
    then (score + 10)%Q else score in
  score.

Definition positive (q : Q) : bool := negb (Qle_bool q 0%Q).

(** [a or b] on lists. *)
Definition list_or {A : Type} (a b : list A) : list A :=
  match a with
  | [] => b
  | _ => a
  end.

(** [_filter_mock_hotels] *)
Definition _filter_mock_hotels (hotels : list Hotel.t)
    (parameters : SearchParameters.t) : list Hotel.t :=
  let filtered := budget_filter parameters hotels in
  let filtered :=
    if truthy_list (SearchParameters.preferences parameters) then
      let pref_lower :=
        map PyStr.lower (get_or (SearchParameters.preferences parameters) [])
      in
      let scored_hotels :=
        map (fun hotel => (preference_score pref_lower hotel, hotel)) filtered
      in
      let scored_hotels := PySort.sort_desc fst scored_hotels in
      list_or
        (map snd (List.filter (fun sh => positive (fst sh)) scored_hotels))
        (map snd scored_hotels)
    else filtered in
  if (12 <? length filtered)%nat then take 12 filtered else filtered.

(** The text hashed into the fingerprint of a query. *)
Definition query_key (bi : Builtins) (location : string)
    (parameters : SearchParameters.t) : string :=
  let str_opt_float (o : option Q) :=
    match o with Some x => str_float bi x | None => "None" end in
  let str_opt_list (o : option (list string)) :=
    match o with Some l => repr_list bi l | None => "None" end in
  location ++ "_" ++ str_opt_float (SearchParameters.budget_min parameters)
  ++ "_" ++ str_opt_float (SearchParameters.budget_max parameters)
  ++ "_" ++ str_opt_list (SearchParameters.preferences parameters).

(** [parameters.location or "Paris"] *)
Definition resolve_location (parameters : SearchParameters.t) : string :=
  if truthy_str (SearchParameters.location parameters)
  then get_or (SearchParameters.location parameters) ""
  else "Paris".

(** The fingerprint [query_hash] of [_get_mock_hotels]: the first eight
    hexadecimal digits of the MD5 of the key. *)
Definition query_hash (bi : Builtins) (parameters : SearchParameters.t)
    : string :=
  let location := resolve_location parameters in
  PyStr.take 8 (md5_hexdigest bi (query_key bi location parameters)).

(** [_get_mock_hotels] *)
Definition _get_mock_hotels (bi : Builtins)
    (parameters : SearchParameters.t) : list Hotel.t :=
  let location := resolve_location parameters in
  let location_lower := PyStr.lower location in
  let location_coords := _get_location_coordinates location_lower in
  let query_hash := query_hash bi parameters in
  let all_hotels :=
    _generate_mock_hotel_database bi location location_coords query_hash in
  _filter_mock_hotels all_hotels parameters.

(** [search_hotels]: without credential, or on any failure of the live
    call, the synthetic hotels. *)
Definition search_hotels (self : BookingService) (http : Httpx)
    (bi : Builtins) (parameters : SearchParameters.t) : list Hotel.t :=
  if negb (nonempty_str (api_key self)) then _get_mock_hotels bi parameters
  else
    let params := _prepare_search_params parameters in
    match get_result http (base_url self ++ "/hotels") (api_key self)
            params with
    | Ok hotels => hotels
    | Raise _ => _get_mock_hotels bi parameters
    end.

End booking_service.

(** ** The persisted store ([app/models/hotel.py], [app/crud/hotel.py]) *)

Module hotel_crud.

(** The database session: the committed rows of table [hotels], one per
    [hotel_id], with the payload [booking_data], and the failures of the
    engine (a query or a commit on an identifier may raise).  The two
    timestamps of a row are set by the engine and are not modelled. *)
Record Session : Type := {
  rows : gmap string Hotel.t;
  query_error : string → option exn;
  commit_error : string → option exn
}.

Definition with_rows (db : Session) (r : gmap string Hotel.t) : Session :=
  {| rows := r;
     query_error := query_error db;
     commit_error := commit_error db |}.

(** What the session raises on every call once a commit has failed: the
    code never calls [db.rollback()]. *)
Definition PendingRollbackError : exn :=
  Exn OtherException
    "This Session's transaction has been rolled back due to a previous exception during flush. To begin a new transaction with this Session, first issue Session.rollback().".

(** The session after a failed [db.commit()]: the committed rows are as
    before, and every later query and commit raises. *)
Definition rolled_back (db : Session) : Session :=
  {| rows := rows db;
     query_error := fun _ => Some PendingRollbackError;
     commit_error := fun _ => Some PendingRollbackError |}.

(** [get_hotel]: the [booking_data] of the row, if any. *)
Definition get_hotel (db : Session) (hotel_id : string)
    : result (option Hotel.t) :=
  match query_error db hotel_id with
  | Some e => Raise e
  | None => Ok (rows db !! hotel_id)
  end.

(** [create_or_update_hotel]: in both branches the row of [hotel_id]
    holds [booking_data] after the commit; the value returned is the
    payload of the refreshed row.  A commit that raises leaves the session
    without a rollback. *)
Definition create_or_update_hotel (db : Session) (hotel_id : string)
    (booking_data : Hotel.t) : Session * result Hotel.t :=
  match get_hotel db hotel_id with
  | Raise e => (db, Raise e)
  | Ok _ =>
      match commit_error db hotel_id with
      | Some e => (rolled_back db, Raise e)
      | None =>
          (with_rows db (<[hotel_id := booking_data]> (rows db)),
           Ok booking_data)
      end
  end.

(** The loop of [bulk_create_or_update_hotels].  [saved_hotels] collects
    row objects, and the session keeps one row object per identifier: the
    list is modelled by the identifiers of its rows.  Rows committed before
    a failure stay. *)
Fixpoint saved_hotels (db : Session) (hotels_data : list Hotel.t)
    : Session * result (list string) :=
  match hotels_data with
  | [] => (db, Ok [])
  | hotel_data :: rest =>
      let hotel_id := Hotel.id_str hotel_data in
      if nonempty_str hotel_id then
        match create_or_update_hotel db hotel_id hotel_data with
        | (db', Raise e) => (db', Raise e)
        | (db', Ok _) =>
            match saved_hotels db' rest with
            | (db'', Ok saved) => (db'', Ok (hotel_id :: saved))
            | (db'', Raise e) => (db'', Raise e)
            end
        end
      else saved_hotels db rest
  end.

(** [bulk_create_or_update_hotels]: the payloads of the returned rows, as
    the caller reads them: a row saved twice appears twice, both times
    with its last payload. *)
Definition bulk_create_or_update_hotels (db : Session)
    (hotels_data : list Hotel.t) : Session * result (list Hotel.t) :=
  match saved_hotels db hotels_data with
  | (db', Ok saved) =>
      (db', Ok (map (fun hotel_id => get_or (rows db' !! hotel_id) Hotel.empty)
                  saved))
  | (db', Raise e) => (db', Raise e)
  end.

End hotel_crud.

(** ** The orchestrator ([app/api/v1/recommendations.py]) *)

Module recommendations.

Record HTTPException : Type := {
  status_code : Z;
  detail : string
}.

(** The steps of the workflow of [recommend_hotels]. *)
Inductive step : Type :=
| ExtractParameters   (** step 1 *)
| SearchHotels        (** step 2 *)
| SaveHotels          (** step 2.5 *)
| FilterHotels        (** step 3 *)
| MapHotels.          (** step 4 *)

(** The collaborators of one request. *)
Record Services : Type := {
  chatgpt : chatgpt_service.ChatGPTService;
  json : chatgpt_service.Json;
  booking : booking_service.BookingService;
  httpx : booking_service.Httpx;
  builtins : Builtins
}.

(** [extracted.adults or 1] and the like. *)
Definition or_Z (o : option Z) (d : Z) : Z :=
  if booking_service.truthy_Z o then get_or o d else d.

Definition to_search_parameters
    (extracted_params : ChatGPTParameterExtractionResponse.t)
    : SearchParameters.t :=
  {| SearchParameters.location :=
       ChatGPTParameterExtractionResponse.location extracted_params;
     SearchParameters.check_in :=
       ChatGPTParameterExtractionResponse.check_in extracted_params;
     SearchParameters.check_out :=
       ChatGPTParameterExtractionResponse.check_out extracted_params;
     SearchParameters.budget_min :=
       ChatGPTParameterExtractionResponse.budget_min extracted_params;
     SearchParameters.budget_max :=
       ChatGPTParameterExtractionResponse.budget_max extracted_params;
     SearchParameters.adults :=
       Some (or_Z (ChatGPTParameterExtractionResponse.adults
                     extracted_params) 1);
     SearchParameters.children :=
       Some (or_Z (ChatGPTParameterExtractionResponse.children
                     extracted_params) 0);
     SearchParameters.rooms :=
       Some (or_Z (ChatGPTParameterExtractionResponse.rooms
                     extracted_params) 1);
     SearchParameters.preferences :=
       Some (if truthy_list (ChatGPTParameterExtractionResponse.preferences
                               extracted_params)
             then get_or (ChatGPTParameterExtractionResponse.preferences
                            extracted_params) []
             else []) |}.

(** The dict comprehension [hotels_by_id]: a later hotel replaces an
    earlier one with the same identifier. *)
Definition hotels_by_id (hotels : list Hotel.t) : gmap string Hotel.t :=
  fold_left
    (fun (m : gmap string Hotel.t) h =>
       if truthy_str (Hotel.hotel_id h) then <[Hotel.id_str h := h]> m
       else m)
    hotels ∅.

(** The payload for one matched identifier: the fresh hotel, else the
    stored [booking_data] when the row exists and is not empty. *)
Definition hotel_data_for (fresh : gmap string Hotel.t)
    (db : hotel_crud.Session) (hotel_id : string) : option Hotel.t :=
  match fresh !! hotel_id with
  | Some h => Some h
  | None =>
      match hotel_crud.get_hotel db hotel_id with
      | Ok (Some booking_data) =>
          if Hotel.truthy booking_data then Some booking_data else None
      | Ok None => None
      | Raise _ => None
      end
  end.

Definition to_hotel_info (hotel_data : Hotel.t) : HotelInfo.t :=
  {| HotelInfo.hotel_id := Some (Hotel.id_str hotel_data);
     HotelInfo.name := Hotel.name hotel_data;
     HotelInfo.address := Hotel.address hotel_data;
     HotelInfo.city := Hotel.city hotel_data;
     HotelInfo.country := Hotel.country hotel_data;
     HotelInfo.latitude := Hotel.latitude hotel_data;
     HotelInfo.longitude := Hotel.longitude hotel_data;
     HotelInfo.price := Hotel.price hotel_data;
     HotelInfo.currency := Some (get_or (Hotel.currency hotel_data) "EUR");
     HotelInfo.rating := Hotel.rating hotel_data;
     HotelInfo.review_score := Hotel.review_score hotel_data;
     HotelInfo.review_count := Hotel.review_count hotel_data;
     HotelInfo.amenities := Some (get_or (Hotel.amenities hotel_data) []);
     HotelInfo.description := Hotel.description hotel_data;
     HotelInfo.images := Some (get_or (Hotel.images hotel_data) []);
     HotelInfo.url := Hotel.url hotel_data;
     HotelInfo.raw_data := Some hotel_data |}.

(** The loop of step 4 over [matched_hotel_ids]. *)
Fixpoint map_hotels (fresh : gmap string Hotel.t) (db : hotel_crud.Session)
    (matched_hotel_ids : list string) : list HotelInfo.t :=
  match matched_hotel_ids with
  | [] => []
  | hotel_id :: rest =>
      match hotel_data_for fresh db hotel_id with
      | Some hotel_data =>
          if Hotel.truthy hotel_data
          then to_hotel_info hotel_data :: map_hotels fresh db rest
          else map_hotels fresh db rest
      | None => map_hotels fresh db rest
      end
  end.

(** The two handlers of [recommend_hotels]. *)
Definition to_http_exception (e : exn) : HTTPException :=
  if is_ValueError e
  then {| status_code := 500;
          detail := "Service configuration error: " ++ exn_str e |}
  else {| status_code := 500;
          detail := "Error processing recommendation: " ++ exn_str e |}.

(** The outcome of one request: the session after it, the steps that
    ran, and the response or the HTTP error. *)
Record outcome : Type := {
  db_after : hotel_crud.Session;
  steps : list step;
  response : RecommendationResponse.t + HTTPException
}.

(** [recommend_hotels] *)
Definition recommend_hotels (user_demand : string)
    (db : hotel_crud.Session) (svc : Services) : outcome :=
  match chatgpt_service.extract_search_parameters (chatgpt svc) (json svc)
          user_demand with
  | Raise e =>
      {| db_after := db;
         steps := [ExtractParameters];
         response := inr (to_http_exception e) |}
  | Ok extracted_params =>
      let search_params := to_search_parameters extracted_params in
      let hotels :=
        booking_service.search_hotels (booking svc) (httpx svc)
          (builtins svc) search_params in
      match hotels with
      | [] =>
          {| db_after := db;
             steps := [ExtractParameters; SearchHotels];
             response :=
               inl {| RecommendationResponse.user_demand := user_demand;
                      RecommendationResponse.extracted_parameters :=
                        search_params;
                      RecommendationResponse.matched_hotels := [];
                      RecommendationResponse.total_results := 0;
                      RecommendationResponse.message :=
                        Some "No hotels found matching your criteria." |} |}
      | _ =>
          let db := fst (hotel_crud.bulk_create_or_update_hotels db hotels) in
          let matched_hotel_ids :=
            chatgpt_service.filter_hotels_by_demand (chatgpt svc) (json svc)
              user_demand hotels in
          let matched_hotels :=
            map_hotels (hotels_by_id hotels) db matched_hotel_ids in
          {| db_after := db;
             steps := [ExtractParameters; SearchHotels; SaveHotels;
                       FilterHotels; MapHotels];
             response :=
               inl {| RecommendationResponse.user_demand := user_demand;
                      RecommendationResponse.extracted_parameters :=
                        search_params;
                      RecommendationResponse.matched_hotels := matched_hotels;
                      RecommendationResponse.total_results :=
                        Z.of_nat (length matched_hotels);
                      RecommendationResponse.message :=
                        Some ("Found " ++ pretty (length matched_hotels)
                              ++ " hotels matching your preferences.") |} |}
      end
  end.

End recommendations.

(** ** Settings ([app/config.py]) and the dependencies of the endpoint *)

Module config.

(** The settings that are text; [cors_origins] is the comma-separated
    text read from the environment. *)
Record Settings : Type := {
  app_name : string;
  app_version : string;
  debug : bool;
  database_url : string;
  cors_origins : string;
  api_v1_prefix : string;
  openai_api_key : string;
  openai_model : string;
  booking_api_key : string;
  booking_api_url : string
}.

(** The defaults of the class, used when the environment sets nothing. *)
Definition defaults : Settings :=
  {| app_name := "Hotel Recommendation API";
     app_version := "1.0.0";
     debug := false;
     database_url := "sqlite:///./data/hotel_recommendation.db";
     cors_origins := "http://localhost:3000,http://localhost:3001";
     api_v1_prefix := "/api/v1";
     openai_api_key := "";
     openai_model := "gpt-4o-mini";
     booking_api_key := "";
     booking_api_url := "https://distribution-xml.booking.com/json" |}.

(** [s.split(",")] *)
Fixpoint split_comma (s : string) : list string :=
  match s with
  | EmptyString => [EmptyString]
  | String c s' =>
      if Ascii.eqb c ","%char then EmptyString :: split_comma s'
      else match split_comma s' with
           | piece :: pieces => String c piece :: pieces
           | [] => [String c EmptyString]
           end
  end.

(** [parse_cors_origins] for the text setting, and the property
    [cors_origins_list] that reads what it stored: the stripped pieces that
    are not empty. *)
Definition cors_origins_list (self : Settings) : list string :=
  List.filter nonempty_str (map PyStr.strip (split_comma (cors_origins self))).

End config.

(** [get_chatgpt_service] and [get_booking_service] of
    [app/api/v1/recommendations.py]: the services are built from the
    settings at every request. *)
Module dependencies.

Definition get_chatgpt_service (settings : config.Settings)
    (connect : string → chatgpt_service.OpenAI)
    : chatgpt_service.ChatGPTService :=
  chatgpt_service.__init__ (config.openai_api_key settings)
    (config.openai_model settings) connect.

Definition get_booking_service (settings : config.Settings)
    : booking_service.BookingService :=
  booking_service.__init__ (config.booking_api_key settings)
    (config.booking_api_url settings).

(** The collaborators of a request under [settings]. *)
Definition services (settings : config.Settings)
    (connect : string → chatgpt_service.OpenAI) (json : chatgpt_service.Json)
    (http : booking_service.Httpx) (bi : Builtins) : recommendations.Services :=
  {| recommendations.chatgpt := get_chatgpt_service settings connect;
     recommendations.json := json;
     recommendations.booking := get_booking_service settings;
     recommendations.httpx := http;
     recommendations.builtins := bi |}.

End dependencies.

(** * Vocabulary of the properties *)

Section Ordering.
Context {A : Type} (key : A → Q).

(** [l] is ordered by descending key. *)
Definition descending (l : list A) : Prop :=
  StronglySorted (fun a b => (key b <= key a)%Q) l.

(** The elements of [l] whose key equals [k], in order. *)
Definition with_key (k : Q) (l : list A) : list A :=
  List.filter (fun a => Qeq_bool (key a) k) l.
End Ordering.

(** The hotels the ranking fallback scores: those with an identifier. *)
Definition identified (hotels : list Hotel.t) : list Hotel.t :=
  List.filter (fun h => nonempty_str (Hotel.id_str h)) hotels.

(** The score the ranking fallback gives a hotel for a demand. *)
Definition demand_score (user_demand : string) : Hotel.t → Q :=
  chatgpt_service.fallback_score
    (chatgpt_service.filter_budget_max (PyStr.lower user_demand))
    (chatgpt_service.detect chatgpt_service.preference_keywords
       (PyStr.lower user_demand)).

(** The eight rows of the preference table for one hotel: the tag is
    asked for by a preference and its condition holds against the hotel. *)
Definition tag_conditions (pref_lower : list string) (hotel : Hotel.t)
    : list bool :=
  let amenities_str :=
    PyStr.join " " (map PyStr.lower (get_or (Hotel.amenities hotel) [])) in
  let name_desc :=
    PyStr.lower (get_or (Hotel.name hotel) "" ++ " "
                 ++ get_or (Hotel.description hotel) "") in
  [ booking_service.pref_has ["luxury"; "premium"] pref_lower
    && (Qle_bool 4.5%Q (get_or (Hotel.rating hotel) 0%Q)
        || PyStr.contains "luxury" name_desc);
    booking_service.pref_has ["budget"; "cheap"; "affordable"] pref_lower
    && Qle_bool (get_or (Hotel.price hotel) 0%Q) 100%Q;
    booking_service.pref_has ["romantic"; "couple"] pref_lower
    && (PyStr.contains "romantic" name_desc
        || PyStr.contains "boutique" name_desc
        || PyStr.contains "spa" amenities_str);
    booking_service.pref_has ["family"; "kids"] pref_lower
    && (PyStr.contains "family" name_desc
        || PyStr.contains "kids" amenities_str);
    booking_service.pref_has ["business"; "corporate"] pref_lower
    && (PyStr.contains "business" name_desc
        || PyStr.contains "business" amenities_str);
    booking_service.pref_has ["beach"; "seaside"] pref_lower
    && (PyStr.contains "beach" name_desc
        || PyStr.contains "beach" amenities_str);
    booking_service.pref_has ["pool"] pref_lower
    && PyStr.contains "pool" amenities_str;
    booking_service.pref_has ["spa"; "wellness"] pref_lower
    && (PyStr.contains "spa" amenities_str
        || PyStr.contains "wellness" amenities_str) ].

(** The number of conditions that hold. *)
Definition count_true (conds : list bool) : nat :=
  length (List.filter (fun b : bool => b) conds).

(** The candidates the preference bias keeps, before the cap: those with a
    positive score when there is one, all of them otherwise. *)
Definition biased (score : Hotel.t → Q) (survivors : list Hotel.t)
    : list Hotel.t :=
  if existsb (fun h => booking_service.positive (score h)) survivors
  then List.filter (fun h => booking_service.positive (score h)) survivors
  else survivors.

(** [h.get("price", 0)] *)
Definition price_of (h : Hotel.t) : Q := get_or (Hotel.price h) 0%Q.

(** The bound [o] is applied and [h] is within it. *)
Definition within_max (o : option Q) (h : Hotel.t) : Prop :=
  ∀ b, o = Some b → ¬ (b == 0)%Q → (price_of h <= b)%Q.

Definition within_min (o : option Q) (h : Hotel.t) : Prop :=
  ∀ b, o = Some b → ¬ (b == 0)%Q → (b <= price_of h)%Q.

(** A hotel that has only an identifier and a price. *)
Definition priced (hotel_id : string) (price : Q) : Hotel.t :=
  {| Hotel.hotel_id := Some hotel_id; Hotel.name := None;
     Hotel.address := None; Hotel.city := None; Hotel.country := None;
     Hotel.latitude := None; Hotel.longitude := None;
     Hotel.price := Some price; Hotel.currency := None;
     Hotel.rating := None; Hotel.review_score := None;
     Hotel.review_count := None; Hotel.amenities := None;
     Hotel.description := None; Hotel.images := None; Hotel.url := None |}.

(** The search parameters of a query with default occupancy. *)
Definition query_for (location : option string) (budget_min budget_max : option Q)
    (preferences : option (list string)) : SearchParameters.t :=
  {| SearchParameters.location := location;
     SearchParameters.check_in := None;
     SearchParameters.check_out := None;
     SearchParameters.budget_min := budget_min;
     SearchParameters.budget_max := budget_max;
     SearchParameters.adults := Some 1%Z;
     SearchParameters.children := Some 0%Z;
     SearchParameters.rooms := Some 1%Z;
     SearchParameters.preferences := preferences |}.

(** The coordinates of a generated hotel. *)
Definition coordinates (h : Hotel.t) : option Q * option Q :=
  (Hotel.latitude h, Hotel.longitude h).

(** A runtime for examples: the digest of a text is the text itself. *)
Definition toy_builtins : Builtins :=
  {| md5_hexdigest := fun s => s;
     hash := fun s => Z.of_nat (String.length s);
     str_float := fun _ => "x";
     repr_list := fun l => PyStr.join "," l |}.



(** The fresh candidate for an identifier: the last hotel of the
    candidate list whose identifier is present, non-empty and equal to it. *)
Definition fresh_candidate (hotels : list Hotel.t) (hotel_id : string)
    : option Hotel.t :=
  List.find
    (fun h => truthy_str (Hotel.hotel_id h)
              && String.eqb (Hotel.id_str h) hotel_id)
    (rev hotels).

(** The persisted record for an identifier: the payload of its row, when
    the store answers and the payload is not empty. *)
Definition stored_record (db : hotel_crud.Session) (hotel_id : string)
    : option Hotel.t :=
  match hotel_crud.get_hotel db hotel_id with
  | Ok (Some booking_data) =>
      if Hotel.truthy booking_data then Some booking_data else None
  | Ok None => None
  | Raise _ => None
  end.

(** The hydration policy in the words of the specification: the fresh
    candidate, else the persisted record, else nothing. *)
Definition hydration_policy (hotels : list Hotel.t) (db : hotel_crud.Session)
    (hotel_id : string) : option Hotel.t :=
  match fresh_candidate hotels hotel_id with
  | Some h => Some h
  | None => stored_record db hotel_id
  end.

(** The entries of the result for one ranked identifier. *)
Definition hydrated (hotels : list Hotel.t) (db : hotel_crud.Session)
    (hotel_id : string) : list HotelInfo.t :=
  match hydration_policy hotels db hotel_id with
  | Some hotel_data => [recommendations.to_hotel_info hotel_data]
  | None => []
  end.

(** A client whose every request raises [e]. *)
Definition failing_client (e : exn) : chatgpt_service.OpenAI :=
  {| chatgpt_service.create := fun _ _ _ => Raise e |}.

(** A parser that rejects every text. *)
Definition no_json : chatgpt_service.Json :=
  {| chatgpt_service.loads_parameters :=
       fun _ => Raise (Exn JSONDecodeError "Expecting value");
     chatgpt_service.loads_matched_ids :=
       fun _ => Raise (Exn JSONDecodeError "Expecting value") |}.

(** The service as [__init__] builds it for a key, with a client that
    raises [e]. *)
Definition service_failing_with (openai_api_key : string) (e : exn)
    : chatgpt_service.ChatGPTService :=
  chatgpt_service.__init__ openai_api_key "gpt-4o-mini"
    (fun _ => failing_client e).

(** The collaborators of a request when the inference service is out of
    quota and no inventory credential is configured. *)
Definition degraded_services : recommendations.Services :=
  {| recommendations.chatgpt :=
       service_failing_with "sk-test"
         (Exn RateLimitError "Error code: 429 - insufficient_quota");
     recommendations.json := no_json;
     recommendations.booking :=
       booking_service.__init__ ""
         "https://distribution-xml.booking.com/json";
     recommendations.httpx :=
       {| booking_service.get_result :=
            fun _ _ _ => Raise (Exn HTTPError "unreachable") |};
     recommendations.builtins := toy_builtins |}.

(** A store with the rows [rows] in which every commit fails. *)
Definition read_only_store (rows : gmap string Hotel.t) : hotel_crud.Session :=
  {| hotel_crud.rows := rows;
     hotel_crud.query_error := fun _ => None;
     hotel_crud.commit_error :=
       fun _ => Some (Exn OtherException "database is locked") |}.

(** A session on which no query and no commit fails. *)
Definition healthy (db : hotel_crud.Session) : Prop :=
  ∀ hotel_id, hotel_crud.query_error db hotel_id = None
              ∧ hotel_crud.commit_error db hotel_id = None.

(** A store with the rows [rows] on which nothing fails. *)
Definition healthy_store (rows : gmap string Hotel.t) : hotel_crud.Session :=
  {| hotel_crud.rows := rows;
     hotel_crud.query_error := fun _ => None;
     hotel_crud.commit_error := fun _ => None |}.

(** The candidates of a request: what the search returns for the extracted
    parameters, nothing when the extraction raises. *)
Definition searched (svc : recommendations.Services) (user_demand : string)
    : list Hotel.t :=
  match chatgpt_service.extract_search_parameters
          (recommendations.chatgpt svc) (recommendations.json svc)
          user_demand with
  | Ok extracted =>
      booking_service.search_hotels (recommendations.booking svc)
        (recommendations.httpx svc) (recommendations.builtins svc)
        (recommendations.to_search_parameters extracted)
  | Raise _ => []
  end.

(** The identifiers the ranking step returns for these candidates. *)
Definition ranked_ids (svc : recommendations.Services) (user_demand : string)
    : list string :=
  chatgpt_service.filter_hotels_by_demand (recommendations.chatgpt svc)
    (recommendations.json svc) user_demand (searched svc user_demand).

(** A client whose every request is answered by [content]. *)
Definition replying_client (content : string) : chatgpt_service.OpenAI :=
  {| chatgpt_service.create := fun _ _ _ => Ok content |}.

(** The collaborators of a request when the inference service answers
    every request with [content], no reply parses, and no inventory
    credential is configured. *)
Definition services_replying (content : string) : recommendations.Services :=
  {| recommendations.chatgpt :=
       chatgpt_service.__init__ "sk-test" "gpt-4o-mini"
         (fun _ => replying_client content);
     recommendations.json := no_json;
     recommendations.booking :=
       booking_service.__init__ ""
         "https://distribution-xml.booking.com/json";
     recommendations.httpx :=
       {| booking_service.get_result :=
            fun _ _ _ => Raise (Exn HTTPError "unreachable") |};
     recommendations.builtins := toy_builtins |}.

(** The primary ranking gives no answer: there is no client, or the
    request raises, or the reply (without its fence) does not parse. *)
Definition primary_unavailable (self : chatgpt_service.ChatGPTService)
    (json : chatgpt_service.Json) (user_demand : string)
    (hotels : list Hotel.t) : Prop :=
  match chatgpt_service.client self with
  | None => True
  | Some c =>
      match chatgpt_service.create c (chatgpt_service.model self)
              "Filter hotels. Return JSON with matched_ids array only."
              (chatgpt_service.FilterPrompt user_demand
                 (chatgpt_service.summarize hotels)) with
      | Raise _ => True
      | Ok content =>
          ∃ e, chatgpt_service.loads_matched_ids json
                 (if PyStr.contains "```json" content
                  then chatgpt_service.strip_fence content else content)
               = Raise e
      end
  end.

(** The text has no backtick. *)
Fixpoint no_backtick (s : string) : bool :=
  match s with
  | EmptyString => true
  | String c s' => negb (Ascii.eqb c "`"%char) && no_backtick s'
  end.

(** A parser that accepts the text [good] only, as the parameters [r]. *)
Definition json_accepting (good : string)
    (r : ChatGPTParameterExtractionResponse.t) : chatgpt_service.Json :=
  {| chatgpt_service.loads_parameters :=
       fun content => if String.eqb content good then Ok r
                      else Raise (Exn JSONDecodeError "Expecting value");
     chatgpt_service.loads_matched_ids :=
       fun _ => Raise (Exn JSONDecodeError "Expecting value") |}.

(** The text is a run of decimal digits. *)
Fixpoint all_digits (s : string) : bool :=
  match s with
  | EmptyString => true
  | String c s' => PyStr.is_digit c && all_digits s'
  end.

(** A keyword of the list occurs in the text. *)
Definition has_keyword (keywords : list string) (text : string) : bool :=
  existsb (fun kw => PyStr.contains kw text) keywords.

(** Truth value of a value of the provider query. *)
Definition query_value_truthy (v : booking_service.query_value) : bool :=
  match v with
  | booking_service.QStr s => nonempty_str s
  | booking_service.QInt n => negb (n =? 0)%Z
  | booking_service.QFloat x => nonzero x
  end.

(** The text has no comma. *)
Fixpoint no_comma (s : string) : bool :=
  match s with
  | EmptyString => true
  | String c s' => negb (Ascii.eqb c ","%char) && no_comma s'
  end.

(** The first character of the text, if any, is not white space. *)
Definition no_leading_space (s : string) : bool :=
  match s with
  | EmptyString => true
  | String c _ => negb (PyStr.is_space c)
  end.

(** * Properties *)

(** ** Stable descending sort *)

Section SortFacts.
Context {A : Type} (key : A → Q).

Lemma insert_desc_perm x l : Permutation (PySort.insert_desc key x l) (x :: l).
Proof.
  induction l as [|y l IH]; simpl; [reflexivity|].
  destruct (Qle_bool (key y) (key x)); [reflexivity|].
  rewrite IH. apply perm_swap.
Qed.

Lemma sort_desc_perm l : Permutation (PySort.sort_desc key l) l.
Proof.
  induction l as [|x l IH]; simpl; [reflexivity|].
  rewrite insert_desc_perm. by constructor.
Qed.

Lemma Qle_bool_false_lt a b : Qle_bool a b = false → (b < a)%Q.
Proof.
  intros H. apply Qnot_le_lt. intros Hle.
  apply Qle_bool_iff in Hle. congruence.
Qed.

Lemma insert_desc_descending x l :
  descending key l → descending key (PySort.insert_desc key x l).
Proof.
  unfold descending. induction l as [|y l IH]; simpl; intros Hs.
  - repeat constructor.
  - apply StronglySorted_inv in Hs as [Hl Hy].
    destruct (Qle_bool (key y) (key x)) eqn:E.
    + apply Qle_bool_iff in E.
      constructor; [by constructor|]. constructor; [done|].
      eapply Forall_impl; [exact Hy|]. simpl. intros z Hz.
      by apply Qle_trans with (key y).
    + apply Qle_bool_false_lt in E.
      constructor; [by apply IH|].
      rewrite insert_desc_perm.
      constructor; [by apply Qlt_le_weak|done].
Qed.

Lemma sort_desc_descending l : descending key (PySort.sort_desc key l).
Proof.
  induction l as [|x l IH]; simpl; [constructor|].
  by apply insert_desc_descending.
Qed.

Lemma insert_desc_with_key k x l :
  with_key key k (PySort.insert_desc key x l) = with_key key k (x :: l).
Proof.
  unfold with_key. induction l as [|y l IH]; [done|].
  cbn [PySort.insert_desc].
  destruct (Qle_bool (key y) (key x)) eqn:E; [done|].
  cbn [List.filter] in *. rewrite IH.
  destruct (Qeq_bool (key x) k) eqn:Ex, (Qeq_bool (key y) k) eqn:Ey; try done.
  apply Qeq_bool_iff in Ex, Ey. apply Qle_bool_false_lt in E.
  rewrite Ex, Ey in E. by apply Qlt_irrefl in E.
Qed.

(** Stability: elements with equal keys keep their order. *)
Lemma sort_desc_stable k l :
  with_key key k (PySort.sort_desc key l) = with_key key k l.
Proof.
  induction l as [|x l IH]; [done|].
  cbn [PySort.sort_desc]. rewrite insert_desc_with_key.
  unfold with_key in *. cbn [List.filter]. by rewrite IH.
Qed.

Lemma sort_desc_length l : length (PySort.sort_desc key l) = length l.
Proof. apply Permutation_length, sort_desc_perm. Qed.

(** A list in which no key is below a later one is left as it is. *)
Lemma sort_desc_fixed l : descending key l → PySort.sort_desc key l = l.
Proof.
  unfold descending. induction l as [|x l IH]; [done|].
  intros Hs. apply StronglySorted_inv in Hs as [Hl Hx].
  cbn [PySort.sort_desc]. rewrite (IH Hl).
  destruct l as [|y l']; [done|]. cbn [PySort.insert_desc].
  apply Forall_inv in Hx. apply Qle_bool_iff in Hx. by rewrite Hx.
Qed.
End SortFacts.

(** Sorting scored pairs by their score is sorting by the score function. *)
Lemma sort_desc_scored {A B : Type} (f : A → Q) (g : A → B) (l : list A) :
  PySort.sort_desc fst (map (fun a => (f a, g a)) l)
  = map (fun a => (f a, g a)) (PySort.sort_desc f l).
Proof.
  induction l as [|x l IH]; [done|].
  cbn [map PySort.sort_desc]. rewrite IH.
  generalize (PySort.sort_desc f l). intros s.
  induction s as [|y s IHs]; [done|].
  cbn [map PySort.insert_desc fst].
  destruct (Qle_bool (f y) (f x)); [done|].
  cbn [map]. by rewrite IHs.
Qed.

(** ** The ranking fallback *)

Lemma score_hotels_identified budget_max prefs hotels :
  chatgpt_service.score_hotels budget_max prefs hotels
  = map (fun h => (chatgpt_service.fallback_score budget_max prefs h,
                   Hotel.id_str h))
        (identified hotels).
Proof.
  induction hotels as [|h hotels IH]; [done|].
  unfold identified in *. cbn [chatgpt_service.score_hotels List.filter].
  destruct (nonempty_str (Hotel.id_str h)); [|done].
  cbn [map]. by rewrite IH.
Qed.

(** C3. For every demand and every candidate list, the fallback ranking
    returns the identifiers of exactly the candidates with a non-empty
    identifier (a permutation of them, so never fewer), ordered by
    descending score, candidates of equal score in input order. *)
Theorem fallback_ranking_returns_every_identifier
    (user_demand : string) (hotels : list Hotel.t) :
  let ranked := PySort.sort_desc (demand_score user_demand) (identified hotels) in
  chatgpt_service._fallback_filter_hotels user_demand hotels
  = map Hotel.id_str ranked
  ∧ Permutation ranked (identified hotels)
  ∧ descending (demand_score user_demand) ranked
  ∧ (∀ k, with_key (demand_score user_demand) k ranked
          = with_key (demand_score user_demand) k (identified hotels))
  ∧ Permutation (chatgpt_service._fallback_filter_hotels user_demand hotels)
      (List.filter nonempty_str (map Hotel.id_str hotels))
  ∧ length (chatgpt_service._fallback_filter_hotels user_demand hotels)
    = length (List.filter nonempty_str (map Hotel.id_str hotels)).
Proof.
  intros ranked.
  assert (Hout : chatgpt_service._fallback_filter_hotels user_demand hotels
                 = map Hotel.id_str ranked).
  { unfold chatgpt_service._fallback_filter_hotels.
    rewrite score_hotels_identified, sort_desc_scored, map_map. done. }
  assert (Hids : List.filter nonempty_str (map Hotel.id_str hotels)
                 = map Hotel.id_str (identified hotels)).
  { unfold identified. clear. induction hotels as [|h hotels IH]; [done|].
    cbn [map List.filter]. destruct (nonempty_str (Hotel.id_str h)); [|done].
    cbn [map]. by rewrite IH. }
  assert (Hperm : Permutation ranked (identified hotels))
    by apply sort_desc_perm.
  repeat split.
  - exact Hout.
  - exact Hperm.
  - apply sort_desc_descending.
  - intros k. apply sort_desc_stable.
  - rewrite Hout, Hids. by apply Permutation_map.
  - rewrite Hout, Hids, !length_map. by apply Permutation_length.
Qed.

(** ** The extraction fallback *)

(** The first pattern of a list that matches decides, whatever later
    patterns would find. *)
Lemma first_match_priority (patterns : list Re.regex) (s : string)
    (i : nat) (p : Re.regex) (g : Re.groups) :
  patterns !! i = Some p →
  Re.search p s = Some g →
  (∀ j q, (j < i)%nat → patterns !! j = Some q → Re.search q s = None) →
  chatgpt_service.first_match patterns s = Some g.
Proof.
  revert i. induction patterns as [|q patterns IH]; intros i Hi Hp Hlt.
  - done.
  - destruct i as [|i]; cbn [chatgpt_service.first_match].
    + injection Hi as ->. by rewrite Hp.
    + rewrite (Hlt 0%nat q); [|lia|done].
      apply (IH i); [done..|].
      intros j r Hj Hr. apply (Hlt (S j)); [lia|done].
Qed.

(** C9. The extraction fallback reads ["hotels under 150"] as
    [budget_max = 150.0]; [budget_max] is the number captured by the first
    pattern, in the order of the list, that matches the lower-cased demand;
    [budget_min] is never inferred.  For ["cheap stay"] the ranking fallback
    detects the tag [budget] and sets its budget ceiling to [100.0], by the
    pattern [cheap] of its own list. *)
Theorem fallback_budget_pattern_extraction :
  ChatGPTParameterExtractionResponse.budget_max
    (chatgpt_service._fallback_extract_parameters "hotels under 150")
  = Some 150%Q
  ∧ (∀ user_demand,
       ChatGPTParameterExtractionResponse.budget_min
         (chatgpt_service._fallback_extract_parameters user_demand) = None)
  ∧ (∀ user_demand i p digits,
       chatgpt_service.extract_budget_patterns !! i = Some p →
       Re.search p (PyStr.lower user_demand) = Some (Some digits) →
       (∀ j q, (j < i)%nat →
               chatgpt_service.extract_budget_patterns !! j = Some q →
               Re.search q (PyStr.lower user_demand) = None) →
       ChatGPTParameterExtractionResponse.budget_max
         (chatgpt_service._fallback_extract_parameters user_demand)
       = Some (PyStr.float_of_digits digits))
  ∧ ChatGPTParameterExtractionResponse.budget_max
      (chatgpt_service._fallback_extract_parameters "max 300 or under 150")
    = Some 150%Q
  ∧ chatgpt_service.filter_budget_max (PyStr.lower "cheap stay") = Some 100%Q
  ∧ In "budget"
      (chatgpt_service.detect chatgpt_service.preference_keywords
         (PyStr.lower "cheap stay"))
  ∧ chatgpt_service.first_match chatgpt_service.filter_budget_patterns
      (PyStr.lower "cheap stay") = Re.search [Re.Lit "cheap"] "cheap stay".
Proof.
  split; [vm_compute; reflexivity|].
  split; [done|].
  split.
  { intros user_demand i p digits Hi Hp Hlt.
    unfold chatgpt_service._fallback_extract_parameters.
    cbn [ChatGPTParameterExtractionResponse.budget_max].
    by rewrite (first_match_priority _ _ i p (Some digits) Hi Hp Hlt). }
  split; [vm_compute; reflexivity|].
  split; [vm_compute; reflexivity|].
  split; [vm_compute; tauto|].
  vm_compute; reflexivity.
Qed.

(** ** The synthetic provider: preference bias *)

Lemma sort_desc_scored_self {A : Type} (f : A → Q) (l : list A) :
  map snd (PySort.sort_desc fst (map (fun a => (f a, a)) l))
  = PySort.sort_desc f l.
Proof.
  rewrite (sort_desc_scored f (fun a => a)), map_map. cbn [snd].
  apply map_id.
Qed.

Lemma filter_scored_self {A : Type} (f : A → Q) (p : Q → bool) (l : list A) :
  map snd (List.filter (fun sh => p (fst sh)) (map (fun a => (f a, a)) l))
  = List.filter (fun a => p (f a)) l.
Proof.
  induction l as [|x l IH]; [done|].
  cbn [map List.filter fst]. destruct (p (f x)); cbn [map snd]; by rewrite IH.
Qed.

Lemma filter_comm {A : Type} (p q : A → bool) (l : list A) :
  List.filter p (List.filter q l) = List.filter q (List.filter p l).
Proof.
  induction l as [|x l IH]; [done|].
  cbn [List.filter].
  destruct (p x) eqn:Ep, (q x) eqn:Eq; cbn [List.filter];
    rewrite ?Ep, ?Eq, IH; done.
Qed.

Lemma descending_filter {A : Type} (key : A → Q) (p : A → bool) (l : list A) :
  descending key l → descending key (List.filter p l).
Proof.
  unfold descending. induction 1 as [|x l Hl IH Hx]; [constructor|].
  cbn [List.filter]. destruct (p x); [|done].
  constructor; [done|].
  apply List.Forall_forall. intros y Hy. apply filter_In in Hy as [Hy _].
  by apply (proj1 (List.Forall_forall _ _) Hx).
Qed.

Lemma existsb_Permutation {A : Type} (p : A → bool) (l1 l2 : list A) :
  Permutation l1 l2 → existsb p l1 = existsb p l2.
Proof.
  induction 1 as [|x l1 l2 _ IH|x y l|l1 l2 l3 _ IH1 _ IH2]; cbn [existsb].
  - done.
  - by rewrite IH.
  - by destruct (p x), (p y).
  - by rewrite IH1.
Qed.

Lemma filter_perm {A : Type} (p : A → bool) (l1 l2 : list A) :
  Permutation l1 l2 → Permutation (List.filter p l1) (List.filter p l2).
Proof.
  induction 1 as [|x l1 l2 _ IH|x y l|l1 l2 l3 _ IH1 _ IH2]; cbn [List.filter].
  - constructor.
  - destruct (p x); [by constructor|done].
  - destruct (p x), (p y); try reflexivity. apply perm_swap.
  - by transitivity (List.filter p l2).
Qed.

Lemma filter_nil_existsb {A : Type} (p : A → bool) (l : list A) :
  existsb p l = false → List.filter p l = [].
Proof.
  induction l as [|x l IH]; [done|].
  cbn [existsb List.filter]. destruct (p x); [done|]. exact IH.
Qed.

Lemma filter_cons_existsb {A : Type} (p : A → bool) (l : list A) :
  existsb p l = true → List.filter p l ≠ [].
Proof.
  induction l as [|x l IH]; [done|].
  cbn [existsb List.filter]. destruct (p x); [done|]. exact IH.
Qed.

(** The score of the synthetic provider is ten times the number of rows
    of the preference table that hold. *)
Lemma preference_score_sum (pref_lower : list string) (hotel : Hotel.t) :
  booking_service.preference_score pref_lower hotel
  = inject_Z (10 * Z.of_nat (count_true (tag_conditions pref_lower hotel))).
Proof.
  unfold booking_service.preference_score, tag_conditions, count_true.
  cbv zeta.
  repeat match goal with
         | |- context [if ?c then _ else _] => destruct c
         end; reflexivity.
Qed.

Lemma preference_score_nonneg (pref_lower : list string) (hotel : Hotel.t) :
  (0 <= booking_service.preference_score pref_lower hotel)%Q.
Proof.
  rewrite preference_score_sum. unfold Qle. cbn. lia.
Qed.

Lemma positive_false (q : Q) :
  booking_service.positive q = false → (q <= 0)%Q.
Proof.
  unfold booking_service.positive. intros H.
  apply Qle_bool_iff. by destruct (Qle_bool q 0).
Qed.

Lemma sort_desc_scored_pairs {A : Type} (f : A → Q) (l : list A) :
  PySort.sort_desc fst (map (fun a => (f a, a)) l)
  = map (fun a => (f a, a)) (PySort.sort_desc f l).
Proof. exact (sort_desc_scored f (fun a => a) l). Qed.

Lemma descending_all_zero {A : Type} (key : A → Q) (l : list A) :
  Forall (fun a => (key a == 0)%Q) l → descending key l.
Proof.
  unfold descending. induction 1 as [|x l Hx Hl IH]; constructor; [done|].
  eapply Forall_impl; [exact Hl|]. cbn. intros y Hy. rewrite Hx, Hy.
  apply Qle_refl.
Qed.

Lemma cap_is_take {A : Type} (n : nat) (l : list A) :
  (if (n <? length l)%nat then take n l else l) = take n l.
Proof.
  destruct (n <? length l)%nat eqn:E; [done|].
  apply Nat.ltb_ge in E. by rewrite take_ge.
Qed.

Lemma no_positive_all_zero (pref_lower : list string) (l : list Hotel.t) :
  existsb (fun h => booking_service.positive
                      (booking_service.preference_score pref_lower h)) l
  = false →
  Forall (fun h => (booking_service.preference_score pref_lower h == 0)%Q) l.
Proof.
  induction l as [|h l IH]; cbn [existsb]; intros H; constructor.
  - apply orb_false_iff in H as [H _]. apply positive_false in H.
    apply Qle_antisym; [done|apply preference_score_nonneg].
  - apply IH. by apply orb_false_iff in H as [_ H].
Qed.

(** C6. When preferences are present, every candidate that survives the
    budget filter gets a score that is a sum of +10 bonuses, one per row of
    the preference table that holds; the candidates kept are in descending
    score order and candidates of equal score are in catalog order; when
    every candidate scored zero all survivors are returned in catalog order
    (so the result is empty only when no candidate survived the budget
    filter); the result is the first 12 of the kept candidates, all of them
    when there are at most 12.  The kept candidates are those with a
    positive score when there is one. *)
Theorem preference_bias_sorted_and_capped
    (hotels : list Hotel.t) (parameters : SearchParameters.t)
    (prefs : list string) :
  SearchParameters.preferences parameters = Some prefs →
  prefs ≠ [] →
  let score := booking_service.preference_score (map PyStr.lower prefs) in
  let survivors := booking_service.budget_filter parameters hotels in
  let ranked := PySort.sort_desc score survivors in
  let kept :=
    if existsb (fun h => booking_service.positive (score h)) survivors
    then List.filter (fun h => booking_service.positive (score h)) ranked
    else survivors in
  let result := booking_service._filter_mock_hotels hotels parameters in
  (∀ h, score h
        = inject_Z (10 * Z.of_nat
                      (count_true (tag_conditions (map PyStr.lower prefs) h))))
  ∧ result = take 12 kept
  ∧ Permutation kept (biased score survivors)
  ∧ descending score kept
  ∧ (∀ k, with_key score k kept = with_key score k (biased score survivors))
  ∧ (Forall (fun h => (score h == 0)%Q) survivors → result = take 12 survivors)
  ∧ (survivors ≠ [] → result ≠ [])
  ∧ (length result ≤ 12)%nat
  ∧ ((length kept ≤ 12)%nat → result = kept).
Proof.
  intros Hprefs Hne score survivors ranked kept result.
  assert (Hresult : result = take 12 kept).
  { unfold result, booking_service._filter_mock_hotels.
    rewrite Hprefs. cbn [get_or].
    replace (truthy_list (Some prefs)) with true by (by destruct prefs).
    rewrite cap_is_take. f_equal.
    fold survivors. fold score.
    rewrite sort_desc_scored_pairs. fold ranked.
    rewrite (filter_scored_self score booking_service.positive ranked).
    rewrite map_map. cbn [snd]. rewrite map_id.
    unfold kept.
    destruct (existsb (fun h => booking_service.positive (score h)) survivors)
      eqn:E.
    - pose proof (existsb_Permutation
                    (fun h => booking_service.positive (score h)) _ _
                    (sort_desc_perm score survivors)) as Hp.
      fold ranked in Hp. rewrite E in Hp.
      apply filter_cons_existsb in Hp.
      destruct (List.filter _ ranked); [done|reflexivity].
    - pose proof (existsb_Permutation
                    (fun h => booking_service.positive (score h)) _ _
                    (sort_desc_perm score survivors)) as Hp.
      fold ranked in Hp. rewrite E in Hp.
      rewrite (filter_nil_existsb _ _ Hp). cbn [booking_service.list_or].
      apply sort_desc_fixed, descending_all_zero.
      by apply no_positive_all_zero. }
  assert (Hkept_zero :
            Forall (fun h => (score h == 0)%Q) survivors → kept = survivors).
  { intros Hz. unfold kept.
    destruct (existsb _ survivors) eqn:E; [|done].
    apply existsb_exists in E as (h & Hin & Hpos).
    apply (proj1 (List.Forall_forall _ _) Hz) in Hin.
    unfold booking_service.positive in Hpos.
    assert (Hle : Qle_bool (score h) 0 = true)
      by (apply Qle_bool_iff; rewrite Hin; apply Qle_refl).
    by rewrite Hle in Hpos. }
  split; [intros h; apply preference_score_sum|].
  split; [exact Hresult|].
  split.
  { unfold kept, biased.
    destruct (existsb _ survivors); [|reflexivity].
    apply filter_perm, sort_desc_perm. }
  split.
  { unfold kept.
    destruct (existsb _ survivors) eqn:E.
    - apply descending_filter, sort_desc_descending.
    - apply descending_all_zero. by apply no_positive_all_zero. }
  split.
  { intros k. unfold kept, biased, with_key.
    destruct (existsb _ survivors); [|done].
    rewrite filter_comm. unfold ranked.
    pose proof (sort_desc_stable score k survivors) as Hs.
    unfold with_key in Hs. rewrite Hs. apply filter_comm. }
  split; [intros Hz; by rewrite Hresult, (Hkept_zero Hz)|].
  split.
  { intros Hs. rewrite Hresult. unfold kept.
    destruct (existsb _ survivors) eqn:E.
    - pose proof (existsb_Permutation
                    (fun h => booking_service.positive (score h)) _ _
                    (sort_desc_perm score survivors)) as Hp.
      fold ranked in Hp. rewrite E in Hp.
      apply filter_cons_existsb in Hp.
      destruct (List.filter _ ranked); [done|]. done.
    - destruct survivors; [done|]. done. }
  split; [rewrite Hresult, length_take; lia|].
  intros Hlen. rewrite Hresult. by apply take_ge.
Qed.

Lemma preference_bias_witness :
  booking_service._filter_mock_hotels
    [priced "b" 150; priced "a" 50; priced "c" 80]
    (query_for None None None (Some ["cheap"]))
  = [priced "a" 50; priced "c" 80].
Proof.
  etransitivity.
  - apply (proj1 (proj2 (preference_bias_sorted_and_capped
                           [priced "b" 150; priced "a" 50; priced "c" 80]
                           (query_for None None None (Some ["cheap"]))
                           ["cheap"] eq_refl ltac:(discriminate)))).
  - vm_compute. reflexivity.
Defined.

(** ** The synthetic provider: budget filter *)

Lemma truthy_Q_Some (b : Q) : truthy_Q (Some b) = true ↔ ¬ (b == 0)%Q.
Proof.
  unfold truthy_Q, nonzero. rewrite negb_true_iff.
  split.
  - intros H E. apply Qeq_bool_iff in E. congruence.
  - intros H. destruct (Qeq_bool b 0) eqn:E; [|done].
    apply Qeq_bool_iff in E. done.
Qed.

(** A candidate survives the budget filter exactly when it is within every
    bound that is applied. *)
Lemma budget_filter_In (parameters : SearchParameters.t)
    (hotels : list Hotel.t) (h : Hotel.t) :
  In h (booking_service.budget_filter parameters hotels)
  ↔ In h hotels
    ∧ within_max (SearchParameters.budget_max parameters) h
    ∧ within_min (SearchParameters.budget_min parameters) h.
Proof.
  unfold booking_service.budget_filter, within_max, within_min, price_of.
  destruct (SearchParameters.budget_max parameters) as [bmax|],
           (SearchParameters.budget_min parameters) as [bmin|].
  all: repeat match goal with
         | |- context [truthy_Q (Some ?b)] =>
             let E := fresh "E" in
             destruct (truthy_Q (Some b)) eqn:E;
             [apply truthy_Q_Some in E
             |apply not_true_iff_false in E; rewrite truthy_Q_Some in E]
         end.
  all: cbn [truthy_Q get_or]; rewrite ?filter_In, ?Qle_bool_iff.
  all: split;
    [ intros H; repeat split; try tauto;
      intros b Hb Hnz; try discriminate; injection Hb as <-; tauto
    | intros (Hin & Hmax & Hmin); repeat split; try done;
      first [by apply Hmax | by apply Hmin] ].
Qed.




(** ** The synthetic provider: coordinate offsets *)

Lemma lng_offset_constant (location_hash index : Z) :
  booking_service.get_coord_offset location_hash index "lng"
  = booking_service.get_coord_offset location_hash 0 "lng".
Proof.
  unfold booking_service.get_coord_offset. cbn [String.eqb Ascii.eqb].
  cbv beta iota. rewrite Z.mul_0_l, Z.add_0_r.
  by rewrite Z_mod_plus_full.
Qed.

Lemma lat_offset_period (location_hash index : Z) :
  booking_service.get_coord_offset location_hash (index + 2) "lat"
  = booking_service.get_coord_offset location_hash index "lat".
Proof.
  unfold booking_service.get_coord_offset.
  replace (String.eqb "lat" "lat") with true by reflexivity.
  replace (location_hash + (index + 2) * 100)%Z
    with (location_hash + index * 100 + 1 * 200)%Z by lia.
  by rewrite Z_mod_plus_full.
Qed.

(** C5 fails on the code.  The longitude offset does not depend on the
    index (the multiplier 200 vanishes modulo 200), the latitude offset
    depends only on its parity, and the catalog passes the indices
    0, 1, 2, 3, 4, 3, 2, 7, 3, 2: every generated hotel has one of two
    coordinates, the business, mid-range and historic hotels (catalog
    positions 3, 5 and 8) have the same one although their identifiers
    differ. *)
Theorem archetypes_share_coordinate_offsets
    (bi : Builtins) (location : string) (coords : Q * Q) (query_hash : string) :
  let db :=
    booking_service._generate_mock_hotel_database bi location coords query_hash
  in
  let location_hash := (hash bi location mod 10000)%Z in
  let even :=
    (Some (fst coords + booking_service.get_coord_offset location_hash 0 "lat")%Q,
     Some (snd coords + booking_service.get_coord_offset location_hash 0 "lng")%Q)
  in
  let odd :=
    (Some (fst coords + booking_service.get_coord_offset location_hash 1 "lat")%Q,
     Some (snd coords + booking_service.get_coord_offset location_hash 0 "lng")%Q)
  in
  length db = 10%nat
  ∧ map coordinates db
    = [even; odd; even; odd; even; odd; even; odd; odd; even]
  ∧ (coordinates <$> db !! 3%nat) = (coordinates <$> db !! 5%nat)
  ∧ (coordinates <$> db !! 3%nat) = (coordinates <$> db !! 8%nat)
  ∧ (Hotel.hotel_id <$> db !! 3%nat) = Some (Some (query_hash ++ "_business_1"))
  ∧ (Hotel.hotel_id <$> db !! 5%nat) = Some (Some (query_hash ++ "_mid_1"))
  ∧ (Hotel.hotel_id <$> db !! 8%nat) = Some (Some (query_hash ++ "_historic_1")).
Proof.
  intros db location_hash even odd.
  split; [reflexivity|].
  split.
  { unfold db, booking_service._generate_mock_hotel_database, coordinates.
    cbn [map Hotel.latitude Hotel.longitude]. fold location_hash.
    rewrite !(lng_offset_constant location_hash 1),
            !(lng_offset_constant location_hash 2),
            !(lng_offset_constant location_hash 3),
            !(lng_offset_constant location_hash 4),
            !(lng_offset_constant location_hash 7).
    rewrite (lat_offset_period location_hash 0 : booking_service.get_coord_offset location_hash 2 "lat" = _).
    rewrite (lat_offset_period location_hash 1 : booking_service.get_coord_offset location_hash 3 "lat" = _).
    rewrite (lat_offset_period location_hash 2 : booking_service.get_coord_offset location_hash 4 "lat" = _).
    rewrite (lat_offset_period location_hash 0 : booking_service.get_coord_offset location_hash 2 "lat" = _).
    rewrite (lat_offset_period location_hash 5 : booking_service.get_coord_offset location_hash 7 "lat" = _).
    rewrite (lat_offset_period location_hash 3 : booking_service.get_coord_offset location_hash 5 "lat" = _).
    rewrite (lat_offset_period location_hash 1 : booking_service.get_coord_offset location_hash 3 "lat" = _).
    reflexivity. }
  repeat split; reflexivity.
Qed.

(** ** The synthetic provider: fingerprint *)

(** The model of the digest agrees with the test suite of RFC 1321. *)
Lemma md5_test_suite :
  MD5.hexdigest "" = "d41d8cd98f00b204e9800998ecf8427e"
  ∧ MD5.hexdigest "a" = "0cc175b9c0f1b6a831c399e269772661"
  ∧ MD5.hexdigest "abc" = "900150983cd24fb0d6963f7d28e17f72"
  ∧ MD5.hexdigest "message digest" = "f96b697d7cb7938d525a2f31aaf161d0"
  ∧ MD5.hexdigest "abcdefghijklmnopqrstuvwxyz"
    = "c3fcd3d76192e4007dfb496cca67e13b"
  ∧ MD5.hexdigest
      "ABCDEFGHIJKLMNOPQRSTUVWXYZabcdefghijklmnopqrstuvwxyz0123456789"
    = "d174ab98d277d9f5a5611c2c9f419d9f"
  ∧ MD5.hexdigest
      "12345678901234567890123456789012345678901234567890123456789012345678901234567890"
    = "57edf4a22be3c955ac49da2e2107b67a".
Proof. vm_compute. repeat split. Qed.






Lemma In_take {A : Type} (n : nat) (l : list A) (x : A) :
  In x (take n l) → In x l.
Proof.
  intros H. rewrite <- (take_drop n l). apply in_or_app. by left.
Qed.

Lemma In_list_or {A : Type} (a b : list A) (x : A) :
  In x (booking_service.list_or a b) → In x a ∨ In x b.
Proof. destruct a; cbn [booking_service.list_or]; tauto. Qed.













(** ** Parameter extraction *)

Lemma extract_on_failure (self : chatgpt_service.ChatGPTService)
    (json : chatgpt_service.Json) (user_demand : string)
    (c : chatgpt_service.OpenAI) (e : exn) :
  chatgpt_service.client self = Some c →
  chatgpt_service.create c (chatgpt_service.model self)
    "Extract hotel search parameters. Return JSON only."
    (chatgpt_service.ExtractionPrompt user_demand) = Raise e →
  chatgpt_service.extract_search_parameters self json user_demand
  = chatgpt_service.extract_handlers user_demand e.
Proof.
  intros Hc He. unfold chatgpt_service.extract_search_parameters.
  by rewrite Hc, He.
Qed.

(** C4, as amended.  When the request to the service fails with a
    capacity or throttling signal (a [RateLimitError], or an [APIError]
    whose text contains [insufficient_quota], [429] or [rate_limit]),
    [extract_search_parameters] returns the result of the rule-based
    fallback instead of raising; any other failure of the request is raised
    to the caller. *)
Theorem extraction_falls_back_on_quota_signals
    (self : chatgpt_service.ChatGPTService) (json : chatgpt_service.Json)
    (user_demand : string) (c : chatgpt_service.OpenAI) (e : exn) :
  chatgpt_service.client self = Some c →
  chatgpt_service.create c (chatgpt_service.model self)
    "Extract hotel search parameters. Return JSON only."
    (chatgpt_service.ExtractionPrompt user_demand) = Raise e →
  (is_RateLimitError e = true →
   chatgpt_service.extract_search_parameters self json user_demand
   = Ok (chatgpt_service._fallback_extract_parameters user_demand))
  ∧ (is_APIError e = true →
     (PyStr.contains "insufficient_quota" (PyStr.lower (exn_str e))
      || PyStr.contains "429" (exn_str e)
      || PyStr.contains "rate_limit" (PyStr.lower (exn_str e))) = true →
     chatgpt_service.extract_search_parameters self json user_demand
     = Ok (chatgpt_service._fallback_extract_parameters user_demand))
  ∧ (is_APIError e && chatgpt_service.is_quota_error e = false →
     chatgpt_service.extract_search_parameters self json user_demand
     = Raise e).
Proof.
  intros Hc He. rewrite (extract_on_failure self json user_demand c e Hc He).
  unfold chatgpt_service.extract_handlers, chatgpt_service.is_quota_error.
  split; [|split].
  - intros Hr. rewrite Hr, orb_true_r.
    destruct e as [[] msg]; try discriminate Hr. done.
  - intros Ha Hq. by rewrite Ha, Hq.
  - intros H. destruct (is_APIError e); [|done].
    cbn [andb] in H. by rewrite H.
Qed.

Lemma extraction_falls_back_witness :
  chatgpt_service.extract_search_parameters
    (service_failing_with "sk-test"
       (Exn RateLimitError "Error code: 429 - insufficient_quota"))
    no_json "hotels under 150"
  = Ok (chatgpt_service._fallback_extract_parameters "hotels under 150").
Proof.
  apply (proj1 (extraction_falls_back_on_quota_signals
                  (service_failing_with "sk-test"
                     (Exn RateLimitError "Error code: 429 - insufficient_quota"))
                  no_json "hotels under 150"
                  (failing_client
                     (Exn RateLimitError "Error code: 429 - insufficient_quota"))
                  (Exn RateLimitError "Error code: 429 - insufficient_quota")
                  eq_refl eq_refl)).
  reflexivity.
Defined.

(** C4, as stated, fails for a general request failure: an [APIError]
    without quota marker is raised to the caller. *)
Lemma extraction_raises_on_general_failure :
  chatgpt_service.extract_search_parameters
    (service_failing_with "sk-test" (Exn APIError "Connection error."))
    no_json "hotels under 150"
  = Raise (Exn APIError "Connection error.").
Proof. vm_compute. reflexivity. Qed.

(** Without credential the client is [None] and the request is an
    attribute access on [None]: the [AttributeError] is raised to the
    caller, where [filter_hotels_by_demand] tests the client and falls
    back. *)
Lemma extraction_without_client_raises (json : chatgpt_service.Json)
    (connect : string → chatgpt_service.OpenAI) (user_demand : string) :
  chatgpt_service.extract_search_parameters
    (chatgpt_service.__init__ "" "gpt-4o-mini" connect) json user_demand
  = Raise (Exn AttributeError "'NoneType' object has no attribute 'chat'").
Proof. reflexivity. Qed.

Lemma ranking_without_client_falls_back (json : chatgpt_service.Json)
    (connect : string → chatgpt_service.OpenAI) (user_demand : string)
    (hotels : list Hotel.t) :
  chatgpt_service.filter_hotels_by_demand
    (chatgpt_service.__init__ "" "gpt-4o-mini" connect) json user_demand hotels
  = chatgpt_service._fallback_filter_hotels user_demand hotels.
Proof. by destruct hotels. Qed.

(** ** The orchestrator *)

(** The response of the empty search. *)
Lemma recommend_hotels_empty (user_demand : string) (db : hotel_crud.Session)
    (svc : recommendations.Services)
    (extracted : ChatGPTParameterExtractionResponse.t) :
  chatgpt_service.extract_search_parameters (recommendations.chatgpt svc)
    (recommendations.json svc) user_demand = Ok extracted →
  booking_service.search_hotels (recommendations.booking svc)
    (recommendations.httpx svc) (recommendations.builtins svc)
    (recommendations.to_search_parameters extracted) = [] →
  recommendations.recommend_hotels user_demand db svc
  = {| recommendations.db_after := db;
       recommendations.steps :=
         [recommendations.ExtractParameters; recommendations.SearchHotels];
       recommendations.response :=
         inl {| RecommendationResponse.user_demand := user_demand;
                RecommendationResponse.extracted_parameters :=
                  recommendations.to_search_parameters extracted;
                RecommendationResponse.matched_hotels := [];
                RecommendationResponse.total_results := 0;
                RecommendationResponse.message :=
                  Some "No hotels found matching your criteria." |} |}.
Proof.
  intros He Hs. unfold recommendations.recommend_hotels. by rewrite He, Hs.
Qed.

(** The response of a search that found hotels. *)
Lemma recommend_hotels_found (user_demand : string) (db : hotel_crud.Session)
    (svc : recommendations.Services)
    (extracted : ChatGPTParameterExtractionResponse.t) :
  chatgpt_service.extract_search_parameters (recommendations.chatgpt svc)
    (recommendations.json svc) user_demand = Ok extracted →
  let hotels :=
    booking_service.search_hotels (recommendations.booking svc)
      (recommendations.httpx svc) (recommendations.builtins svc)
      (recommendations.to_search_parameters extracted) in
  let db' := fst (hotel_crud.bulk_create_or_update_hotels db hotels) in
  let matched_hotels :=
    recommendations.map_hotels (recommendations.hotels_by_id hotels) db'
      (chatgpt_service.filter_hotels_by_demand (recommendations.chatgpt svc)
         (recommendations.json svc) user_demand hotels) in
  hotels ≠ [] →
  recommendations.recommend_hotels user_demand db svc
  = {| recommendations.db_after := db';
       recommendations.steps :=
         [recommendations.ExtractParameters; recommendations.SearchHotels;
          recommendations.SaveHotels; recommendations.FilterHotels;
          recommendations.MapHotels];
       recommendations.response :=
         inl {| RecommendationResponse.user_demand := user_demand;
                RecommendationResponse.extracted_parameters :=
                  recommendations.to_search_parameters extracted;
                RecommendationResponse.matched_hotels := matched_hotels;
                RecommendationResponse.total_results :=
                  Z.of_nat (length matched_hotels);
                RecommendationResponse.message :=
                  Some ("Found " ++ pretty (length matched_hotels)
                        ++ " hotels matching your preferences.") |} |}.
Proof.
  intros He hotels db' matched_hotels Hne.
  unfold recommendations.recommend_hotels. rewrite He.
  fold hotels. destruct hotels eqn:E; [done|].
  reflexivity.
Qed.

(** C2. Whenever the candidate search returns the empty list, the
    pipeline answers with [total_results = 0], no matched hotel and the
    message "No hotels found matching your criteria."; only the extraction
    and the search ran: the persistence, ranking and hydration steps did
    not, and the store is as it was. *)
Theorem empty_search_short_circuits
    (user_demand : string) (db : hotel_crud.Session)
    (svc : recommendations.Services)
    (extracted : ChatGPTParameterExtractionResponse.t) :
  chatgpt_service.extract_search_parameters (recommendations.chatgpt svc)
    (recommendations.json svc) user_demand = Ok extracted →
  booking_service.search_hotels (recommendations.booking svc)
    (recommendations.httpx svc) (recommendations.builtins svc)
    (recommendations.to_search_parameters extracted) = [] →
  let out := recommendations.recommend_hotels user_demand db svc in
  (∃ r, recommendations.response out = inl r
        ∧ RecommendationResponse.total_results r = 0%Z
        ∧ RecommendationResponse.matched_hotels r = []
        ∧ RecommendationResponse.message r
          = Some "No hotels found matching your criteria."
        ∧ PyStr.contains "no hotels found"
            (PyStr.lower (get_or (RecommendationResponse.message r) ""))
          = true)
  ∧ recommendations.steps out
    = [recommendations.ExtractParameters; recommendations.SearchHotels]
  ∧ ¬ In recommendations.SaveHotels (recommendations.steps out)
  ∧ ¬ In recommendations.FilterHotels (recommendations.steps out)
  ∧ ¬ In recommendations.MapHotels (recommendations.steps out)
  ∧ recommendations.db_after out = db.
Proof.
  intros He Hs out. unfold out.
  rewrite (recommend_hotels_empty user_demand db svc extracted He Hs).
  cbn [recommendations.response recommendations.steps
       recommendations.db_after].
  split.
  { eexists. split; [reflexivity|]. repeat split; reflexivity. }
  split; [reflexivity|].
  repeat split; try reflexivity.
  all: intros [H|[H|[]]]; discriminate H.
Qed.

Lemma empty_search_witness :
  recommendations.steps
    (recommendations.recommend_hotels "hotels under 10"
       (read_only_store ∅) degraded_services)
  = [recommendations.ExtractParameters; recommendations.SearchHotels].
Proof.
  apply (proj1 (proj2 (empty_search_short_circuits "hotels under 10"
                  (read_only_store ∅) degraded_services
                  (chatgpt_service._fallback_extract_parameters
                     "hotels under 10")
                  ltac:(vm_compute; reflexivity)
                  ltac:(vm_compute; reflexivity)))).
Defined.

(** C10. Every response of the pipeline, of the empty search and of a
    search that found hotels, has [total_results] equal to the number of
    its matched hotels. *)
Theorem total_results_is_length
    (user_demand : string) (db : hotel_crud.Session)
    (svc : recommendations.Services) (r : RecommendationResponse.t) :
  recommendations.response (recommendations.recommend_hotels user_demand db svc)
  = inl r →
  RecommendationResponse.total_results r
  = Z.of_nat (length (RecommendationResponse.matched_hotels r)).
Proof.
  unfold recommendations.recommend_hotels.
  destruct (chatgpt_service.extract_search_parameters _ _ _) as [extracted|e];
    [|discriminate].
  destruct (booking_service.search_hotels _ _ _ _);
    cbn [recommendations.response]; intros H; injection H as <-; reflexivity.
Qed.

Lemma total_results_witness :
  match recommendations.response
          (recommendations.recommend_hotels "romantic hotel in rome under 200"
             (read_only_store ∅) degraded_services) with
  | inl r =>
      RecommendationResponse.total_results r = 2%Z
      ∧ length (RecommendationResponse.matched_hotels r) = 2%nat
  | inr _ => False
  end.
Proof.
  destruct (recommendations.response
              (recommendations.recommend_hotels
                 "romantic hotel in rome under 200"
                 (read_only_store ∅) degraded_services)) as [r|err] eqn:E.
  - pose proof (total_results_is_length _ _ _ r E) as H.
    vm_compute in E. injection E as <-. split; [exact H|reflexivity].
  - vm_compute in E. discriminate E.
Defined.

(** ** Hydration *)

Lemma find_snoc {A : Type} (p : A → bool) (l : list A) (x : A) :
  List.find p (l ++ [x])
  = match List.find p l with
    | Some y => Some y
    | None => if p x then Some x else None
    end.
Proof.
  induction l as [|y l IH]; [done|].
  cbn [app List.find]. by destruct (p y).
Qed.

(** The dict [hotels_by_id] holds, for an identifier, the fresh candidate
    of the list. *)
Lemma hotels_by_id_lookup (hotels : list Hotel.t) (hotel_id : string) :
  recommendations.hotels_by_id hotels !! hotel_id
  = fresh_candidate hotels hotel_id.
Proof.
  unfold recommendations.hotels_by_id, fresh_candidate.
  set (f := fun (m : gmap string Hotel.t) h =>
              if truthy_str (Hotel.hotel_id h)
              then <[Hotel.id_str h := h]> m else m).
  set (p := fun h => truthy_str (Hotel.hotel_id h)
                     && String.eqb (Hotel.id_str h) hotel_id).
  assert (Hgen : ∀ m : gmap string Hotel.t,
             fold_left f hotels m !! hotel_id
             = match List.find p (rev hotels) with
               | Some h => Some h
               | None => m !! hotel_id
               end).
  { induction hotels as [|h hotels IH]; intros m; [done|].
    cbn [fold_left rev]. rewrite IH, find_snoc.
    destruct (List.find p (rev hotels)); [done|].
    unfold f, p. destruct (truthy_str (Hotel.hotel_id h)); cbn [andb]; [|done].
    destruct (String.eqb (Hotel.id_str h) hotel_id) eqn:E.
    - apply String.eqb_eq in E. rewrite E. apply lookup_insert_eq.
    - apply String.eqb_neq in E. by apply lookup_insert_ne. }
  rewrite Hgen. by destruct (List.find p (rev hotels)).
Qed.

Lemma fresh_candidate_Some (hotels : list Hotel.t) (hotel_id : string)
    (h : Hotel.t) :
  fresh_candidate hotels hotel_id = Some h →
  In h hotels ∧ Hotel.hotel_id h = Some hotel_id ∧ hotel_id ≠ "".
Proof.
  unfold fresh_candidate. intros H. apply find_some in H as [Hin Hp].
  apply in_rev in Hin. apply andb_true_iff in Hp as [Ht He].
  apply String.eqb_eq in He. unfold Hotel.id_str in He.
  destruct (Hotel.hotel_id h) as [s|]; [|done]. cbn [get_or] in He. subst s.
  repeat split; [done|]. intros ->. done.
Qed.


Lemma fresh_candidate_exists (hotels : list Hotel.t) (hotel_id : string)
    (h : Hotel.t) :
  In h hotels → Hotel.hotel_id h = Some hotel_id → hotel_id ≠ "" →
  ∃ h', fresh_candidate hotels hotel_id = Some h'.
Proof.
  intros Hin Hid Hne.
  destruct (fresh_candidate hotels hotel_id) as [h'|] eqn:E; [by eexists|].
  unfold fresh_candidate in E.
  assert (Hp := find_none _ _ E h (proj1 (in_rev hotels h) Hin)). cbv beta in Hp.
  unfold Hotel.id_str in Hp. rewrite Hid in Hp. cbn [get_or] in Hp.
  rewrite String.eqb_refl, andb_true_r in Hp.
  destruct hotel_id; done.
Qed.

Lemma map_hotels_policy (hotels : list Hotel.t) (db : hotel_crud.Session)
    (matched_hotel_ids : list string) :
  recommendations.map_hotels (recommendations.hotels_by_id hotels) db
    matched_hotel_ids
  = flat_map (hydrated hotels db) matched_hotel_ids.
Proof.
  induction matched_hotel_ids as [|hotel_id rest IH]; [done|].
  cbn [recommendations.map_hotels flat_map]. rewrite IH.
  generalize (flat_map (hydrated hotels db) rest). intros tl.
  unfold hydrated, hydration_policy, recommendations.hotel_data_for,
    stored_record.
  rewrite hotels_by_id_lookup.
  destruct (fresh_candidate hotels hotel_id) as [h|] eqn:E.
  - apply fresh_candidate_Some in E as (_ & Hid & Hne).
    assert (Ht : Hotel.truthy h = true)
      by (unfold Hotel.truthy; by rewrite Hid).
    by rewrite Ht.
  - destruct (hotel_crud.get_hotel db hotel_id) as [[d|]|e]; try done.
    destruct (Hotel.truthy d) eqn:Ht; [|done]. by rewrite Ht.
Qed.


(** In a request that found hotels, the matched hotels are the ranked
    identifiers hydrated by the policy against the store as the persistence
    step left it. *)
Lemma recommend_hotels_hydrates (user_demand : string)
    (db : hotel_crud.Session) (svc : recommendations.Services)
    (extracted : ChatGPTParameterExtractionResponse.t) :
  chatgpt_service.extract_search_parameters (recommendations.chatgpt svc)
    (recommendations.json svc) user_demand = Ok extracted →
  let hotels :=
    booking_service.search_hotels (recommendations.booking svc)
      (recommendations.httpx svc) (recommendations.builtins svc)
      (recommendations.to_search_parameters extracted) in
  let out := recommendations.recommend_hotels user_demand db svc in
  hotels ≠ [] →
  ∃ r, recommendations.response out = inl r
       ∧ RecommendationResponse.matched_hotels r
         = flat_map (hydrated hotels (recommendations.db_after out))
             (chatgpt_service.filter_hotels_by_demand
                (recommendations.chatgpt svc) (recommendations.json svc)
                user_demand hotels).
Proof.
  intros He hotels out Hne. unfold out.
  rewrite (recommend_hotels_found user_demand db svc extracted He Hne).
  cbn [recommendations.response recommendations.db_after].
  eexists. split; [reflexivity|].
  cbn [RecommendationResponse.matched_hotels]. apply map_hotels_policy.
Qed.

(** A run in which the store keeps a stale record of the boutique hotel
    (every commit fails): the answer carries the fresh price. *)
Lemma fresh_payload_overrides_stale_record :
  let stale := priced "Rome_Non_boutique_1" 999 in
  let out :=
    recommendations.recommend_hotels "romantic hotel in rome under 200"
      (read_only_store {[ "Rome_Non_boutique_1" := stale ]})
      degraded_services in
  hotel_crud.rows (recommendations.db_after out) !! "Rome_Non_boutique_1"
  = Some stale
  ∧ match recommendations.response out with
    | inl r =>
        map (fun i => (HotelInfo.hotel_id i, HotelInfo.price i))
          (RecommendationResponse.matched_hotels r)
        = [ (Some "Rome_Non_boutique_1", Some 180.0%Q);
            (Some "Rome_Non_spa_1", Some 200.0%Q) ]
    | inr _ => False
    end.
Proof. vm_compute. split; reflexivity. Qed.


(** * Further properties of the code *)

(** ** The persisted store *)

Lemma with_rows_healthy (db : hotel_crud.Session) (r : gmap string Hotel.t) :
  healthy db → healthy (hotel_crud.with_rows db r).
Proof. intros H id. exact (H id). Qed.

Lemma create_or_update_healthy (db : hotel_crud.Session) (hotel_id : string)
    (booking_data : Hotel.t) :
  hotel_crud.query_error db hotel_id = None →
  hotel_crud.commit_error db hotel_id = None →
  hotel_crud.create_or_update_hotel db hotel_id booking_data
  = (hotel_crud.with_rows db (<[hotel_id := booking_data]> (hotel_crud.rows db)),
     Ok booking_data).
Proof.
  intros Hq Hc. unfold hotel_crud.create_or_update_hotel, hotel_crud.get_hotel.
  by rewrite Hq, Hc.
Qed.

(** Upsert then read.  When the query and the commit on an identifier do
    not fail, [create_or_update_hotel] leaves a store in which [get_hotel]
    returns the payload just written, whether or not a row existed, and
    every other row is as before. *)
Theorem upsert_then_get (db : hotel_crud.Session) (hotel_id : string)
    (booking_data : Hotel.t) :
  hotel_crud.query_error db hotel_id = None →
  hotel_crud.commit_error db hotel_id = None →
  let db' := fst (hotel_crud.create_or_update_hotel db hotel_id booking_data) in
  hotel_crud.get_hotel db' hotel_id = Ok (Some booking_data)
  ∧ (∀ other, other ≠ hotel_id →
              hotel_crud.rows db' !! other = hotel_crud.rows db !! other)
  ∧ snd (hotel_crud.create_or_update_hotel db hotel_id booking_data)
    = Ok booking_data.
Proof.
  intros Hq Hc db'. unfold db'.
  rewrite (create_or_update_healthy db hotel_id booking_data Hq Hc).
  cbn [fst snd]. unfold hotel_crud.get_hotel, hotel_crud.with_rows.
  cbn [hotel_crud.query_error hotel_crud.rows]. rewrite Hq.
  split; [by rewrite lookup_insert_eq|].
  split; [|done]. intros other Hne. by rewrite lookup_insert_ne.
Qed.

Lemma upsert_then_get_witness :
  hotel_crud.get_hotel
    (fst (hotel_crud.create_or_update_hotel
            (healthy_store {[ "h1" := priced "h1" 90 ]}) "h1" (priced "h1" 120)))
    "h1"
  = Ok (Some (priced "h1" 120)).
Proof.
  apply (proj1 (upsert_then_get
                  (healthy_store {[ "h1" := priced "h1" 90 ]}) "h1"
                  (priced "h1" 120) eq_refl eq_refl)).
Defined.



Lemma nonempty_id_truthy (h : Hotel.t) :
  nonempty_str (Hotel.id_str h) = truthy_str (Hotel.hotel_id h).
Proof. unfold Hotel.id_str. by destruct (Hotel.hotel_id h) as [[|c s]|]. Qed.

Lemma fresh_candidate_cons (h : Hotel.t) (hotels : list Hotel.t)
    (hotel_id : string) :
  fresh_candidate (h :: hotels) hotel_id
  = match fresh_candidate hotels hotel_id with
    | Some h' => Some h'
    | None =>
        if truthy_str (Hotel.hotel_id h)
           && String.eqb (Hotel.id_str h) hotel_id
        then Some h else None
    end.
Proof. unfold fresh_candidate. cbn [rev]. by rewrite find_snoc. Qed.

Lemma bulk_session (db : hotel_crud.Session) (hotels : list Hotel.t) :
  fst (hotel_crud.bulk_create_or_update_hotels db hotels)
  = fst (hotel_crud.saved_hotels db hotels).
Proof.
  unfold hotel_crud.bulk_create_or_update_hotels.
  by destruct (hotel_crud.saved_hotels db hotels) as [db' [saved|e]].
Qed.

Lemma saved_hotels_healthy (hotels : list Hotel.t) (db : hotel_crud.Session) :
  healthy db →
  healthy (fst (hotel_crud.saved_hotels db hotels))
  ∧ snd (hotel_crud.saved_hotels db hotels)
    = Ok (map Hotel.id_str (identified hotels))
  ∧ ∀ hotel_id,
      hotel_crud.rows (fst (hotel_crud.saved_hotels db hotels)) !! hotel_id
      = match fresh_candidate hotels hotel_id with
        | Some h => Some h
        | None => hotel_crud.rows db !! hotel_id
        end.
Proof.
  revert db. induction hotels as [|h hotels IH]; intros db Hdb.
  - cbn [hotel_crud.saved_hotels fst snd].
    split; [exact Hdb|]. split; [reflexivity|]. intros hotel_id. reflexivity.
  - cbn [hotel_crud.saved_hotels].
    unfold identified. cbn [List.filter]. fold (identified hotels).
    destruct (nonempty_str (Hotel.id_str h)) eqn:Hid.
    + destruct (Hdb (Hotel.id_str h)) as [Hq Hc].
      rewrite (create_or_update_healthy db _ h Hq Hc).
      set (db1 := hotel_crud.with_rows db _).
      assert (H1 : healthy db1) by by apply with_rows_healthy.
      destruct (IH db1 H1) as (Hh & Hs & Hr).
      destruct (hotel_crud.saved_hotels db1 hotels) as [db2 res] eqn:E.
      cbn [fst snd] in *. subst res. cbn [fst snd map].
      repeat split; [exact (proj1 (Hh _))|exact (proj2 (Hh _))|].
      intros hotel_id. rewrite Hr, fresh_candidate_cons.
      destruct (fresh_candidate hotels hotel_id); [done|].
      rewrite <- nonempty_id_truthy, Hid. cbn [andb].
      unfold db1, hotel_crud.with_rows. cbn [hotel_crud.rows].
      destruct (String.eqb (Hotel.id_str h) hotel_id) eqn:Ee.
      * apply String.eqb_eq in Ee. rewrite Ee. apply lookup_insert_eq.
      * apply String.eqb_neq in Ee. by apply lookup_insert_ne.
    + destruct (IH db Hdb) as (Hh & Hs & Hr).
      repeat split; [exact (proj1 (Hh _))|exact (proj2 (Hh _))|done|].
      intros hotel_id. rewrite Hr, fresh_candidate_cons.
      destruct (fresh_candidate hotels hotel_id); [done|].
      by rewrite <- nonempty_id_truthy, Hid.
Qed.

Lemma identified_fresh (hotels : list Hotel.t) (h : Hotel.t) :
  In h (identified hotels) →
  ∃ h', fresh_candidate hotels (Hotel.id_str h) = Some h'.
Proof.
  unfold identified. rewrite filter_In. intros [Hin Hne].
  apply (fresh_candidate_exists hotels (Hotel.id_str h) h Hin);
    unfold Hotel.id_str in *; by destruct (Hotel.hotel_id h) as [[|c s]|].
Qed.

Lemma bulk_healthy_rows (hotels : list Hotel.t) (db : hotel_crud.Session) :
  healthy db →
  healthy (fst (hotel_crud.bulk_create_or_update_hotels db hotels))
  ∧ snd (hotel_crud.bulk_create_or_update_hotels db hotels)
    = Ok (map (fun h => get_or (fresh_candidate hotels (Hotel.id_str h)) h)
            (identified hotels))
  ∧ ∀ hotel_id,
      hotel_crud.rows (fst (hotel_crud.bulk_create_or_update_hotels db hotels))
        !! hotel_id
      = match fresh_candidate hotels hotel_id with
        | Some h => Some h
        | None => hotel_crud.rows db !! hotel_id
        end.
Proof.
  intros Hdb. destruct (saved_hotels_healthy hotels db Hdb) as (Hh & Hs & Hr).
  unfold hotel_crud.bulk_create_or_update_hotels.
  destruct (hotel_crud.saved_hotels db hotels) as [db' res].
  cbn [fst snd] in *. subst res. cbn [fst snd].
  split; [exact Hh|]. split; [|exact Hr].
  f_equal. rewrite map_map. apply map_ext_in. intros h Hin. rewrite Hr.
  destruct (identified_fresh hotels h Hin) as [h' Hh']. by rewrite Hh'.
Qed.

Lemma NoDup_map_In_inj {A B : Type} (f : A → B) (l : list A) (a b : A) :
  List.NoDup (map f l) → In a l → In b l → f a = f b → a = b.
Proof.
  induction l as [|x l IH]; [done|].
  cbn [map]. rewrite List.NoDup_cons_iff. intros [Hx Hl] [->|Ha] [->|Hb] Hf.
  - done.
  - exfalso. apply Hx. rewrite Hf. by apply in_map.
  - exfalso. apply Hx. rewrite <- Hf. by apply in_map.
  - by apply IH.
Qed.

(** Bulk upsert, last write wins.  On a session where nothing fails,
    [bulk_create_or_update_hotels] returns one row per hotel that has an
    identifier, in order, and each row shows the payload of the last hotel
    of the list with that identifier: a repeated identifier shows its last
    payload at each of its positions, and the returned payloads are the
    hotels passed when no identifier is repeated.  The store holds, for
    every identifier, the payload of the last hotel of the list with that
    identifier, and the earlier row when the list has none. *)
Theorem bulk_upsert_last_write_wins (db : hotel_crud.Session)
    (hotels : list Hotel.t) :
  healthy db →
  let db' := fst (hotel_crud.bulk_create_or_update_hotels db hotels) in
  snd (hotel_crud.bulk_create_or_update_hotels db hotels)
  = Ok (map (fun h => get_or (fresh_candidate hotels (Hotel.id_str h)) h)
          (identified hotels))
  ∧ (List.NoDup (map Hotel.id_str (identified hotels)) →
     snd (hotel_crud.bulk_create_or_update_hotels db hotels)
     = Ok (identified hotels))
  ∧ (∀ hotel_id h,
       fresh_candidate hotels hotel_id = Some h →
       hotel_crud.get_hotel db' hotel_id = Ok (Some h))
  ∧ (∀ hotel_id,
       fresh_candidate hotels hotel_id = None →
       hotel_crud.get_hotel db' hotel_id
       = Ok (hotel_crud.rows db !! hotel_id)).
Proof.
  intros Hdb db'. destruct (bulk_healthy_rows hotels db Hdb) as (Hh & Hs & Hr).
  fold db' in Hh, Hr.
  split; [exact Hs|].
  split.
  { intros Hnd. rewrite Hs. f_equal.
    rewrite <- (map_id (identified hotels)) at 2.
    apply map_ext_in. intros h Hin.
    destruct (fresh_candidate hotels (Hotel.id_str h)) as [h'|] eqn:E; [|done].
    cbn [get_or]. apply fresh_candidate_Some in E as (Hin' & Hid & Hne).
    apply (NoDup_map_In_inj Hotel.id_str (identified hotels) h' h Hnd);
      [|done|].
    - unfold identified. apply filter_In. split; [done|].
      unfold Hotel.id_str. rewrite Hid. cbn [get_or].
      by destruct (Hotel.id_str h).
    - unfold Hotel.id_str at 1. by rewrite Hid. }
  split; intros hotel_id.
  - intros h Hf. unfold hotel_crud.get_hotel.
    rewrite (proj1 (Hh hotel_id)), Hr. by rewrite Hf.
  - intros Hf. unfold hotel_crud.get_hotel.
    rewrite (proj1 (Hh hotel_id)), Hr. by rewrite Hf.
Qed.

Lemma healthy_store_healthy (rows : gmap string Hotel.t) :
  healthy (healthy_store rows).
Proof. by intros id. Qed.

Lemma bulk_upsert_witness :
  snd (hotel_crud.bulk_create_or_update_hotels (healthy_store ∅)
         [priced "h1" 90; priced "" 10; priced "h1" 120])
  = Ok [priced "h1" 120; priced "h1" 120].
Proof.
  apply (proj1 (bulk_upsert_last_write_wins (healthy_store ∅)
                  [priced "h1" 90; priced "" 10; priced "h1" 120]
                  (healthy_store_healthy ∅))).
Defined.

(** Persisting the same batch twice is persisting it once: on a session
    where nothing fails the second bulk upsert changes no row. *)
Theorem bulk_upsert_idempotent (db : hotel_crud.Session)
    (hotels : list Hotel.t) :
  healthy db →
  let db' := fst (hotel_crud.bulk_create_or_update_hotels db hotels) in
  hotel_crud.rows (fst (hotel_crud.bulk_create_or_update_hotels db' hotels))
  = hotel_crud.rows db'.
Proof.
  intros Hdb db'. destruct (bulk_healthy_rows hotels db Hdb) as (Hh & _ & Hr).
  fold db' in Hh, Hr.
  destruct (bulk_healthy_rows hotels db' Hh) as (_ & _ & Hr').
  apply map_eq. intros hotel_id. rewrite Hr', Hr.
  by destruct (fresh_candidate hotels hotel_id).
Qed.

Lemma bulk_upsert_idempotent_witness :
  hotel_crud.rows
    (fst (hotel_crud.bulk_create_or_update_hotels
            (fst (hotel_crud.bulk_create_or_update_hotels (healthy_store ∅)
                    [priced "h1" 90; priced "h2" 120]))
            [priced "h1" 90; priced "h2" 120]))
  = hotel_crud.rows
      (fst (hotel_crud.bulk_create_or_update_hotels (healthy_store ∅)
              [priced "h1" 90; priced "h2" 120])).
Proof.
  apply (bulk_upsert_idempotent (healthy_store ∅)
           [priced "h1" 90; priced "h2" 120] (healthy_store_healthy ∅)).
Defined.

(** Whatever fails, a bulk upsert only writes rows of the identifiers of
    its batch: a committed row of any other identifier is as before, no
    row is written under the empty identifier, and no row is ever
    removed. *)
Theorem bulk_upsert_touches_only_its_batch (db : hotel_crud.Session)
    (hotels : list Hotel.t) :
  let db' := fst (hotel_crud.bulk_create_or_update_hotels db hotels) in
  (∀ hotel_id,
     (∀ h, In h hotels → Hotel.id_str h ≠ hotel_id) →
     hotel_crud.rows db' !! hotel_id = hotel_crud.rows db !! hotel_id)
  ∧ hotel_crud.rows db' !! "" = hotel_crud.rows db !! ""
  ∧ (∀ hotel_id, is_Some (hotel_crud.rows db !! hotel_id) →
                 is_Some (hotel_crud.rows db' !! hotel_id)).
Proof.
  intros db'. unfold db'. clear db'. rewrite bulk_session.
  revert db. induction hotels as [|h hotels IH]; intros db.
  - by repeat split.
  - cbn [hotel_crud.saved_hotels].
    destruct (nonempty_str (Hotel.id_str h)) eqn:Hid.
    + unfold hotel_crud.create_or_update_hotel, hotel_crud.get_hotel.
      destruct (hotel_crud.query_error db (Hotel.id_str h)) as [e|];
        [by repeat split|].
      destruct (hotel_crud.commit_error db (Hotel.id_str h)) as [e|];
        [by repeat split|].
      set (db1 := hotel_crud.with_rows db _).
      destruct (IH db1) as (H1 & H2 & H3).
      destruct (hotel_crud.saved_hotels db1 hotels)
        as [db2 [res|e]] eqn:E; cbn [fst] in *.
      all: split;
        [ intros hotel_id Habs; rewrite H1 by (intros h' Hh'; apply Habs; by right);
          unfold db1, hotel_crud.with_rows; cbn [hotel_crud.rows];
          apply lookup_insert_ne, Habs; by left
        | split;
          [ rewrite H2; unfold db1, hotel_crud.with_rows; cbn [hotel_crud.rows];
            apply lookup_insert_ne; intros Heq; by rewrite Heq in Hid
          | intros hotel_id Hs; apply H3; unfold db1, hotel_crud.with_rows;
            cbn [hotel_crud.rows];
            destruct (decide (Hotel.id_str h = hotel_id)) as [->|Hne];
            [by rewrite lookup_insert_eq | by rewrite lookup_insert_ne] ] ].
    + destruct (IH db) as (H1 & H2 & H3).
      split; [|by split].
      intros hotel_id Habs. apply H1. intros h' Hh'. apply Habs. by right.
Qed.


(** ** The orchestrator: failures *)

(** A reply of the inference service that is not JSON and has no
    [```json] fence ends the request with the error 500 "Service
    configuration error": the decode error is raised by the extraction (no
    fallback, no default) and the orchestrator takes it for a
    [ValueError]. *)
Theorem unparsable_reply_is_reported_as_configuration_error
    (user_demand : string) (db : hotel_crud.Session)
    (svc : recommendations.Services) (c : chatgpt_service.OpenAI)
    (content msg : string) :
  chatgpt_service.client (recommendations.chatgpt svc) = Some c →
  chatgpt_service.create c (chatgpt_service.model (recommendations.chatgpt svc))
    "Extract hotel search parameters. Return JSON only."
    (chatgpt_service.ExtractionPrompt user_demand) = Ok content →
  chatgpt_service.loads_parameters (recommendations.json svc) content
  = Raise (Exn JSONDecodeError msg) →
  PyStr.contains "```json" content = false →
  chatgpt_service.extract_search_parameters (recommendations.chatgpt svc)
    (recommendations.json svc) user_demand
  = Raise (Exn JSONDecodeError msg)
  ∧ recommendations.response
      (recommendations.recommend_hotels user_demand db svc)
    = inr {| recommendations.status_code := 500;
             recommendations.detail :=
               "Service configuration error: " ++ msg |}.
Proof.
  intros Hc Hr Hl Hf.
  assert (He : chatgpt_service.extract_search_parameters
                 (recommendations.chatgpt svc) (recommendations.json svc)
                 user_demand = Raise (Exn JSONDecodeError msg)).
  { unfold chatgpt_service.extract_search_parameters.
    rewrite Hc, Hr, Hl. cbn [exn_cls]. by rewrite Hf. }
  split; [exact He|].
  unfold recommendations.recommend_hotels. by rewrite He.
Qed.

Lemma unparsable_reply_witness :
  recommendations.response
    (recommendations.recommend_hotels "hotels under 150" (healthy_store ∅)
       (services_replying "Sure! Here are the parameters."))
  = inr {| recommendations.status_code := 500;
           recommendations.detail :=
             "Service configuration error: Expecting value" |}.
Proof.
  apply (proj2 (unparsable_reply_is_reported_as_configuration_error
                  "hotels under 150" (healthy_store ∅)
                  (services_replying "Sure! Here are the parameters.")
                  (replying_client "Sure! Here are the parameters.")
                  "Sure! Here are the parameters." "Expecting value"
                  eq_refl eq_refl eq_refl eq_refl)).
Defined.

(** ** The orchestrator: the store and the answer *)

Lemma hydrated_fresh (hotels : list Hotel.t) (db1 db2 : hotel_crud.Session)
    (ids : list string) :
  (∀ hotel_id, In hotel_id ids → is_Some (fresh_candidate hotels hotel_id)) →
  flat_map (hydrated hotels db1) ids = flat_map (hydrated hotels db2) ids.
Proof.
  induction ids as [|hotel_id ids IH]; intros Hf; [done|].
  cbn [flat_map]. rewrite IH by (intros i Hi; apply Hf; by right).
  f_equal. unfold hydrated, hydration_policy.
  destruct (Hf hotel_id (or_introl eq_refl)) as [h Hh]. by rewrite Hh.
Qed.

(** The store cannot change the answer when the ranking returns
    identifiers of fresh candidates only: two requests with the same demand
    and collaborators get the same response whatever their stores hold and
    whether or not the stores fail. *)
Theorem response_independent_of_store
    (user_demand : string) (svc : recommendations.Services)
    (db1 db2 : hotel_crud.Session) :
  (∀ hotel_id, In hotel_id (ranked_ids svc user_demand) →
               is_Some (fresh_candidate (searched svc user_demand) hotel_id)) →
  recommendations.response
    (recommendations.recommend_hotels user_demand db1 svc)
  = recommendations.response
      (recommendations.recommend_hotels user_demand db2 svc).
Proof.
  unfold ranked_ids, searched, recommendations.recommend_hotels.
  destruct (chatgpt_service.extract_search_parameters _ _ _) as [extracted|e];
    [|done].
  destruct (booking_service.search_hotels _ _ _ _) as [|h hotels] eqn:Es;
    [done|].
  intros Hf. cbn [recommendations.response].
  rewrite !map_hotels_policy.
  by rewrite (hydrated_fresh _ _
                (fst (hotel_crud.bulk_create_or_update_hotels db2 (h :: hotels)))
                _ Hf).
Qed.

Lemma response_independent_of_store_witness :
  recommendations.response
    (recommendations.recommend_hotels "romantic hotel in rome under 200"
       (read_only_store {[ "Rome_Non_boutique_1"
                           := priced "Rome_Non_boutique_1" 999 ]})
       degraded_services)
  = recommendations.response
      (recommendations.recommend_hotels "romantic hotel in rome under 200"
         (healthy_store ∅) degraded_services).
Proof.
  apply (response_independent_of_store "romantic hotel in rome under 200"
           degraded_services).
  intros hotel_id Hin. vm_compute in Hin.
  destruct Hin as [<-|[<-|[]]]; vm_compute; eexists; reflexivity.
Defined.


(** ** Ranking: degradation to the fallback *)

Lemma filter_falls_back (self : chatgpt_service.ChatGPTService)
    (json : chatgpt_service.Json) (user_demand : string)
    (hotels : list Hotel.t) :
  primary_unavailable self json user_demand hotels →
  chatgpt_service.filter_hotels_by_demand self json user_demand hotels
  = chatgpt_service._fallback_filter_hotels user_demand hotels.
Proof.
  unfold primary_unavailable, chatgpt_service.filter_hotels_by_demand.
  destruct hotels as [|h hotels]; [done|].
  destruct (chatgpt_service.client self) as [c|]; [|done].
  destruct (chatgpt_service.create _ _ _ _) as [content|e]; [|done].
  intros [e He]. by rewrite He.
Qed.

Lemma fallback_ids (user_demand : string) (hotels : list Hotel.t) :
  chatgpt_service._fallback_filter_hotels user_demand hotels
  = map Hotel.id_str
      (PySort.sort_desc (demand_score user_demand) (identified hotels)).
Proof.
  unfold chatgpt_service._fallback_filter_hotels.
  by rewrite score_hotels_identified, sort_desc_scored, map_map.
Qed.

Lemma fallback_ids_perm (user_demand : string) (hotels : list Hotel.t) :
  Permutation (chatgpt_service._fallback_filter_hotels user_demand hotels)
    (map Hotel.id_str (identified hotels)).
Proof. rewrite fallback_ids. apply Permutation_map, sort_desc_perm. Qed.

Lemma identified_In (hotels : list Hotel.t) (h : Hotel.t) :
  In h (identified hotels)
  ↔ In h hotels ∧ ∃ hotel_id, Hotel.hotel_id h = Some hotel_id
                              ∧ hotel_id ≠ "" ∧ Hotel.id_str h = hotel_id.
Proof.
  unfold identified. rewrite filter_In. unfold Hotel.id_str.
  split.
  - intros [Hin Hne]. split; [done|].
    destruct (Hotel.hotel_id h) as [[|c s]|]; try done.
    by eexists.
  - intros [Hin (i & Hi & Hne & _)]. split; [done|]. rewrite Hi.
    by destruct i.
Qed.

(** Whenever the primary ranking gives no answer (no client, a request
    that raises whatever the exception, a reply that does not parse),
    [filter_hotels_by_demand] answers with the rule-based ranking: every
    candidate with an identifier is ranked, once per candidate, and nothing
    else is returned; identifiers that are unique among the candidates are
    unique in the ranking. *)
Theorem ranking_degrades_to_every_identifier
    (self : chatgpt_service.ChatGPTService) (json : chatgpt_service.Json)
    (user_demand : string) (hotels : list Hotel.t) :
  primary_unavailable self json user_demand hotels →
  let ids := chatgpt_service.filter_hotels_by_demand self json user_demand
               hotels in
  Permutation ids (map Hotel.id_str (identified hotels))
  ∧ (∀ hotel_id, In hotel_id ids
                 ↔ hotel_id ≠ ""
                   ∧ ∃ h, In h hotels ∧ Hotel.hotel_id h = Some hotel_id)
  ∧ (NoDup (map Hotel.id_str (identified hotels)) → NoDup ids).
Proof.
  intros Hun ids. unfold ids. rewrite (filter_falls_back _ _ _ _ Hun).
  pose proof (fallback_ids_perm user_demand hotels) as Hp.
  split; [exact Hp|]. split.
  - intros hotel_id. split.
    + intros Hin. apply (Permutation_in _ Hp) in Hin.
      apply in_map_iff in Hin as (h & Hid & Hin).
      apply identified_In in Hin as (Hin & i & Hi & Hne & Hs).
      rewrite Hs in Hid. subst i. split; [done|]. by exists h.
    + intros (Hne & h & Hin & Hi).
      apply (Permutation_in _ (Permutation_sym Hp)).
      apply in_map_iff. exists h. split.
      * unfold Hotel.id_str. by rewrite Hi.
      * apply identified_In. split; [done|]. exists hotel_id.
        repeat split; try done. unfold Hotel.id_str. by rewrite Hi.
  - intros Hnd. by rewrite Hp.
Qed.

Lemma ranking_degrades_witness :
  Permutation
    (chatgpt_service.filter_hotels_by_demand
       (service_failing_with "sk-test" (Exn APIError "Connection error."))
       no_json "cheap stay" [priced "a" 150; priced "" 10; priced "b" 50])
    (map Hotel.id_str (identified [priced "a" 150; priced "" 10; priced "b" 50])).
Proof.
  apply (proj1 (ranking_degrades_to_every_identifier
                  (service_failing_with "sk-test"
                     (Exn APIError "Connection error."))
                  no_json "cheap stay"
                  [priced "a" 150; priced "" 10; priced "b" 50] I)).
Defined.

Lemma hydrated_identifiers (hotels : list Hotel.t) (db : hotel_crud.Session)
    (ids : list string) :
  (∀ hotel_id, In hotel_id ids → is_Some (fresh_candidate hotels hotel_id)) →
  map HotelInfo.hotel_id (flat_map (hydrated hotels db) ids) = map Some ids.
Proof.
  induction ids as [|hotel_id ids IH]; intros Hf; [done|].
  cbn [flat_map map]. rewrite map_app, IH by (intros i Hi; apply Hf; by right).
  destruct (Hf hotel_id (or_introl eq_refl)) as [h Hh].
  unfold hydrated, hydration_policy. rewrite Hh.
  apply fresh_candidate_Some in Hh as (_ & Hid & _).
  cbn [map app recommendations.to_hotel_info HotelInfo.hotel_id].
  unfold Hotel.id_str. by rewrite Hid.
Qed.

(** With the rule-based ranking, a request that found hotels answers with
    every candidate that has an identifier: the identifiers of the matched
    hotels are the ranked identifiers, in ranking order, and
    [total_results] is the number of candidates with an identifier,
    whatever the store holds. *)
Theorem degraded_pipeline_returns_every_candidate
    (user_demand : string) (db : hotel_crud.Session)
    (svc : recommendations.Services)
    (extracted : ChatGPTParameterExtractionResponse.t) :
  chatgpt_service.extract_search_parameters (recommendations.chatgpt svc)
    (recommendations.json svc) user_demand = Ok extracted →
  let hotels :=
    booking_service.search_hotels (recommendations.booking svc)
      (recommendations.httpx svc) (recommendations.builtins svc)
      (recommendations.to_search_parameters extracted) in
  hotels ≠ [] →
  primary_unavailable (recommendations.chatgpt svc) (recommendations.json svc)
    user_demand hotels →
  ∃ r, recommendations.response
         (recommendations.recommend_hotels user_demand db svc) = inl r
       ∧ map HotelInfo.hotel_id (RecommendationResponse.matched_hotels r)
         = map Some
             (chatgpt_service._fallback_filter_hotels user_demand hotels)
       ∧ RecommendationResponse.total_results r
         = Z.of_nat (length (identified hotels)).
Proof.
  intros He hotels Hne Hun.
  rewrite (recommend_hotels_found user_demand db svc extracted He Hne).
  fold hotels. cbn [recommendations.response]. eexists.
  split; [reflexivity|].
  cbn [RecommendationResponse.matched_hotels
       RecommendationResponse.total_results].
  rewrite map_hotels_policy, (filter_falls_back _ _ _ _ Hun).
  assert (Hf : ∀ hotel_id,
             In hotel_id
               (chatgpt_service._fallback_filter_hotels user_demand hotels) →
             is_Some (fresh_candidate hotels hotel_id)).
  { intros hotel_id Hin.
    apply (Permutation_in _ (fallback_ids_perm user_demand hotels)) in Hin.
    apply in_map_iff in Hin as (h & Hid & Hin).
    apply identified_In in Hin as (Hin & i & Hi & Hnei & Hs).
    rewrite Hs in Hid. subst i.
    destruct (fresh_candidate_exists hotels hotel_id h Hin Hi Hnei) as [h' E].
    by exists h'. }
  pose proof (hydrated_identifiers hotels
                (fst (hotel_crud.bulk_create_or_update_hotels db hotels))
                _ Hf) as Hids.
  split; [exact Hids|].
  f_equal. rewrite <- (length_map HotelInfo.hotel_id), Hids, length_map.
  rewrite (Permutation_length (fallback_ids_perm user_demand hotels)).
  apply length_map.
Qed.

Lemma degraded_pipeline_witness :
  ∃ r, recommendations.response
         (recommendations.recommend_hotels "hotel in rome under 130"
            (read_only_store ∅) degraded_services) = inl r
       ∧ RecommendationResponse.total_results r = 2%Z.
Proof.
  destruct (degraded_pipeline_returns_every_candidate
              "hotel in rome under 130" (read_only_store ∅) degraded_services
              (chatgpt_service._fallback_extract_parameters
                 "hotel in rome under 130")
              ltac:(vm_compute; reflexivity)
              ltac:(vm_compute; discriminate)
              ltac:(vm_compute; exact I)) as (r & Hr & _ & Ht).
  exists r. split; [exact Hr|]. rewrite Ht. vm_compute. reflexivity.
Defined.


(** ** Replies in a fenced block *)

Lemma str_app_nil (b : string) : "" ++ b = b.
Proof. reflexivity. Qed.

Lemma str_app_cons (x : ascii) (a b : string) :
  String x a ++ b = String x (a ++ b).
Proof. reflexivity. Qed.

Lemma str_app_assoc (a b c : string) : (a ++ b) ++ c = a ++ b ++ c.
Proof.
  induction a as [|x a IH]; [done|]. rewrite !str_app_cons. by rewrite IH.
Qed.

Lemma str_length_app (a b : string) :
  String.length (a ++ b) = (String.length a + String.length b)%nat.
Proof.
  induction a as [|x a IH]; [done|].
  rewrite str_app_cons. cbn [String.length]. by rewrite IH.
Qed.

Lemma prefix_app (a b : string) : String.prefix a (a ++ b) = true.
Proof.
  induction a as [|x a IH]; [by destruct b|].
  rewrite str_app_cons. cbn [String.prefix]. by destruct (ascii_dec x x).
Qed.

Lemma drop_app (a b : string) : PyStr.drop (String.length a) (a ++ b) = b.
Proof. induction a as [|x a IH]; [done|]. exact IH. Qed.

Lemma take_app (a b : string) : PyStr.take (String.length a) (a ++ b) = a.
Proof.
  induction a as [|x a IH]; [by destruct b|].
  rewrite str_app_cons. cbn [String.length PyStr.take]. by rewrite IH.
Qed.

Lemma take_length_le (n : nat) (s : string) :
  (String.length (PyStr.take n s) ≤ n)%nat.
Proof.
  revert s. induction n as [|n IH]; intros [|c s];
    cbn [PyStr.take String.length]; try lia.
  specialize (IH s). lia.
Qed.

Lemma contains_app (sub pre tail : string) :
  PyStr.contains sub (pre ++ sub ++ tail) = true.
Proof.
  induction pre as [|c pre IH].
  - rewrite str_app_nil. destruct (sub ++ tail) eqn:E; cbn [PyStr.contains];
      rewrite <- E, prefix_app; done.
  - rewrite str_app_cons. cbn [PyStr.contains]. rewrite IH. apply orb_true_r.
Qed.

Lemma find_at_skip (pat pre tail : string) (pos : nat) :
  no_backtick pre = true →
  PyStr.find_at (String "`" pat) (pre ++ String "`" pat ++ tail) pos
  = Z.of_nat (pos + String.length pre).
Proof.
  revert pos. induction pre as [|c pre IH]; intros pos Hn.
  - rewrite str_app_nil. cbn [String.length]. rewrite Nat.add_0_r.
    destruct (String "`" pat ++ tail) eqn:E; [discriminate E|].
    cbn [PyStr.find_at]. by rewrite <- E, prefix_app.
  - cbn [no_backtick] in Hn. apply andb_true_iff in Hn as [Hc Hn].
    rewrite str_app_cons. cbn [PyStr.find_at String.length].
    replace (String.prefix (String "`" pat)
               (String c (pre ++ String "`" pat ++ tail)))
      with false.
    + rewrite IH by done. f_equal. lia.
    + cbn [String.prefix]. destruct (ascii_dec "`" c) as [<-|]; [|done].
      by rewrite Ascii.eqb_refl in Hc.
Qed.

Lemma find_at_none (pat s : string) (pos : nat) :
  no_backtick s = true → PyStr.find_at (String "`" pat) s pos = (-1)%Z.
Proof.
  revert pos. induction s as [|c s IH]; intros pos Hn; [done|].
  cbn [no_backtick] in Hn. apply andb_true_iff in Hn as [Hc Hn].
  cbn [PyStr.find_at String.prefix].
  destruct (ascii_dec "`" c) as [<-|]; [by rewrite Ascii.eqb_refl in Hc|].
  by apply IH.
Qed.

Lemma find_from (sub s : string) (start : nat) :
  (start ≤ String.length s)%nat →
  PyStr.find sub s start = PyStr.find_at sub (PyStr.drop start s) start.
Proof.
  intros H. unfold PyStr.find.
  by replace (String.length s <? start)%nat with false
    by (symmetry; apply Nat.ltb_ge; lia).
Qed.

Lemma slice_middle (a b c : string) :
  PyStr.slice (a ++ b ++ c) (Z.of_nat (String.length a))
    (Z.of_nat (String.length a + String.length b))
  = b.
Proof.
  unfold PyStr.slice, PyStr.clamp_index.
  rewrite !str_length_app.
  replace (Z.of_nat (String.length a) <? 0)%Z with false
    by (symmetry; apply Z.ltb_ge; lia).
  replace (Z.of_nat (String.length a + String.length b) <? 0)%Z with false
    by (symmetry; apply Z.ltb_ge; lia).
  rewrite !Nat2Z.id.
  rewrite Nat.min_r by lia. rewrite Nat.min_r by lia.
  rewrite drop_app.
  replace (String.length a + String.length b - String.length a)%nat
    with (String.length b) by lia.
  apply take_app.
Qed.

Lemma slice_to_end (a b : string) :
  PyStr.slice (a ++ b) (Z.of_nat (String.length a)) (-1)
  = PyStr.take (String.length b - 1) b.
Proof.
  unfold PyStr.slice, PyStr.clamp_index. rewrite str_length_app.
  replace (Z.of_nat (String.length a) <? 0)%Z with false
    by (symmetry; apply Z.ltb_ge; lia).
  replace (-1 <? 0)%Z with true by reflexivity.
  rewrite Nat2Z.id.
  replace (Nat.min (String.length a + String.length b) (String.length a))
    with (String.length a) by lia.
  rewrite drop_app. f_equal. lia.
Qed.

Lemma strip_fence_closed (prefix body rest : string) :
  no_backtick prefix = true →
  no_backtick body = true →
  chatgpt_service.strip_fence (prefix ++ "```json" ++ body ++ "```" ++ rest)
  = PyStr.strip body.
Proof.
  intros Hp Hb. unfold chatgpt_service.strip_fence.
  set (content := prefix ++ "```json" ++ body ++ "```" ++ rest).
  assert (Hstart : PyStr.find "```json" content 0
                   = Z.of_nat (String.length prefix)).
  { rewrite find_from by lia. cbn [PyStr.drop]. unfold content.
    by rewrite (find_at_skip "``json" prefix _ 0 Hp). }
  rewrite Hstart.
  assert (Hc : content = (prefix ++ "```json") ++ body ++ "```" ++ rest)
    by (unfold content; by rewrite str_app_assoc).
  assert (Hlen : String.length (prefix ++ "```json")
                 = (String.length prefix + 7)%nat)
    by by rewrite str_length_app.
  replace (Z.to_nat (Z.of_nat (String.length prefix) + 7))
    with (String.length (prefix ++ "```json")) by lia.
  assert (Hend : PyStr.find "```" content (String.length (prefix ++ "```json"))
                 = Z.of_nat (String.length (prefix ++ "```json")
                             + String.length body)).
  { rewrite find_from
      by (rewrite Hc, !str_length_app; lia).
    rewrite Hc at 1. rewrite drop_app.
    by rewrite (find_at_skip "``" body rest _ Hb). }
  rewrite Hend.
  replace (Z.of_nat (String.length prefix) + 7)%Z
    with (Z.of_nat (String.length (prefix ++ "```json"))) by lia.
  rewrite Hc. f_equal.
  rewrite (slice_middle (prefix ++ "```json") body ("```" ++ rest)).
  reflexivity.
Qed.

(** A reply that wraps its JSON in a [```json] fence is recovered.  When
    the text before the fence and the text inside it have no backtick, the
    fence is stripped to the inner text without the surrounding white
    space; if the whole reply does not parse and the inner text does, the
    extraction returns the parameters of the inner text. *)
Theorem fenced_reply_is_recovered
    (self : chatgpt_service.ChatGPTService) (json : chatgpt_service.Json)
    (user_demand : string) (c : chatgpt_service.OpenAI)
    (prefix body rest msg : string)
    (r : ChatGPTParameterExtractionResponse.t) :
  let content := prefix ++ "```json" ++ body ++ "```" ++ rest in
  no_backtick prefix = true →
  no_backtick body = true →
  chatgpt_service.client self = Some c →
  chatgpt_service.create c (chatgpt_service.model self)
    "Extract hotel search parameters. Return JSON only."
    (chatgpt_service.ExtractionPrompt user_demand) = Ok content →
  chatgpt_service.loads_parameters json content
  = Raise (Exn JSONDecodeError msg) →
  chatgpt_service.loads_parameters json (PyStr.strip body) = Ok r →
  chatgpt_service.strip_fence content = PyStr.strip body
  ∧ chatgpt_service.extract_search_parameters self json user_demand = Ok r.
Proof.
  intros content Hp Hb Hc Hr Hl1 Hl2.
  pose proof (strip_fence_closed prefix body rest Hp Hb) as Hs.
  fold content in Hs. split; [exact Hs|].
  unfold chatgpt_service.extract_search_parameters.
  rewrite Hc, Hr, Hl1. cbn [exn_cls].
  unfold content at 1. rewrite contains_app. fold content.
  by rewrite Hs, Hl2.
Qed.

Lemma fenced_reply_witness :
  chatgpt_service.extract_search_parameters
    (chatgpt_service.__init__ "sk-test" "gpt-4o-mini"
       (fun _ => replying_client
                   ("Here you go: " ++ "```json" ++ " {'location': 'Rome'} "
                    ++ "```" ++ " Enjoy!")))
    (json_accepting "{'location': 'Rome'}"
       (chatgpt_service._fallback_extract_parameters "rome"))
    "a hotel in Rome"
  = Ok (chatgpt_service._fallback_extract_parameters "rome").
Proof.
  apply (proj2 (fenced_reply_is_recovered
                  (chatgpt_service.__init__ "sk-test" "gpt-4o-mini"
                     (fun _ => replying_client
                                 ("Here you go: " ++ "```json"
                                  ++ " {'location': 'Rome'} "
                                  ++ "```" ++ " Enjoy!")))
                  (json_accepting "{'location': 'Rome'}"
                     (chatgpt_service._fallback_extract_parameters "rome"))
                  "a hotel in Rome"
                  (replying_client
                     ("Here you go: " ++ "```json" ++ " {'location': 'Rome'} "
                      ++ "```" ++ " Enjoy!"))
                  "Here you go: " " {'location': 'Rome'} " " Enjoy!"
                  "Expecting value"
                  (chatgpt_service._fallback_extract_parameters "rome")
                  eq_refl eq_refl eq_refl eq_refl eq_refl eq_refl)).
Defined.

(** A fence that is never closed costs the reply its last character: with
    no closing [```] the end index is [-1], so the text after the opening
    fence is cut one character short before it is stripped. *)
Theorem unclosed_fence_drops_last_character (prefix body : string) :
  no_backtick prefix = true →
  no_backtick body = true →
  chatgpt_service.strip_fence (prefix ++ "```json" ++ body)
  = PyStr.strip (PyStr.take (String.length body - 1) body).
Proof.
  intros Hp Hb. unfold chatgpt_service.strip_fence.
  set (content := prefix ++ "```json" ++ body).
  assert (Hstart : PyStr.find "```json" content 0
                   = Z.of_nat (String.length prefix)).
  { rewrite find_from by lia. cbn [PyStr.drop]. unfold content.
    by rewrite (find_at_skip "``json" prefix body 0 Hp). }
  rewrite Hstart.
  assert (Hc : content = (prefix ++ "```json") ++ body)
    by (unfold content; by rewrite str_app_assoc).
  assert (Hlen : String.length (prefix ++ "```json")
                 = (String.length prefix + 7)%nat)
    by by rewrite str_length_app.
  replace (Z.to_nat (Z.of_nat (String.length prefix) + 7))
    with (String.length (prefix ++ "```json")) by lia.
  assert (Hend : PyStr.find "```" content (String.length (prefix ++ "```json"))
                 = (-1)%Z).
  { rewrite find_from by (rewrite Hc, !str_length_app; lia).
    rewrite Hc at 1. rewrite drop_app. by apply find_at_none. }
  rewrite Hend. f_equal.
  replace (Z.of_nat (String.length prefix) + 7)%Z
    with (Z.of_nat (String.length (prefix ++ "```json"))) by lia.
  rewrite Hc. apply slice_to_end.
Qed.

Lemma unclosed_fence_witness :
  chatgpt_service.strip_fence ("```json" ++ "{'adults': 2}")
  = "{'adults': 2".
Proof.
  etransitivity.
  - apply (unclosed_fence_drops_last_character "" "{'adults': 2}"
             eq_refl eq_refl).
  - reflexivity.
Defined.


(** ** The summaries sent to the inference service *)

(** The payload of the ranking request is bounded: there is one summary
    per candidate with an identifier, in order and under that identifier,
    its name has at most 50 characters and its amenity text at most 100;
    candidates without identifier are not sent. *)
Theorem summaries_are_bounded (hotels : list Hotel.t) :
  map chatgpt_service.s_id (chatgpt_service.summarize hotels)
  = map Hotel.id_str (identified hotels)
  ∧ Forall (fun summary =>
              chatgpt_service.s_id summary ≠ ""
              ∧ (String.length (chatgpt_service.s_name summary) ≤ 50)%nat
              ∧ (String.length (chatgpt_service.s_amenities summary) ≤ 100)%nat)
      (chatgpt_service.summarize hotels)
  ∧ (length (chatgpt_service.summarize hotels) ≤ length hotels)%nat.
Proof.
  unfold identified.
  induction hotels as [|h hotels (IH1 & IH2 & IH3)]; [by repeat split|].
  cbn [chatgpt_service.summarize List.filter].
  destruct (nonempty_str (Hotel.id_str h)) eqn:Hid.
  - cbn [map chatgpt_service.s_id length]. rewrite IH1.
    split; [done|]. split; [|lia].
    constructor; [|done].
    cbn [chatgpt_service.s_id chatgpt_service.s_name
         chatgpt_service.s_amenities].
    split; [by destruct (Hotel.id_str h)|].
    split; apply take_length_le.
  - cbn [length]. split; [done|]. split; [done|lia].
Qed.

(** ** The extraction fallback: preferences and numbers *)

Lemma detect_sublist (keywords : list (string * list string))
    (text : string) :
  sublist (chatgpt_service.detect keywords text) (map fst keywords).
Proof.
  unfold chatgpt_service.detect.
  induction keywords as [|[tag kws] keywords IH]; [constructor|].
  cbn [List.filter map].
  destruct (existsb _ kws); cbn [map fst]; by constructor.
Qed.

Lemma detect_In (keywords : list (string * list string)) (text tag : string) :
  In tag (chatgpt_service.detect keywords text)
  ↔ ∃ kws, In (tag, kws) keywords ∧ has_keyword kws text = true.
Proof.
  unfold chatgpt_service.detect, has_keyword. rewrite in_map_iff. split.
  - intros ([t kws] & <- & Hin). apply filter_In in Hin as [Hin Hk].
    by exists kws.
  - intros (kws & Hin & Hk). exists (tag, kws). split; [done|].
    by apply filter_In.
Qed.

(** The preferences of the extraction fallback are the tags of the table
    that have a keyword in the lower-cased demand, in the order of the table
    and whatever their order in the demand, each at most once; when no tag
    is detected the field is [None], never an empty list. *)
Theorem fallback_preferences_follow_the_table (user_demand : string) :
  let tags := chatgpt_service.detect chatgpt_service.pref_keywords
                (PyStr.lower user_demand) in
  ChatGPTParameterExtractionResponse.preferences
    (chatgpt_service._fallback_extract_parameters user_demand)
  = match tags with [] => None | _ => Some tags end
  ∧ sublist tags ["romantic"; "family"; "luxury"; "beach"; "mountain"; "city"]
  ∧ NoDup tags
  ∧ (∀ tag, In tag tags
            ↔ ∃ kws, In (tag, kws) chatgpt_service.pref_keywords
                     ∧ has_keyword kws (PyStr.lower user_demand) = true)
  ∧ ChatGPTParameterExtractionResponse.preferences
      (chatgpt_service._fallback_extract_parameters user_demand) ≠ Some [].
Proof.
  intros tags.
  assert (Hs : sublist tags
                 ["romantic"; "family"; "luxury"; "beach"; "mountain"; "city"])
    by apply (detect_sublist chatgpt_service.pref_keywords).
  split; [reflexivity|]. split; [exact Hs|]. split.
  { eapply sublist_NoDup; [|exact Hs]. by apply (bool_decide_unpack _). }
  split; [intros tag; apply detect_In|].
  unfold chatgpt_service._fallback_extract_parameters.
  cbn [ChatGPTParameterExtractionResponse.preferences]. fold tags.
  by destruct tags.
Qed.

Lemma all_digits_snoc (a : string) (c : ascii) :
  all_digits a = true → PyStr.is_digit c = true →
  all_digits (a ++ String c EmptyString) = true.
Proof.
  intros Ha Hc. induction a as [|x a IH];
    [rewrite str_app_nil; cbn [all_digits]; by rewrite Hc|].
  rewrite str_app_cons. cbn [all_digits] in *.
  apply andb_true_iff in Ha as [Hx Ha]. by rewrite Hx, IH.
Qed.

(** What a greedy repetition hands to its continuation satisfies every
    property that holds of the start and is kept by adding a character of
    the class. *)
Lemma greedy_inv {R : Type} (cls : ascii → bool)
    (k : string → string → option R) (P : string → Prop)
    (acc s : string) (r : R) :
  P acc →
  (∀ a c, P a → cls c = true → P (a ++ String c EmptyString)) →
  Re.greedy cls k acc s = Some r →
  ∃ acc' rest, P acc' ∧ k acc' rest = Some r.
Proof.
  intros Hacc Hstep. revert acc Hacc.
  induction s as [|c s IH]; intros acc Hacc; cbn [Re.greedy].
  - intros H. by exists acc, EmptyString.
  - destruct (cls c) eqn:Hc.
    + destruct (Re.greedy cls k (acc ++ String c EmptyString) s) as [r'|] eqn:E.
      * intros H. injection H as <-.
        apply (IH (acc ++ String c EmptyString)); [by apply Hstep|done].
      * intros H. by exists acc, (String c s).
    + intros H. by exists acc, (String c s).
Qed.

(** The group of a match is the group the matching started with or a
    non-empty run of digits. *)
Lemma match_here_capture (p : Re.regex) (cap : Re.groups) (s : string)
    (g : Re.groups) :
  Re.match_here p cap s = Some g →
  g = cap ∨ ∃ d, g = Some d ∧ d ≠ "" ∧ all_digits d = true.
Proof.
  revert cap s. induction p as [|a p IH]; intros cap s; cbn [Re.match_here].
  - intros H. injection H as <-. by left.
  - destruct a.
    + destruct (Re.strip_prefix s0 s); [apply IH|discriminate].
    + intros H.
      apply (greedy_inv _ _ (fun _ => True)) in H as (acc & rest & _ & H);
        [|done..].
      destruct acc; [discriminate|]. by apply IH in H.
    + intros H.
      apply (greedy_inv _ _ (fun _ => True)) in H as (acc & rest & _ & H);
        [|done..].
      by apply IH in H.
    + intros H.
      apply (greedy_inv _ _ (fun a => all_digits a = true)) in H
        as (acc & rest & Hd & H); [|done|apply all_digits_snoc].
      destruct acc as [|c acc]; [discriminate|].
      apply IH in H as [->|H]; [|by right].
      right. by eexists.
Qed.

Lemma search_capture (p : Re.regex) (s : string) (g : Re.groups) :
  Re.search p s = Some g →
  g = None ∨ ∃ d, g = Some d ∧ d ≠ "" ∧ all_digits d = true.
Proof.
  induction s as [|c s IH]; cbn [Re.search].
  - destruct (Re.match_here p None "") eqn:E; [|discriminate].
    intros H. injection H as <-. by apply match_here_capture in E.
  - destruct (Re.match_here p None (String c s)) eqn:E; [|exact IH].
    intros H. injection H as <-. by apply match_here_capture in E.
Qed.

Lemma digits_value_nonneg (s : string) (acc : Z) :
  all_digits s = true → (0 ≤ acc)%Z → (0 ≤ PyStr.digits_value acc s)%Z.
Proof.
  revert acc. induction s as [|c s IH]; intros acc Hd Hacc; [done|].
  cbn [all_digits] in Hd. apply andb_true_iff in Hd as [Hc Hd].
  cbn [PyStr.digits_value]. apply IH; [done|].
  unfold PyStr.is_digit in Hc. apply andb_true_iff in Hc as [Hlo _].
  apply Nat.leb_le in Hlo. lia.
Qed.

Lemma lower_length (s : string) :
  String.length (PyStr.lower s) = String.length s.
Proof. induction s as [|c s IH]; [done|]. cbn. by rewrite IH. Qed.

Lemma strip_prefix_length (p s rest : string) :
  Re.strip_prefix p s = Some rest →
  (String.length rest ≤ String.length s)%nat.
Proof.
  revert s. induction p as [|a p IH]; intros [|b s]; cbn [Re.strip_prefix];
    try discriminate.
  - intros H. by injection H as <-.
  - intros H. by injection H as <-.
  - destruct (Ascii.eqb a b); [|discriminate].
    intros H. apply IH in H. cbn [String.length]. lia.
Qed.

(** A greedy repetition splits the text it is given between what it
    consumed and what it hands to its continuation. *)
Lemma greedy_split {R : Type} (cls : ascii → bool)
    (k : string → string → option R) (acc s : string) (r : R) :
  Re.greedy cls k acc s = Some r →
  ∃ acc' rest, k acc' rest = Some r ∧ acc ++ s = acc' ++ rest.
Proof.
  revert acc. induction s as [|c s IH]; intros acc; cbn [Re.greedy].
  - intros H. by exists acc, EmptyString.
  - destruct (cls c).
    + destruct (Re.greedy cls k (acc ++ String c EmptyString) s) as [r'|] eqn:E.
      * intros H. injection H as <-.
        apply IH in E as (acc' & rest & Hk & Heq).
        exists acc', rest. split; [done|].
        by rewrite <- Heq, str_app_assoc, str_app_cons, str_app_nil.
      * intros H. by exists acc, (String c s).
    + intros H. by exists acc, (String c s).
Qed.

(** The group of a match is the group the matching started with or a
    piece of the text. *)
Lemma match_here_length (p : Re.regex) (cap : Re.groups) (s : string)
    (g : Re.groups) :
  Re.match_here p cap s = Some g →
  g = cap ∨ ∃ d, g = Some d ∧ (String.length d ≤ String.length s)%nat.
Proof.
  revert cap s. induction p as [|a p IH]; intros cap s; cbn [Re.match_here].
  - intros H. injection H as <-. by left.
  - destruct a.
    + destruct (Re.strip_prefix s0 s) as [rest|] eqn:E; [|discriminate].
      intros H. apply IH in H as [->|(d & -> & Hd)]; [by left|right].
      apply strip_prefix_length in E. eexists. split; [done|lia].
    + intros H. apply greedy_split in H as (acc & rest & H & Heq).
      rewrite str_app_nil in Heq. subst s. rewrite str_length_app.
      destruct acc; [discriminate|].
      apply IH in H as [->|(d & -> & Hd)]; [by left|right].
      eexists. split; [done|lia].
    + intros H. apply greedy_split in H as (acc & rest & H & Heq).
      rewrite str_app_nil in Heq. subst s. rewrite str_length_app.
      apply IH in H as [->|(d & -> & Hd)]; [by left|right].
      eexists. split; [done|lia].
    + intros H. apply greedy_split in H as (acc & rest & H & Heq).
      rewrite str_app_nil in Heq. subst s. rewrite str_length_app.
      destruct acc as [|c acc]; [discriminate|].
      apply IH in H as [->|(d & -> & Hd)]; right;
        (eexists; split; [done|lia]).
Qed.

Lemma search_length (p : Re.regex) (s : string) (g : Re.groups) :
  Re.search p s = Some g →
  g = None ∨ ∃ d, g = Some d ∧ (String.length d ≤ String.length s)%nat.
Proof.
  induction s as [|c s IH]; cbn [Re.search].
  - destruct (Re.match_here p None "") eqn:E; [|discriminate].
    intros H. injection H as <-. by apply match_here_length in E.
  - destruct (Re.match_here p None (String c s)) eqn:E.
    + intros H. injection H as <-. by apply match_here_length in E.
    + intros H. apply IH in H as [->|(d & -> & Hd)]; [by left|right].
      eexists. split; [done|]. cbn [String.length]. lia.
Qed.

(** The occupancy of the rule-based extraction is well formed for every
    demand of at most 4300 characters.  The text that [int()] converts is a
    non-empty run of ASCII digits no longer than the demand, so that the
    conversion is within the limit of the interpreter; the number of adults
    read is not negative; the search parameters built from it have at least
    one adult (a demand for "0 adults" is searched for one), no child, one
    room and a list of preferences; the extraction never infers a lower
    bound of the budget or a date. *)
Theorem fallback_occupancy_is_well_formed (user_demand : string) :
  (String.length user_demand ≤ 4300)%nat →
  let r := chatgpt_service._fallback_extract_parameters user_demand in
  let p := recommendations.to_search_parameters r in
  (∀ d, Re.search [Re.Digits1; Re.Spaces1; Re.Lit "adult"]
          (PyStr.lower user_demand) = Some (Some d) →
        d ≠ "" ∧ all_digits d = true ∧ (String.length d ≤ 4300)%nat
        ∧ ChatGPTParameterExtractionResponse.adults r
          = Some (PyStr.int_of_digits d))
  ∧ (Re.search [Re.Digits1; Re.Spaces1; Re.Lit "adult"]
       (PyStr.lower user_demand) = None →
     ChatGPTParameterExtractionResponse.adults r = Some 1%Z)
  ∧ (∃ n, ChatGPTParameterExtractionResponse.adults r = Some n ∧ (0 ≤ n)%Z)
  ∧ (∃ n, SearchParameters.adults p = Some n ∧ (1 ≤ n)%Z)
  ∧ SearchParameters.children p = Some 0%Z
  ∧ SearchParameters.rooms p = Some 1%Z
  ∧ (∃ l, SearchParameters.preferences p = Some l)
  ∧ SearchParameters.budget_min p = None
  ∧ SearchParameters.check_in p = None
  ∧ SearchParameters.check_out p = None.
Proof.
  intros Hlen r p.
  assert (Hadults : ∃ n, ChatGPTParameterExtractionResponse.adults r = Some n
                         ∧ (0 ≤ n)%Z).
  { unfold r, chatgpt_service._fallback_extract_parameters.
    cbn [ChatGPTParameterExtractionResponse.adults].
    destruct (Re.search _ (PyStr.lower user_demand)) as [g|] eqn:E;
      eexists; (split; [reflexivity|]); [|lia].
    apply search_capture in E as [->|(d & -> & _ & Hd)]; [done|].
    by apply digits_value_nonneg. }
  split.
  { intros d E. unfold r, chatgpt_service._fallback_extract_parameters.
    cbn [ChatGPTParameterExtractionResponse.adults]. rewrite E. cbn [get_or].
    assert (E' := E).
    apply search_capture in E as [E|(d1 & E & Hne & Hd)]; [discriminate|].
    injection E as <-.
    apply search_length in E' as [E'|(d2 & E' & Hl)]; [discriminate|].
    injection E' as <-. rewrite lower_length in Hl.
    repeat split; [done|done|lia]. }
  split.
  { intros E. unfold r, chatgpt_service._fallback_extract_parameters.
    cbn [ChatGPTParameterExtractionResponse.adults]. by rewrite E. }
  split; [exact Hadults|].
  split.
  { destruct Hadults as (n & Hn & Hpos).
    unfold p, recommendations.to_search_parameters.
    cbn [SearchParameters.adults]. rewrite Hn.
    unfold recommendations.or_Z, booking_service.truthy_Z. cbn [get_or].
    destruct (n =? 0)%Z eqn:E; cbn [negb]; eexists; (split; [reflexivity|]);
      [lia|]. apply Z.eqb_neq in E. lia. }
  split; [reflexivity|]. split; [reflexivity|]. split; [by eexists|].
  by repeat split.
Qed.

Lemma fallback_occupancy_witness :
  ∃ n, SearchParameters.adults
         (recommendations.to_search_parameters
            (chatgpt_service._fallback_extract_parameters "0 adults in rome"))
       = Some n ∧ (1 ≤ n)%Z.
Proof.
  apply (fallback_occupancy_is_well_formed "0 adults in rome").
  apply Nat.leb_le. reflexivity.
Defined.

(** ** The provider query *)

Lemma add_if_In {A : Type} (present : bool) (key : string) (value : option A)
    (wrap : A → booking_service.query_value) (params : booking_service.query)
    (kv : string * booking_service.query_value) :
  In kv (booking_service.add_if present key value wrap params)
  ↔ In kv params
    ∨ (present = true ∧ ∃ v, value = Some v ∧ kv = (key, wrap v)).
Proof.
  unfold booking_service.add_if.
  destruct value as [v|], present; rewrite ?in_app_iff; cbn [In].
  - split.
    + intros [H|[<-|[]]]; [by left|].
      right. split; [done|]. by exists v.
    + intros [H|(_ & v0 & Hv & ->)]; [by left|].
      right. left. by injection Hv as ->.
  - split; [tauto|]. intros [H|(Hp & _)]; [done|discriminate Hp].
  - split; [tauto|]. intros [H|(_ & v0 & Hv & _)]; [done|discriminate Hv].
  - split; [tauto|]. intros [H|(Hp & _)]; [done|discriminate Hp].
Qed.

Lemma add_if_keys {A : Type} (present : bool) (key : string) (value : option A)
    (wrap : A → booking_service.query_value) (params : booking_service.query) :
  map fst (booking_service.add_if present key value wrap params)
  = (map fst params
     ++ (if present then match value with Some _ => [key] | None => [] end
         else []))%list.
Proof.
  unfold booking_service.add_if.
  destruct value as [v|], present; rewrite ?map_app, ?app_nil_r; done.
Qed.

Lemma optional_key_sublist (present : bool) {A : Type} (value : option A)
    (key : string) :
  sublist (if present then match value with Some _ => [key] | None => [] end
           else []) [key].
Proof. destruct present, value; by repeat constructor. Qed.

(** The query sent to the inventory provider never carries an empty value:
    a parameter that is missing, zero or the empty text is left out (so a
    request without children has no [children] key and a bound of zero is
    not sent), the keys come in one fixed order, each at most once, and a
    value that is sent is the value of the parameter. *)
Theorem provider_query_has_no_empty_value (parameters : SearchParameters.t) :
  let params := booking_service._prepare_search_params parameters in
  Forall (fun kv => query_value_truthy (snd kv) = true) params
  ∧ sublist (map fst params)
      ["location"; "checkin_date"; "checkout_date"; "adults"; "children";
       "rooms"; "price_min"; "price_max"]
  ∧ NoDup (map fst params)
  ∧ (∀ x, In ("price_max", booking_service.QFloat x) params
          ↔ SearchParameters.budget_max parameters = Some x
            ∧ nonzero x = true)
  ∧ (∀ n, In ("children", booking_service.QInt n) params
          ↔ SearchParameters.children parameters = Some n ∧ n ≠ 0%Z)
  ∧ (∀ l, In ("location", booking_service.QStr l) params
          ↔ SearchParameters.location parameters = Some l ∧ l ≠ "").
Proof.
  intros params.
  assert (Hsub : sublist (map fst params)
            ["location"; "checkin_date"; "checkout_date"; "adults"; "children";
             "rooms"; "price_min"; "price_max"]).
  { unfold params, booking_service._prepare_search_params.
    rewrite !add_if_keys. cbn [map app].
    change ["location"; "checkin_date"; "checkout_date"; "adults"; "children";
            "rooms"; "price_min"; "price_max"]
      with (["location"] ++ ["checkin_date"] ++ ["checkout_date"] ++ ["adults"]
            ++ ["children"] ++ ["rooms"] ++ ["price_min"] ++ ["price_max"])%list.
    rewrite <- !app_assoc.
    repeat (apply sublist_app; [apply optional_key_sublist|]).
    apply optional_key_sublist. }
  split.
  { apply List.Forall_forall. intros kv.
    unfold params, booking_service._prepare_search_params.
    rewrite !add_if_In. cbn [In].
    intros H.
    repeat destruct H as [H|H]; try done;
      destruct H as (Hp & v & Hv & ->); rewrite Hv in Hp; cbn [snd];
      exact Hp. }
  split; [exact Hsub|].
  split.
  { eapply sublist_NoDup; [|exact Hsub]. by apply (bool_decide_unpack _). }
  unfold params, booking_service._prepare_search_params.
  split; [|split].
  - intros x. rewrite !add_if_In. cbn [In]. split.
    + intros H. repeat destruct H as [H|H]; try done;
        destruct H as (Hp & v & Hv & Heq); try discriminate Heq.
      injection Heq as <-. rewrite Hv in Hp. by split.
    + intros [Hv Hx]. right. split; [by rewrite Hv|]. by exists x.
  - intros n. rewrite !add_if_In. cbn [In]. split.
    + intros H. repeat destruct H as [H|H]; try done;
        destruct H as (Hp & v & Hv & Heq); try discriminate Heq.
      injection Heq as <-. rewrite Hv in Hp. split; [done|].
      cbn in Hp. apply negb_true_iff, Z.eqb_neq in Hp. done.
    + intros [Hv Hn]. do 3 left. right.
      split; [|by exists n]. rewrite Hv. cbn.
      by apply negb_true_iff, Z.eqb_neq.
  - intros l. rewrite !add_if_In. cbn [In]. split.
    + intros H. repeat destruct H as [H|H]; try done;
        destruct H as (Hp & v & Hv & Heq); try discriminate Heq.
      injection Heq as <-. rewrite Hv in Hp. split; [done|].
      intros ->. done.
    + intros [Hv Hn]. do 7 left. right.
      split; [|by exists l]. rewrite Hv. by destruct l.
Qed.

(** ** The synthetic provider: the batch *)

Lemma str_app_inv_head (a b c : string) : a ++ b = a ++ c → b = c.
Proof.
  induction a as [|x a IH]; [done|].
  rewrite !str_app_cons. intros H. injection H as H. by apply IH.
Qed.

Lemma str_app_nonempty (a b : string) :
  nonempty_str b = true → nonempty_str (a ++ b) = true.
Proof. destruct a; [done|]. by rewrite str_app_cons. Qed.

Lemma NoDup_map_filter {A B : Type} (f : A → B) (p : A → bool) (l : list A) :
  NoDup (map f l) → NoDup (map f (List.filter p l)).
Proof.
  induction l as [|x l IH]; [done|].
  cbn [map List.filter]. rewrite NoDup_cons. intros [Hx Hl].
  destruct (p x); [|by apply IH].
  cbn [map]. apply NoDup_cons. split; [|by apply IH].
  intros Hin. apply Hx. apply list_elem_of_In in Hin. apply list_elem_of_In.
  apply in_map_iff in Hin as (y & Hy & Hin). apply filter_In in Hin as [Hin _].
  apply in_map_iff. by exists y.
Qed.

Lemma NoDup_map_take {A B : Type} (f : A → B) (n : nat) (l : list A) :
  NoDup (map f l) → NoDup (map f (take n l)).
Proof.
  revert n. induction l as [|x l IH]; intros [|n]; simpl;
    try (intros _; apply NoDup_nil_2); [].
  rewrite !NoDup_cons. intros [Hx Hl]. split; [|by apply IH].
  intros Hin. apply Hx. apply list_elem_of_In in Hin. apply list_elem_of_In.
  apply in_map_iff in Hin as (y & Hy & Hin). apply In_take in Hin.
  apply in_map_iff. by exists y.
Qed.

Lemma filter_mock_hotels_in_budget (hotels : list Hotel.t)
    (parameters : SearchParameters.t) (h : Hotel.t) :
  In h (booking_service._filter_mock_hotels hotels parameters) →
  In h (booking_service.budget_filter parameters hotels).
Proof.
  unfold booking_service._filter_mock_hotels. rewrite cap_is_take.
  intros H. apply In_take in H. revert H.
  destruct (truthy_list (SearchParameters.preferences parameters)); [|done].
  rewrite sort_desc_scored_pairs.
  rewrite (filter_scored_self _ booking_service.positive).
  rewrite map_map. cbn [snd]. rewrite map_id.
  intros H. apply In_list_or in H as [H|H].
  - apply filter_In in H as [H _].
    by apply (Permutation_in _ (sort_desc_perm _ _)) in H.
  - by apply (Permutation_in _ (sort_desc_perm _ _)) in H.
Qed.

Lemma filter_mock_hotels_NoDup {B : Type} (f : Hotel.t → B)
    (hotels : list Hotel.t) (parameters : SearchParameters.t) :
  NoDup (map f hotels) →
  NoDup (map f (booking_service._filter_mock_hotels hotels parameters)).
Proof.
  intros Hnd. unfold booking_service._filter_mock_hotels.
  rewrite cap_is_take. apply NoDup_map_take.
  assert (Hb : NoDup (map f (booking_service.budget_filter parameters hotels))).
  { unfold booking_service.budget_filter.
    destruct (truthy_Q (SearchParameters.budget_max parameters)),
             (truthy_Q (SearchParameters.budget_min parameters));
      repeat apply NoDup_map_filter; done. }
  destruct (truthy_list (SearchParameters.preferences parameters)); [|done].
  rewrite sort_desc_scored_pairs.
  rewrite (filter_scored_self _ booking_service.positive).
  rewrite map_map. cbn [snd]. rewrite map_id.
  assert (Hs : NoDup (map f (PySort.sort_desc
                               (booking_service.preference_score
                                  (map PyStr.lower
                                     (get_or (SearchParameters.preferences
                                                parameters) [])))
                               (booking_service.budget_filter parameters hotels)))).
  { by rewrite (Permutation_map f (sort_desc_perm _ _)). }
  unfold booking_service.list_or.
  destruct (List.filter _ _) eqn:E; [done|].
  rewrite <- E. by apply NoDup_map_filter.
Qed.

Lemma mock_database_distinct (bi : Builtins) (location : string)
    (coords : Q * Q) (query_hash : string) :
  NoDup (map Hotel.id_str
           (booking_service._generate_mock_hotel_database bi location coords
              query_hash)).
Proof.
  change (map Hotel.id_str
            (booking_service._generate_mock_hotel_database bi location coords
               query_hash))
    with (map (fun suffix => query_hash ++ suffix)
            ["_luxury_1"; "_resort_1"; "_boutique_1"; "_business_1";
             "_family_1"; "_mid_1"; "_spa_1"; "_budget_1"; "_historic_1";
             "_eco_1"]).
  assert (Hinj : Inj (=) (=) (fun suffix => query_hash ++ suffix))
    by (intros a b; apply str_app_inv_head).
  apply (NoDup_fmap_2 (fun suffix => query_hash ++ suffix)).
  by apply (bool_decide_unpack _).
Qed.

Lemma mock_database_catalog (bi : Builtins) (location : string)
    (coords : Q * Q) (query_hash : string) :
  Forall (fun h => nonempty_str (Hotel.id_str h) = true
                   ∧ Hotel.city h = Some location
                   ∧ Hotel.currency h = Some "EUR"
                   ∧ (65 <= price_of h)%Q ∧ (price_of h <= 350)%Q)
    (booking_service._generate_mock_hotel_database bi location coords
       query_hash).
Proof.
  unfold booking_service._generate_mock_hotel_database.
  repeat (apply List.Forall_cons;
          [ split; [by apply str_app_nonempty|];
            split; [reflexivity|]; split; [reflexivity|];
            split; vm_compute; discriminate
          | ]).
  apply List.Forall_nil.
Qed.

(** Without inventory credential, and whenever the live request fails,
    [search_hotels] answers with the synthetic hotels of the query: at most
    ten hotels of the catalog for the resolved location, with distinct
    non-empty identifiers, the city of the query, prices in EUR between 65
    and 350, and every one within the budget bounds that are applied. *)
Theorem degraded_search_is_synthetic
    (self : booking_service.BookingService) (http : booking_service.Httpx)
    (bi : Builtins) (parameters : SearchParameters.t) :
  (booking_service.api_key self = ""
   ∨ ∃ e, booking_service.get_result http
            (booking_service.base_url self ++ "/hotels")
            (booking_service.api_key self)
            (booking_service._prepare_search_params parameters) = Raise e) →
  let hotels := booking_service.search_hotels self http bi parameters in
  hotels = booking_service._get_mock_hotels bi parameters
  ∧ (length hotels ≤ 10)%nat
  ∧ NoDup (map Hotel.id_str hotels)
  ∧ Forall (fun h =>
              nonempty_str (Hotel.id_str h) = true
              ∧ Hotel.city h = Some (booking_service.resolve_location parameters)
              ∧ Hotel.currency h = Some "EUR"
              ∧ (65 <= price_of h)%Q ∧ (price_of h <= 350)%Q
              ∧ within_max (SearchParameters.budget_max parameters) h
              ∧ within_min (SearchParameters.budget_min parameters) h)
      hotels.
Proof.
  intros Hdeg hotels.
  assert (Heq : hotels = booking_service._get_mock_hotels bi parameters).
  { unfold hotels, booking_service.search_hotels.
    destruct Hdeg as [Hk|[e He]].
    - by rewrite Hk.
    - destruct (nonempty_str (booking_service.api_key self)); [|done].
      by rewrite He. }
  split; [exact Heq|]. rewrite Heq. clear Heq hotels Hdeg.
  unfold booking_service._get_mock_hotels.
  set (location := booking_service.resolve_location parameters).
  set (db := booking_service._generate_mock_hotel_database bi location _ _).
  split.
  { unfold booking_service._filter_mock_hotels. rewrite cap_is_take.
    rewrite length_take.
    assert (Hl : (length (booking_service.budget_filter parameters db) ≤ 10)%nat).
    { unfold booking_service.budget_filter.
      destruct (truthy_Q (SearchParameters.budget_max parameters)),
               (truthy_Q (SearchParameters.budget_min parameters)).
      - etransitivity; [apply filter_length_le|].
        etransitivity; [apply filter_length_le|]. done.
      - etransitivity; [apply filter_length_le|]. done.
      - etransitivity; [apply filter_length_le|]. done.
      - done. }
    destruct (truthy_list (SearchParameters.preferences parameters)); [|lia].
    rewrite sort_desc_scored_pairs.
    rewrite (filter_scored_self _ booking_service.positive).
    rewrite map_map. cbn [snd]. rewrite map_id.
    unfold booking_service.list_or.
    destruct (List.filter _ _) eqn:E.
    - rewrite sort_desc_length. lia.
    - rewrite <- E.
      pose proof (filter_length_le
                    (fun a => booking_service.positive
                                (booking_service.preference_score
                                   (map PyStr.lower
                                      (get_or (SearchParameters.preferences
                                                 parameters) [])) a))
                    (PySort.sort_desc
                       (booking_service.preference_score
                          (map PyStr.lower
                             (get_or (SearchParameters.preferences parameters)
                                [])))
                       (booking_service.budget_filter parameters db))) as Hf.
      rewrite sort_desc_length in Hf. lia. }
  split.
  { apply filter_mock_hotels_NoDup, mock_database_distinct. }
  apply List.Forall_forall. intros h Hin.
  apply filter_mock_hotels_in_budget, budget_filter_In in Hin
    as (Hin & Hmax & Hmin).
  pose proof (proj1 (List.Forall_forall _ _)
                (mock_database_catalog bi location
                   (booking_service._get_location_coordinates
                      (PyStr.lower location))
                   (booking_service.query_hash bi parameters)) h Hin)
    as (H1 & H2 & H3 & H4 & H5).
  repeat split; done.
Qed.

Lemma degraded_search_witness :
  (length (booking_service.search_hotels
             (booking_service.__init__ ""
                "https://distribution-xml.booking.com/json")
             {| booking_service.get_result :=
                  fun _ _ _ => Raise (Exn HTTPError "unreachable") |}
             toy_builtins
             (query_for (Some "Rome") None (Some 200%Q) (Some ["romantic"])))
   ≤ 10)%nat.
Proof.
  apply (proj1 (proj2 (degraded_search_is_synthetic
                  (booking_service.__init__ ""
                     "https://distribution-xml.booking.com/json")
                  {| booking_service.get_result :=
                       fun _ _ _ => Raise (Exn HTTPError "unreachable") |}
                  toy_builtins
                  (query_for (Some "Rome") None (Some 200%Q) (Some ["romantic"]))
                  (or_introl eq_refl)))).
Defined.


(** ** Settings *)

Lemma lstrip_no_leading_space (s : string) :
  no_leading_space (PyStr.lstrip s) = true.
Proof.
  induction s as [|c s IH]; [done|].
  cbn [PyStr.lstrip]. destruct (PyStr.is_space c) eqn:E; [exact IH|].
  cbn [no_leading_space]. by rewrite E.
Qed.

Lemma rstrip_no_leading_space (s : string) :
  no_leading_space s = true → no_leading_space (PyStr.rstrip s) = true.
Proof.
  destruct s as [|c s]; [done|]. cbn [no_leading_space PyStr.rstrip].
  intros Hc. destruct (PyStr.rstrip s); [|done].
  destruct (PyStr.is_space c) eqn:E; [discriminate Hc|].
  cbn [no_leading_space]. by rewrite E.
Qed.

Lemma lstrip_fixed (s : string) :
  no_leading_space s = true → PyStr.lstrip s = s.
Proof.
  destruct s as [|c s]; [done|]. cbn [no_leading_space PyStr.lstrip].
  intros Hc. destruct (PyStr.is_space c); [discriminate Hc|done].
Qed.

Lemma rstrip_cons (c : ascii) (s : string) :
  PyStr.rstrip (String c s)
  = match PyStr.rstrip s with
    | EmptyString =>
        if PyStr.is_space c then EmptyString else String c EmptyString
    | r => String c r
    end.
Proof. reflexivity. Qed.

Lemma rstrip_idempotent (s : string) :
  PyStr.rstrip (PyStr.rstrip s) = PyStr.rstrip s.
Proof.
  induction s as [|c s IH]; [done|].
  rewrite (rstrip_cons c s). destruct (PyStr.rstrip s) as [|d r] eqn:E.
  - destruct (PyStr.is_space c) eqn:Ec; [done|].
    rewrite rstrip_cons. cbn [PyStr.rstrip]. by rewrite Ec.
  - rewrite rstrip_cons. by rewrite IH.
Qed.

Lemma strip_idempotent (s : string) :
  PyStr.strip (PyStr.strip s) = PyStr.strip s.
Proof.
  unfold PyStr.strip.
  rewrite (lstrip_fixed (PyStr.rstrip (PyStr.lstrip s)))
    by apply rstrip_no_leading_space, lstrip_no_leading_space.
  apply rstrip_idempotent.
Qed.

Lemma lstrip_no_comma (s : string) :
  no_comma s = true → no_comma (PyStr.lstrip s) = true.
Proof.
  induction s as [|c s IH]; [done|]. cbn [no_comma PyStr.lstrip].
  intros H. destruct (PyStr.is_space c); [|done].
  apply IH. by apply andb_true_iff in H as [_ H].
Qed.

Lemma rstrip_no_comma (s : string) :
  no_comma s = true → no_comma (PyStr.rstrip s) = true.
Proof.
  induction s as [|c s IH]; [done|]. cbn [no_comma PyStr.rstrip].
  intros H. apply andb_true_iff in H as [Hc H]. specialize (IH H).
  destruct (PyStr.rstrip s).
  - destruct (PyStr.is_space c); [done|]. cbn [no_comma]. by rewrite Hc.
  - cbn [no_comma] in *. by rewrite Hc, IH.
Qed.

Lemma split_comma_pieces (s : string) :
  config.split_comma s ≠ []
  ∧ Forall (fun piece => no_comma piece = true) (config.split_comma s).
Proof.
  induction s as [|c s [IH1 IH2]]; [by repeat constructor|].
  cbn [config.split_comma].
  destruct (Ascii.eqb c ",") eqn:E; [by repeat constructor|].
  destruct (config.split_comma s) as [|piece pieces]; [done|].
  split; [done|]. apply Forall_cons in IH2 as [Hp Hps].
  constructor; [|done]. cbn [no_comma]. by rewrite E, Hp.
Qed.

(** The allowed origins read from the settings are clean, whatever the
    text of [cors_origins]: no origin is empty, none has white space at
    either end (stripping it again changes nothing) and none contains a
    comma; pieces that are empty or blank are dropped, so a blank setting
    allows no origin. *)
Theorem cors_origins_are_clean (settings : config.Settings) :
  Forall (fun origin => origin ≠ ""
                        ∧ PyStr.strip origin = origin
                        ∧ no_comma origin = true)
    (config.cors_origins_list settings)
  ∧ (PyStr.strip (config.cors_origins settings) = "" →
     no_comma (config.cors_origins settings) = true →
     config.cors_origins_list settings = []).
Proof.
  unfold config.cors_origins_list. split.
  - apply List.Forall_forall. intros origin Hin.
    apply filter_In in Hin as [Hin Hne].
    apply in_map_iff in Hin as (piece & <- & Hin).
    split; [by destruct (PyStr.strip piece)|].
    split; [apply strip_idempotent|].
    apply rstrip_no_comma, lstrip_no_comma.
    exact (proj1 (List.Forall_forall _ _)
             (proj2 (split_comma_pieces (config.cors_origins settings)))
             piece Hin).
  - generalize (config.cors_origins settings). intros s Hs Hc.
    assert (Hsplit : config.split_comma s = [s]).
    { clear Hs. induction s as [|c s IH]; [done|].
      cbn [no_comma] in Hc. apply andb_true_iff in Hc as [Hc1 Hc2].
      cbn [config.split_comma].
      apply negb_true_iff in Hc1. rewrite Hc1, (IH Hc2). done. }
    rewrite Hsplit. cbn [map List.filter]. by rewrite Hs.
Qed.

(** ** The default deployment *)

(** Without OpenAI key, which is the default of the settings, no request
    is answered: whatever the demand, the store and the other
    collaborators, the endpoint answers with the error 500 that reports the
    attribute access on the missing client, and nothing is searched or
    stored. *)
Theorem no_openai_key_fails_every_request
    (settings : config.Settings) (connect : string → chatgpt_service.OpenAI)
    (json : chatgpt_service.Json) (http : booking_service.Httpx)
    (bi : Builtins) (user_demand : string) (db : hotel_crud.Session) :
  config.openai_api_key settings = "" →
  let out :=
    recommendations.recommend_hotels user_demand db
      (dependencies.services settings connect json http bi) in
  recommendations.response out
  = inr {| recommendations.status_code := 500;
           recommendations.detail :=
             "Error processing recommendation: "
             ++ "'NoneType' object has no attribute 'chat'" |}
  ∧ recommendations.steps out = [recommendations.ExtractParameters]
  ∧ recommendations.db_after out = db.
Proof.
  intros Hk out. unfold out, recommendations.recommend_hotels,
    dependencies.services, dependencies.get_chatgpt_service.
  cbn [recommendations.chatgpt recommendations.json].
  rewrite Hk. repeat split; reflexivity.
Qed.

Lemma no_openai_key_witness :
  recommendations.steps
    (recommendations.recommend_hotels "hotels under 150" (healthy_store ∅)
       (dependencies.services config.defaults (fun _ => replying_client "{}")
          no_json
          {| booking_service.get_result :=
               fun _ _ _ => Raise (Exn HTTPError "unreachable") |}
          toy_builtins))
  = [recommendations.ExtractParameters].
Proof.
  apply (proj1 (proj2 (no_openai_key_fails_every_request config.defaults
                  (fun _ => replying_client "{}") no_json
                  {| booking_service.get_result :=
                       fun _ _ _ => Raise (Exn HTTPError "unreachable") |}
                  toy_builtins "hotels under 150" (healthy_store ∅)
                  eq_refl))).
Defined.

(** ** The answer and the ranking *)

Lemma inl_eq_inv {A B : Type} (a b : A) : @inl A B a = inl b → a = b.
Proof. congruence. Qed.

Lemma hydrated_at_most_one (hotels : list Hotel.t) (db : hotel_crud.Session)
    (ids : list string) :
  (length (flat_map (hydrated hotels db) ids) ≤ length ids)%nat.
Proof.
  induction ids as [|hotel_id ids IH]; [done|].
  cbn [flat_map]. rewrite length_app. cbn [length].
  unfold hydrated at 1. destruct (hydration_policy hotels db hotel_id);
    cbn [length]; lia.
Qed.

(** The answer never has more hotels than the ranking returned
    identifiers: every ranked identifier gives at most one matched hotel, in
    ranking order, and an identifier that resolves neither in the fresh
    candidates nor in the store only shortens the answer.  An empty ranking
    gives an answer with [total_results = 0] and the message of a found
    search. *)
Theorem answer_is_bounded_by_ranking
    (user_demand : string) (db : hotel_crud.Session)
    (svc : recommendations.Services) (r : RecommendationResponse.t) :
  recommendations.response (recommendations.recommend_hotels user_demand db svc)
  = inl r →
  (RecommendationResponse.total_results r
   ≤ Z.of_nat (length (ranked_ids svc user_demand)))%Z
  ∧ (0 ≤ RecommendationResponse.total_results r)%Z
  ∧ (searched svc user_demand ≠ [] →
     ranked_ids svc user_demand = [] →
     RecommendationResponse.matched_hotels r = []
     ∧ RecommendationResponse.message r
       = Some "Found 0 hotels matching your preferences.").
Proof.
  intros H. unfold ranked_ids, searched.
  destruct (chatgpt_service.extract_search_parameters _ _ _)
    as [extracted|e] eqn:He;
    [|unfold recommendations.recommend_hotels in H; rewrite He in H;
      discriminate H].
  destruct (booking_service.search_hotels _ _ _ _) as [|h hotels] eqn:Es.
  - rewrite (recommend_hotels_empty _ _ _ _ He Es) in H.
    injection H as <-. split; [done|]. split; [done|]. done.
  - assert (Hne : booking_service.search_hotels (recommendations.booking svc)
                    (recommendations.httpx svc) (recommendations.builtins svc)
                    (recommendations.to_search_parameters extracted) ≠ [])
      by by rewrite Es.
    rewrite (recommend_hotels_found _ db _ _ He Hne) in H.
    cbv zeta in H. rewrite Es, map_hotels_policy in H.
    apply inl_eq_inv in H. rename H into Hr.
    set (ids := chatgpt_service.filter_hotels_by_demand _ _ _ _) in *.
    set (db' := fst (hotel_crud.bulk_create_or_update_hotels _ _)) in *.
    assert (Hm : RecommendationResponse.matched_hotels r
                 = flat_map (hydrated (h :: hotels) db') ids)
      by by rewrite <- Hr.
    assert (Ht : RecommendationResponse.total_results r
                 = Z.of_nat (length (flat_map (hydrated (h :: hotels) db') ids)))
      by by rewrite <- Hr.
    assert (Hmsg : RecommendationResponse.message r
                   = Some ("Found "
                           ++ pretty (length (flat_map
                                                (hydrated (h :: hotels) db') ids))
                           ++ " hotels matching your preferences."))
      by by rewrite <- Hr.
    clear Hr. rewrite Ht, Hm, Hmsg.
    split; [apply inj_le, hydrated_at_most_one|]. split; [lia|].
    intros _ Hids. rewrite Hids. by split.
Qed.

Lemma answer_is_bounded_witness :
  match recommendations.response
          (recommendations.recommend_hotels "romantic hotel in rome under 200"
             (read_only_store ∅) degraded_services) with
  | inl r =>
      (RecommendationResponse.total_results r
       ≤ Z.of_nat (length (ranked_ids degraded_services
                             "romantic hotel in rome under 200")))%Z
  | inr _ => False
  end.
Proof.
  destruct (recommendations.response
              (recommendations.recommend_hotels
                 "romantic hotel in rome under 200"
                 (read_only_store ∅) degraded_services)) as [r|err] eqn:E.
  - exact (proj1 (answer_is_bounded_by_ranking _ _ _ r E)).
  - vm_compute in E. discriminate E.
Defined.
